(** * CATCLIENT: installer and launch-command builder

    A shallow embedding of the install/launch pipeline that the four
    launcher scripts of the repository share ([Client.py], [Cat4k.py],
    [CAT2.1.X.py] and [$CATCLIENT1.1.py]), together with the account
    store.

    The scripts are dynamically typed programs over parsed JSON.  The
    embedding keeps that shape: descriptors are values of type [json],
    the dictionary and list operations of Python are functions that can
    raise, and the installer is written in a state-and-exception monad
    over an explicit disk and network.

    Boundaries of the embedding:
    - JSON numbers are integers; floats do not occur in the fields read.
    - A string is a sequence of characters with code points below 256.
    - A path is the string that [os.path.join] builds (POSIX flavour);
      two paths name the same file iff they are the same string.
    - Files extracted from native archives are kept in a separate
      component of the disk ([extracted]).
    - Directories are not represented; of permissions, only whether
      the file at a path can be opened for update ([locked], a set of
      paths that no call changes).
    - Status callbacks and [print] calls are not represented.
    - Where Python's behaviour on a value outside the manifest schema
      would need [repr] or cross-type equality, the model raises
      [Unmodelled]. *)

From Stdlib Require Import ZArith String Ascii List Bool Lia.
From stdpp Require Import base option list gmap strings fin_maps pretty.

Local Open Scope string_scope.
Local Open Scope Z_scope.
Set Warnings "-register-all".

(** ** Python values and exceptions *)

Inductive json : Type :=
| JNull
| JBool (b : bool)
| JNum (n : Z)
| JStr (s : string)
| JList (l : list json)
| JDict (d : list (string * json)).

Inductive exn : Type :=
| KeyError (k : string)
| TypeError
| AttributeError
| IndexError
| ValueError
| JSONDecodeError
| FileNotFoundError (path : string)
| BadZipFile
| PermissionError
| VersionNotFound (version_id : string)   (* "Version '...' not found in Mojang manifest." *)
| DownloadFailed (url : string)           (* "Failed to download ... from url" / "HTTP Error ..." *)
| DownloadGaveUp (retries : nat)          (* "Failed to download ... after N attempts" *)
| NameError (name : string)
| RecursionError                          (* the interpreter's bound on nested calls *)
| Unmodelled.

(** Outcome of a computation: a value, a raised exception, or a
    recursion that did not bottom out within the given depth. *)
Inductive res (A : Type) : Type :=
| Ok (a : A)
| Raise (e : exn)
| Diverge.
Arguments Ok {A} a.
Arguments Raise {A} e.
Arguments Diverge {A}.

Definition rbind {A B} (r : res A) (f : A -> res B) : res B :=
  match r with
  | Ok a => f a
  | Raise e => Raise e
  | Diverge => Diverge
  end.

Declare Scope res_scope.
Delimit Scope res_scope with res.
Notation "x <~ r ; k" := (rbind r (fun x => k))
  (at level 100, r at next level, right associativity) : res_scope.

(** ** Strings, the way the scripts use them *)

Fixpoint starts_with (p s : string) : bool :=
  match p, s with
  | EmptyString, _ => true
  | String a p', String b s' => bool_decide (a = b) && starts_with p' s'
  | String _ _, EmptyString => false
  end.

Fixpoint ends_with (suffix s : string) : bool :=
  bool_decide (s = suffix) ||
  match s with
  | EmptyString => false
  | String _ s' => ends_with suffix s'
  end.

(** [sub in s] on two strings *)
Fixpoint str_contains (sub s : string) : bool :=
  starts_with sub s ||
  match s with
  | EmptyString => false
  | String _ s' => str_contains sub s'
  end.

Fixpoint str_drop (n : nat) (s : string) : string :=
  match n, s with
  | O, _ => s
  | S n', String _ s' => str_drop n' s'
  | S _, EmptyString => EmptyString
  end.

Fixpoint str_take (n : nat) (s : string) : string :=
  match n, s with
  | O, _ => EmptyString
  | S n', String c s' => String c (str_take n' s')
  | S _, EmptyString => EmptyString
  end.

(** [s.replace(old, new)] for a non-empty [old]: leftmost, non-overlapping. *)
Fixpoint replace_from (fuel : nat) (old new s : string) : string :=
  match fuel with
  | O => s
  | S fuel' =>
      match s with
      | EmptyString => EmptyString
      | String c s' =>
          if starts_with old s
          then new +:+ replace_from fuel' old new (str_drop (String.length old) s)
          else String c (replace_from fuel' old new s')
      end
  end.

Definition str_replace (old new s : string) : string :=
  replace_from (String.length s) old new s.

(** [c.isspace()], for the characters below 256: what [str.split()]
    splits on and [str.strip()] removes. *)
Definition is_space (c : ascii) : bool :=
  let n := nat_of_ascii c in
  (Nat.eqb n 32 || (Nat.leb 9 n && Nat.leb n 13) || (Nat.leb 28 n && Nat.leb n 31)
   || Nat.eqb n 133 || Nat.eqb n 160)%bool.

Fixpoint lstrip (s : string) : string :=
  match s with
  | EmptyString => EmptyString
  | String c rest => if is_space c then lstrip rest else s
  end.

Fixpoint rstrip (s : string) : string :=
  match s with
  | EmptyString => EmptyString
  | String c rest =>
      if is_space c
      then (if bool_decide (rstrip rest = EmptyString) then EmptyString
            else String c (rstrip rest))
      else String c (rstrip rest)
  end.

(** [s.strip()] *)
Definition str_strip (s : string) : string := rstrip (lstrip s).

(** [s[:-1]] *)
Fixpoint str_init (s : string) : string :=
  match s with
  | EmptyString => EmptyString
  | String c EmptyString => EmptyString
  | String c rest => String c (str_init rest)
  end.

(** ** URLs, as [urllib.request.Request] reads them *)

(** [urllib.parse.unwrap]: strip, drop an enclosing [<...>], drop a
    leading [URL:]. *)
Definition unwrap (url : string) : string :=
  let url := str_strip url in
  let url := if starts_with "<" url && ends_with ">" url
             then str_strip (str_drop 1 (str_init url)) else url in
  if starts_with "URL:" url then str_strip (str_drop 4 url) else url.

(** [url.rpartition('#')]: the text before the last ['#'], if there is one. *)
Fixpoint before_last_hash (s : string) : option string :=
  match s with
  | EmptyString => None
  | String c rest =>
      match before_last_hash rest with
      | Some p => Some (String c p)
      | None => if bool_decide (c = "#"%char) then Some EmptyString else None
      end
  end.

Definition without_tag (url : string) : string :=
  match before_last_hash url with
  | Some p => p
  | None => url
  end.

(** The pattern of [_splittype] (one or more characters other than a
    slash and a colon, then a colon) matches at the start: the first
    slash or colon is a colon, and it is not the first character. *)
Fixpoint scheme_ends (seen : bool) (s : string) : bool :=
  match s with
  | EmptyString => false
  | String c rest =>
      if bool_decide (c = ":"%char) then seen
      else if bool_decide (c = "/"%char) then false
      else scheme_ends true rest
  end.

(** [Request(url)] does not raise "unknown url type". *)
Definition has_url_type (url : string) : bool :=
  scheme_ends false (without_tag (unwrap url)).

(** ** Dictionaries *)

Fixpoint dict_lookup (d : list (string * json)) (k : string) : option json :=
  match d with
  | [] => None
  | (k', v) :: d' => if bool_decide (k' = k) then Some v else dict_lookup d' k
  end.

(** [d[k] = v]: replace in place, or append a new key at the end. *)
Fixpoint dict_set (d : list (string * json)) (k : string) (v : json)
  : list (string * json) :=
  match d with
  | [] => [(k, v)]
  | (k', v') :: d' =>
      if bool_decide (k' = k) then (k', v) :: d' else (k', v') :: dict_set d' k v
  end.

(** Truth value of a JSON value in a Python condition. *)
Definition truthy (j : json) : bool :=
  match j with
  | JNull => false
  | JBool b => b
  | JNum n => negb (n =? 0)
  | JStr s => negb (bool_decide (s = EmptyString))
  | JList l => match l with [] => false | _ => true end
  | JDict d => match d with [] => false | _ => true end
  end.

(** [x.get(k, default)] *)
Definition py_get_d (x : json) (k : string) (default : json) : res json :=
  match x with
  | JDict d => Ok (match dict_lookup d k with Some v => v | None => default end)
  | _ => Raise AttributeError
  end.

(** [x.get(k)] *)
Definition py_get (x : json) (k : string) : res json := py_get_d x k JNull.

(** [x[k]] with a string key *)
Definition py_item (x : json) (k : string) : res json :=
  match x with
  | JDict d =>
      match dict_lookup d k with
      | Some v => Ok v
      | None => Raise (KeyError k)
      end
  | _ => Raise TypeError
  end.

(** [x == s] for a Python [str] s *)
Definition py_eq_str (x : json) (s : string) : bool :=
  match x with
  | JStr t => bool_decide (t = s)
  | _ => false
  end.

(** The values a [for] loop (or [any]) draws from [x]. *)
Definition py_iter (x : json) : res (list json) :=
  match x with
  | JList l => Ok l
  | JDict d => Ok (map (fun kv => JStr (fst kv)) d)
  | JStr s => Ok (map (fun c => JStr (String c EmptyString)) (list_ascii_of_string s))
  | _ => Raise TypeError
  end.

(** [a + b] *)
Definition int_of (j : json) : option Z :=
  match j with
  | JNum n => Some n
  | JBool b => Some (if b then 1 else 0)
  | _ => None
  end.

Definition py_add (a b : json) : res json :=
  match a, b with
  | JList l1, JList l2 => Ok (JList (l1 ++ l2))
  | JStr s1, JStr s2 => Ok (JStr (s1 +:+ s2))
  | _, _ =>
      match int_of a, int_of b with
      | Some m, Some n => Ok (JNum (m + n))
      | _, _ => Raise TypeError
      end
  end.

(** [a or b] on values *)
Definition py_or (a b : json) : json := if truthy a then a else b.

(** A value used where Python needs a [str] ([os.path.join], [str + str]). *)
Definition as_str (j : json) : res string :=
  match j with
  | JStr s => Ok s
  | _ => Raise TypeError
  end.

(** [any(p(x) for x in xs)]: stops at the first true; an exception
    raised by [p] before that point propagates. *)
Fixpoint py_any {A} (p : A -> res bool) (xs : list A) : res bool :=
  match xs with
  | [] => Ok false
  | x :: xs' =>
      match p x with
      | Ok true => Ok true
      | Ok false => py_any p xs'
      | Raise e => Raise e
      | Diverge => Diverge
      end
  end.

(** ** Rule evaluation (Cat4k.py [lib_rules_allow], and the same
    expression inline in every [install_version]) *)

Section Rules.
(** The OS name the scripts compare against: the literal ["osx"] in
    Client.py and CAT2.1.X.py;
    ["osx" if IS_MAC else "windows" if ... else "linux"] in Cat4k.py. *)
Variable current_os : string.

Definition rule_allows (rule : json) : res bool :=
  (action <~ py_item rule "action";
   if py_eq_str action "allow" then
     os <~ py_get rule "os";
     if negb (truthy os) then Ok true
     else
       os' <~ py_item rule "os";
       name <~ py_get os' "name";
       Ok (py_eq_str name current_os)
   else Ok false)%res.

Definition rules_allow (rules : json) : res bool :=
  if negb (truthy rules) then Ok true
  else (rs <~ py_iter rules; py_any rule_allows rs)%res.

Definition lib_rules_allow (lib : json) : res bool :=
  (rules <~ py_get_d lib "rules" (JList []); rules_allow rules)%res.
End Rules.

(** *** The rule data model in the specification's words *)

Record Rule := {
  r_allow : bool;                (* action: allow (true) or disallow *)
  r_os : option string;          (* os.name *)
  r_arch : option string         (* os.arch *)
}.

Record Platform := { p_os : string; p_arch : string }.

Definition rule_os_json (r : Rule) : list (string * json) :=
  match r_os r, r_arch r with
  | None, None => []
  | _, _ =>
      [("os", JDict (match r_os r with Some n => [("name", JStr n)] | None => [] end ++
                     match r_arch r with Some a => [("arch", JStr a)] | None => [] end))]
  end.

Definition rule_json (r : Rule) : json :=
  JDict (("action", JStr (if r_allow r then "allow" else "disallow")) :: rule_os_json r).

Definition lib_with_rules (rs : list Rule) : json :=
  JDict [("name", JStr "lib"); ("rules", JList (map rule_json rs))].

(** "a rule matches if its OS constraint is absent or equals the
    platform's OS name, and its arch constraint, if present, equals the
    platform's architecture" *)
Definition spec_matches (p : Platform) (r : Rule) : bool :=
  match r_os r with None => true | Some n => bool_decide (n = p_os p) end &&
  match r_arch r with None => true | Some a => bool_decide (a = p_arch p) end.

(** "fold over rules in order, tracking the verdict of the most recently
    matched rule ... defaulting to false if no rule ever matched" *)
Definition spec_isAllowed (rs : list Rule) (p : Platform) : bool :=
  match rs with
  | [] => true
  | _ => fold_left (fun verdict r => if spec_matches p r then r_allow r else verdict) rs false
  end.

(** What the scripts look at: an allow rule with no [os] object, or
    whose [os.name] is the current OS.  The architecture is not read. *)
Definition allow_applies (os : string) (r : Rule) : bool :=
  r_allow r &&
  match r_os r, r_arch r with
  | None, None => true
  | Some n, _ => bool_decide (n = os)
  | None, Some _ => false
  end.

Definition ex_rules : list Rule :=
  [ {| r_allow := true; r_os := None; r_arch := None |};
    {| r_allow := false; r_os := Some "windows"; r_arch := None |} ].


(** ** More Python operations used by the installer *)

(** [k in c] *)
Definition py_in (k c : json) : res bool :=
  match c, k with
  | JDict d, JStr s => Ok (bool_decide (is_Some (dict_lookup d s)))
  | JDict _, (JList _ | JDict _) => Raise TypeError          (* unhashable key *)
  | JDict _, _ => Ok false                                   (* every key is a str *)
  | JList l, JStr s => Ok (existsb (fun x => py_eq_str x s) l)
  | JList _, _ => Raise Unmodelled
  | JStr t, JStr s => Ok (str_contains s t)
  | _, _ => Raise TypeError
  end.

(** [d.items()] *)
Definition py_items (x : json) : res (list (string * json)) :=
  match x with
  | JDict d => Ok d
  | _ => Raise AttributeError
  end.

(** [f"{x}"] *)
Definition py_str (x : json) : res string :=
  match x with
  | JStr s => Ok s
  | JNum n => Ok (pretty n)
  | JBool b => Ok (if b then "True" else "False")
  | JNull => Ok "None"
  | _ => Raise Unmodelled
  end.

(** [os.path.join(a, b)] (posixpath); with more components it is
    applied from left to right. *)
Definition path_join (a b : string) : string :=
  if starts_with "/" b then b
  else if bool_decide (a = EmptyString) || ends_with "/" a then a +:+ b
  else a +:+ "/" +:+ b.

(** ** Disk and network *)

Inductive content : Type :=
| CJson (j : json)                  (* a file [json.load] accepts *)
| CZip (members : list string)      (* a zip archive and its [namelist()] *)
| CBlob.                            (* anything else *)

(** What one [urlopen] plus copy to the destination does. *)
Inductive outcome : Type :=
| Body (c : content)                (* response copied to the destination *)
| HTTPError                         (* urllib.error.HTTPError *)
| Failure                           (* any other exception before the file is opened *)
| Interrupted (partial : content)   (* the copy broke off after the file was opened *)
| Denied.                           (* PermissionError opening the destination *)

Record disk := {
  files : gmap string content;            (* regular files, by path *)
  extracted : list (string * string);     (* (natives directory, member) written by extraction *)
  requests : list (string * string);      (* every urlopen issued: (url, destination) *)
  sleeps : list nat;                      (* every time.sleep, in seconds *)
  locked : gset string                    (* paths at which open(p, 'r+') is refused *)
}.

Definition set_files (f : gmap string content -> gmap string content) (s : disk) : disk :=
  {| files := f (files s); extracted := extracted s;
     requests := requests s; sleeps := sleeps s; locked := locked s |}.
Definition add_extracted (e : list (string * string)) (s : disk) : disk :=
  {| files := files s; extracted := extracted s ++ e;
     requests := requests s; sleeps := sleeps s; locked := locked s |}.
Definition add_request (url dest : string) (s : disk) : disk :=
  {| files := files s; extracted := extracted s;
     requests := requests s ++ [(url, dest)]; sleeps := sleeps s; locked := locked s |}.
Definition add_sleep (n : nat) (s : disk) : disk :=
  {| files := files s; extracted := extracted s;
     requests := requests s; sleeps := sleeps s ++ [n]; locked := locked s |}.

(** ** The state-and-exception monad of the scripts *)

Definition M (A : Type) : Type := disk -> res A * disk.

Definition ret {A} (a : A) : M A := fun s => (Ok a, s).
Definition lift {A} (r : res A) : M A := fun s => (r, s).
Definition raise {A} (e : exn) : M A := fun s => (Raise e, s).
Definition bind {A B} (m : M A) (f : A -> M B) : M B :=
  fun s =>
    match m s with
    | (Ok a, s') => f a s'
    | (Raise e, s') => (Raise e, s')
    | (Diverge, s') => (Diverge, s')
    end.

Declare Scope m_scope.
Delimit Scope m_scope with M.
Notation "x <- m ;; k" := (bind m (fun x => k))
  (at level 100, m at next level, right associativity) : m_scope.
Notation "m ;;; k" := (bind m (fun _ => k))
  (at level 100, right associativity) : m_scope.

(** [for x in xs: body(x)] *)
Fixpoint for_each {A} (xs : list A) (body : A -> M unit) : M unit :=
  match xs with
  | [] => ret tt
  | x :: xs' => bind (body x) (fun _ => for_each xs' body)
  end.

(** [try: m  except Exception: pass] *)
Definition try_except (m : M unit) : M unit :=
  fun s =>
    match m s with
    | (Raise _, s') => (Ok tt, s')
    | r => r
    end.

(** [os.path.isfile(p)] *)
Definition isfile (p : string) : M bool :=
  fun s => (Ok (bool_decide (is_Some (files s !! p))), s).

(** [with open(p, 'r') as f: json.load(f)] *)
Definition json_load (p : string) : M json :=
  fun s =>
    match files s !! p with
    | None => (Raise (FileNotFoundError p), s)
    | Some (CJson j) => (Ok j, s)
    | Some _ => (Raise JSONDecodeError, s)
    end.

(** The [skinVersion] patch at the end of [install_version]
    (Cat4k.py 363-374, CAT2.1.X.py 274-284) on the parsed document. *)
Definition patch_json (data : json) : json :=
  match data with
  | JDict d =>
      if truthy (match dict_lookup d "skinVersion" with Some v => v | None => JBool false end)
      then data
      else JDict (dict_set d "skinVersion" (JBool true))
  | _ => data
  end.

Definition needs_patch (data : json) : bool :=
  match py_get_d data "skinVersion" (JBool false) with
  | Ok v => negb (truthy v)
  | _ => false
  end.

(** The same block on the disk.  Every exception is swallowed by the
    [except]: a file that is missing or that [open(..., 'r+')] refuses,
    and a document that does not parse or is no object.  Nothing is
    written unless the [if] is taken. *)
Definition patch_skin_version (version_json_path : string) : M unit :=
  fun s =>
    match files s !! version_json_path with
    | Some (CJson data) =>
        if bool_decide (version_json_path ∈ locked s) then (Ok tt, s)
        else if needs_patch data
        then (Ok tt, set_files (insert version_json_path (CJson (patch_json data))) s)
        else (Ok tt, s)
    | _ => (Ok tt, s)
    end.

(** [with zipfile.ZipFile(native_path) as zf: for member in zf.namelist(): ...] *)
Definition wanted_member (member : string) : bool :=
  negb (starts_with "META-INF/" member) && negb (ends_with "/" member).

Definition extract_natives (native_path natives_dir : string) : M unit :=
  fun s =>
    match files s !! native_path with
    | None => (Raise (FileNotFoundError native_path), s)
    | Some (CZip members) =>
        (Ok tt, add_extracted (map (fun m => (natives_dir, m)) (filter (fun m => wanted_member m = true) members)) s)
    | Some _ => (Raise BadZipFile, s)
    end.

(** ** The host, and what differs between the scripts *)

Record host := {
  system : string;       (* platform.system() *)
  machine : string       (* platform.machine() *)
}.

Definition ascii_lower (c : ascii) : ascii :=
  let n := nat_of_ascii c in
  if (Nat.leb 65 n && Nat.leb n 90)%bool then ascii_of_nat (n + 32) else c.

Fixpoint str_lower (s : string) : string :=
  match s with
  | EmptyString => EmptyString
  | String c s' => String (ascii_lower c) (str_lower s')
  end.

Record variant := {
  rule_os : string;                              (* OS name compared with [rule.os.name] *)
  secure_assets : bool;                          (* ASSET_BASE_URL starts with https *)
  native_key_of : json -> json -> res json;      (* natives_info, classifiers |-> native_key *)
  use_native_key : json -> json -> res bool;     (* the test guarding the native download *)
  extraction_guarded : bool;                     (* extraction wrapped in try/except *)
  patches_skin : bool                            (* the skinVersion block is present *)
}.

Definition LIBRARIES_BASE_URL : string := "https://libraries.minecraft.net/".

(** ASSET_BASE_URL: Client.py asks over http, the other scripts over https. *)
Definition asset_base_url (v : variant) : string :=
  if secure_assets v then "https://resources.download.minecraft.net/"
  else "http://resources.download.minecraft.net/".

Module Client.
(** Client.py; the installer of CAT2.1.X.py takes the same native key *)
Definition is_arm64 (h : host) : bool := bool_decide (machine h = "arm64").

(** Client.py 207 *)
Definition choose_native_key (h : host) (natives_info classifiers : json) : res json :=
  (arm <~ (if is_arm64 h then py_in (JStr "natives-osx-arm64") classifiers else Ok false);
   if arm : bool then Ok (JStr "natives-osx-arm64")
   else
     t <~ py_get_d natives_info "osx" (JStr "");
     match t with
     | JStr s => Ok (JStr (str_replace "${arch}" "64" s))
     | _ => Raise AttributeError
     end)%res.

Definition variant (h : host) : variant :=
  {| rule_os := "osx";
     secure_assets := false;
     native_key_of := choose_native_key h;
     use_native_key := py_in;
     extraction_guarded := false;
     patches_skin := false |}.
End Client.

Module CAT21X.
Definition variant (h : host) : variant :=
  {| rule_os := "osx";
     secure_assets := true;
     native_key_of := Client.choose_native_key h;
     use_native_key := py_in;
     extraction_guarded := false;
     patches_skin := true |}.
End CAT21X.

Module Cat4k.
Definition IS_MAC (h : host) : bool := bool_decide (system h = "Darwin").

Definition is_arm64 (h : host) : bool :=
  let m := str_lower (machine h) in
  bool_decide (m = "arm64") || bool_decide (m = "aarch64").

(** ["osx" if IS_MAC else "windows" if platform.system() == "Windows" else "linux"] *)
Definition current_os (h : host) : string :=
  if IS_MAC h then "osx"
  else if bool_decide (system h = "Windows") then "windows" else "linux".

(** Cat4k.py 313-320 *)
Definition choose_native_key (h : host) (natives_info classifiers : json) : res json :=
  (arm <~ (if IS_MAC h && is_arm64 h
           then py_in (JStr "natives-osx-arm64") classifiers else Ok false);
   if arm : bool then Ok (JStr "natives-osx-arm64")
   else
     native_key <~ py_get natives_info (current_os h);
     match native_key with
     | JStr s =>
         if truthy native_key then Ok (JStr (str_replace "${arch}" "64" s))
         else Ok native_key
     | _ => Ok native_key
     end)%res.

(** Cat4k.py 322: [native_key and native_key in classifiers] *)
Definition key_usable (native_key classifiers : json) : res bool :=
  if truthy native_key then py_in native_key classifiers else Ok false.

Definition variant (h : host) : variant :=
  {| rule_os := current_os h;
     secure_assets := true;
     native_key_of := choose_native_key h;
     use_native_key := key_usable;
     extraction_guarded := true;
     patches_skin := true |}.
End Cat4k.

(** [urllib.request.Request(url)], built before anything is sent: it
    reads [str(url)] and raises ValueError when that has no type.  The
    [str] of null, a bool or an int has no colon. *)
Definition url_of (url : json) : res string :=
  match url with
  | JStr s => if has_url_type s then Ok s else Raise ValueError
  | JNull | JBool _ | JNum _ => Raise ValueError
  | JList _ | JDict _ => Raise Unmodelled
  end.

(** ** install_version *)

Section Installer.
Variable mc_dir : string.                       (* the Minecraft directory *)
Variable all_versions : gmap string json.       (* id |-> url, from the version manifest *)
Variable net : nat -> string -> outcome.        (* the n-th request overall, and its URL *)
Variable v : variant.

Definition VERSIONS_DIR : string := path_join mc_dir "versions".
Definition ASSETS_DIR : string := path_join mc_dir "assets".
Definition LIBRARIES_DIR : string := path_join mc_dir "libraries".

Definition version_folder_of (version_id : string) : string :=
  path_join VERSIONS_DIR version_id.
Definition version_json_path_of (version_id : string) : string :=
  path_join (version_folder_of version_id) (version_id +:+ ".json").
Definition version_jar_path_of (version_id : string) : string :=
  path_join (version_folder_of version_id) (version_id +:+ ".jar").

(** [download_file] of Client.py 109-119, Cat4k.py 206-218,
    CAT2.1.X.py 129-144: one attempt. *)
Definition download_file (url : json) (dest_path : string) : M unit :=
  (u <- lift (url_of url);;
   fun s =>
     let s1 := add_request u dest_path s in
     match net (length (requests s)) u with
     | Body c => (Ok tt, set_files (insert dest_path c) s1)
     | Interrupted c => (Raise (DownloadFailed u), set_files (insert dest_path c) s1)
     | _ => (Raise (DownloadFailed u), s1)
     end)%M.

(** [if not os.path.isfile(p): ...] *)
Definition unless_file (p : string) (m : M unit) : M unit :=
  (present <- isfile p;; if present : bool then ret tt else m)%M.

(** [artifact.get("url") or (LIBRARIES_BASE_URL + artifact["path"])] *)
Definition artifact_url (artifact : json) : res json :=
  (u <~ py_get artifact "url";
   if truthy u then Ok u
   else (p <~ py_item artifact "path"; py_add (JStr LIBRARIES_BASE_URL) p))%res.

(** The classpath artifact of one library (Cat4k.py 300-307). *)
Definition install_artifact (lib : json) : M unit :=
  (downloads <- lift (py_get_d lib "downloads" (JDict []));;
   artifact <- lift (py_get downloads "artifact");;
   if truthy artifact then
     path <- lift (py_get artifact "path");;
     if truthy path then
       p <- lift (p <~ py_item artifact "path"; as_str p)%res;;
       let lib_path := path_join LIBRARIES_DIR p in
       unless_file lib_path
         (lib_url <- lift (artifact_url artifact);;
          download_file lib_url lib_path)
     else ret tt
   else ret tt)%M.

Definition extract (native_path natives_dir : string) : M unit :=
  if extraction_guarded v
  then try_except (extract_natives native_path natives_dir)
  else extract_natives native_path natives_dir.

(** The native archive of one library (Cat4k.py 309-339). *)
Definition install_natives (version_folder : string) (lib : json) : M unit :=
  (natives_info <- lift (py_get lib "natives");;
   downloads <- lift (py_get_d lib "downloads" (JDict []));;
   classifiers <- lift (py_get_d downloads "classifiers" (JDict []));;
   if truthy natives_info && truthy classifiers then
     native_key <- lift (native_key_of v natives_info classifiers);;
     use <- lift (use_native_key v native_key classifiers);;
     if use : bool then
       native_artifact <- lift (k <~ as_str native_key; py_item classifiers k)%res;;
       p <- lift (p <~ py_item native_artifact "path"; as_str p)%res;;
       let native_path := path_join LIBRARIES_DIR p in
       unless_file native_path
         (native_url <- lift (artifact_url native_artifact);;
          download_file native_url native_path);;;
       extract native_path (path_join version_folder "natives")
     else ret tt
   else ret tt)%M.

(** One turn of [for i, lib in enumerate(libraries)] (Cat4k.py 283-339). *)
Definition install_library (version_folder : string) (lib : json) : M unit :=
  (allowed <- lift (lib_rules_allow (rule_os v) lib);;
   if allowed : bool then
     install_artifact lib;;;
     install_natives version_folder lib
   else ret tt)%M.

(** Where an asset object lives. *)
Definition asset_path_of (hash_val : string) : string :=
  path_join (path_join (path_join ASSETS_DIR "objects") (str_take 2 hash_val)) hash_val.
Definition asset_url_of (hash_val : string) : string :=
  asset_base_url v +:+ str_take 2 hash_val +:+ "/" +:+ hash_val.

(** One turn of [for asset_name, info in idx_data["objects"].items()]. *)
Definition install_asset (entry : string * json) : M unit :=
  (hash_val <- lift (py_get (snd entry) "hash");;
   if truthy hash_val then
     h <- lift (as_str hash_val);;
     unless_file (asset_path_of h)
       (download_file (JStr (asset_url_of h)) (asset_path_of h))
   else ret tt)%M.

(** The asset index and its objects (Cat4k.py 341-361). *)
Definition asset_index_info_of (version_data parent_data : json) : res json :=
  (own <~ py_get version_data "assetIndex";
   if truthy own then Ok own else py_get parent_data "assetIndex")%res.

Definition install_objects (idx_data : json) : M unit :=
  (items <- lift (objects <~ py_item idx_data "objects"; py_items objects)%res;;
   for_each items install_asset)%M.

Definition install_assets (version_data parent_data : json) : M unit :=
  (asset_index_info <- lift (asset_index_info_of version_data parent_data);;
   if truthy asset_index_info then
     idx_id <- lift (py_item asset_index_info "id");;
     idx_url <- lift (py_item asset_index_info "url");;
     name <- lift (py_str idx_id);;
     let idx_dest := path_join (path_join ASSETS_DIR "indexes") (name +:+ ".json") in
     unless_file idx_dest (download_file idx_url idx_dest);;;
     idx_data <- json_load idx_dest;;
     install_objects idx_data
   else ret tt)%M.

(** The client jar (Cat4k.py 274-280). *)
Definition install_client (version_id : string) (version_data : json) : M unit :=
  (downloads <- lift (py_get_d version_data "downloads" (JDict []));;
   client_info <- lift (py_get downloads "client");;
   if truthy client_info then
     unless_file (version_jar_path_of version_id)
       (client_url <- lift (py_get client_info "url");;
        if truthy client_url
        then download_file client_url (version_jar_path_of version_id)
        else ret tt)
   else ret tt)%M.

(** [version_data.get("libraries", []) + parent_data.get("libraries", [])] *)
Definition merged_libraries (version_data parent_data : json) : res json :=
  (own <~ py_get_d version_data "libraries" (JList []);
   inherited <~ py_get_d parent_data "libraries" (JList []);
   py_add own inherited)%res.

(** Cat4k.py 274-361 once [version_data] and [parent_data] are known. *)
Definition install_files (version_id : string) (version_data parent_data : json) : M unit :=
  (install_client version_id version_data;;;
   libraries <- lift (l <~ merged_libraries version_data parent_data; py_iter l)%res;;
   for_each libraries (install_library (version_folder_of version_id));;;
   install_assets version_data parent_data)%M.

(** Cat4k.py 264-272: the parent is installed first, then its
    descriptor is read; without a parent [parent_data] is [{}]. *)
Definition install_parent (install : json -> M unit) (version_data : json) : M json :=
  (parent_id <- lift (py_get version_data "inheritsFrom");;
   if truthy parent_id then
     install parent_id;;;
     pid <- lift (as_str parent_id);;
     json_load (version_json_path_of pid)
   else ret (JDict []))%M.

(** Cat4k.py 252-259: the descriptor is fetched unless it is cached. *)
Definition fetch_descriptor (version_id : string) : M unit :=
  unless_file (version_json_path_of version_id)
    (version_url <- lift (match all_versions !! version_id with
                          | Some url => Ok url
                          | None => Raise (VersionNotFound version_id)
                          end);;
     download_file version_url (version_json_path_of version_id))%M.

Definition patch_step (version_id : string) : M unit :=
  if patches_skin v then patch_skin_version (version_json_path_of version_id)
  else ret tt.

(** [install_version(version_id)].  [depth] bounds the nesting of the
    recursive calls; the interpreter has such a bound, the script
    itself has none. *)
Fixpoint install_version (depth : nat) (version_id : json) : M unit :=
  match depth with
  | O => lift Diverge
  | S depth' =>
      (vid <- lift (as_str version_id);;
       fetch_descriptor vid;;;
       version_data <- json_load (version_json_path_of vid);;
       parent_data <- install_parent (install_version depth') version_data;;
       install_files vid version_data parent_data;;;
       patch_step vid)%M
  end.

End Installer.

(** ** download_file with retries ($CATCLIENT1.1.py 92-115) *)

Section Retry.
Variable net : nat -> string -> outcome.

(** The [while attempt < retries] loop.  [fuel] only makes the
    recursion structural; [download_file_retry] passes enough. *)
Fixpoint download_attempts (fuel attempt retries : nat) (u dest_path : string) : M bool :=
  if Nat.ltb attempt retries then
    match fuel with
    | O => lift Diverge
    | S fuel' =>
        fun s =>
          let s1 := add_request u dest_path s in
          let again (s2 : disk) :=
            download_attempts fuel' (S attempt) retries u dest_path
              (add_sleep (2 ^ S attempt)%nat s2) in
          match net (length (requests s)) u with
          | Body c => (Ok true, set_files (insert dest_path c) s1)
          | HTTPError => again s1
          | Denied => (Raise PermissionError, s1)
          | Failure => again s1
          | Interrupted c => again (set_files (insert dest_path c) s1)
          end
    end
  else raise (DownloadGaveUp retries).

Definition download_file_retry (url : json) (dest_path : string) (retries : nat) : M bool :=
  (u <- lift (url_of url);; download_attempts retries 0 retries u dest_path)%M.
End Retry.

(** ** Accounts ([add_account], the same in the four scripts) *)

Section Accounts.
Variable uuid3 : string -> string.    (* str(uuid.uuid3(uuid.NAMESPACE_DNS, name)) *)

(** [password_token or "null" if acc_type in [...] else "0"] *)
Definition account_token (acc_type : string) (password_token : option string) : string :=
  if bool_decide (acc_type = "tlauncher") || bool_decide (acc_type = "microsoft")
  then match password_token with
       | Some t => if bool_decide (t = EmptyString) then "null" else t
       | None => "null"
       end
  else "0".

Definition make_account (acc_type email_username : string)
    (password_token : option string) : json :=
  JDict [ ("type", JStr acc_type);
          ("username", JStr email_username);
          ("uuid", JStr (uuid3 email_username));
          ("token", JStr (account_token acc_type password_token));
          ("client", if bool_decide (acc_type = "lunar") then JStr "lunar" else JNull) ].

(** [existing_acc.get("type") == acc_type and existing_acc.get("username") == email_username] *)
Definition same_account (acc_type email_username : string) (existing_acc : json) : res bool :=
  (t <~ py_get existing_acc "type";
   if py_eq_str t acc_type then
     u <~ py_get existing_acc "username";
     Ok (py_eq_str u email_username)
   else Ok false)%res.

(** The index at which the [for i, existing_acc in enumerate(accounts)]
    loop stops, if it does. *)
Fixpoint find_account (acc_type email_username : string) (i : nat) (accounts : list json)
  : res (option nat) :=
  match accounts with
  | [] => Ok None
  | existing_acc :: rest =>
      (same <~ same_account acc_type email_username existing_acc;
       if same : bool then Ok (Some i)
       else find_account acc_type email_username (S i) rest)%res
  end.

(** [add_account]: the new value of the global [accounts], which
    [save_accounts] then writes out. *)
Definition add_account (acc_type email_username : string)
    (password_token : option string) (accounts : list json) : res (list json) :=
  if bool_decide (email_username = EmptyString) then Ok accounts
  else
    let acc := make_account acc_type email_username password_token in
    (found <~ find_account acc_type email_username 0 accounts;
     match found with
     | Some i => Ok (<[i := acc]> accounts)
     | None => Ok (accounts ++ [acc])%list
     end)%res.
End Accounts.

(** ** str.split() and str.format with keyword arguments *)

(** [s.split()]: split on runs of whitespace, no empty pieces. *)
Fixpoint split_from (s current : string) : list string :=
  match s with
  | EmptyString => if bool_decide (current = EmptyString) then [] else [current]
  | String c rest =>
      if is_space c
      then (if bool_decide (current = EmptyString) then split_from rest EmptyString
            else current :: split_from rest EmptyString)
      else split_from rest (current +:+ String c EmptyString)
  end.

Definition py_split (s : string) : list string := split_from s EmptyString.

Definition is_digit (c : ascii) : bool :=
  let n := nat_of_ascii c in (Nat.leb 48 n && Nat.leb n 57)%bool.

Fixpoint all_digits (s : string) : bool :=
  match s with
  | EmptyString => true
  | String c rest => is_digit c && all_digits rest
  end.

(** Characters that start an attribute, index, conversion or format
    specification inside a replacement field; fields using them are
    outside the model. *)
Definition field_special (c : ascii) : bool :=
  existsb (fun d => bool_decide (c = d)) ["{"; "!"; ":"; "."; "["; "]"]%char.

(** The value a replacement field [{name}] stands for, given only
    keyword arguments. *)
Definition field_value (kw : list (string * json)) (name : string) : res string :=
  if all_digits name then
    (* positional field, and there are no positional arguments *)
    if Nat.leb (String.length name) 18 then Raise IndexError else Raise Unmodelled
  else
    match dict_lookup kw name with
    | Some value => py_str value
    | None => Raise (KeyError name)
    end.

(** [s.format] with the keyword arguments [kw].  [field] is [None] in literal text and
    [Some name_so_far] inside a replacement field. *)
Fixpoint format_from (kw : list (string * json)) (s : string) (field : option string)
  : res string :=
  match field with
  | None =>
      match s with
      | EmptyString => Ok EmptyString
      | String "{" (String "{" rest) =>
          (t <~ format_from kw rest None; Ok (String "{" t))%res
      | String "{" rest => format_from kw rest (Some EmptyString)
      | String "}" (String "}" rest) =>
          (t <~ format_from kw rest None; Ok (String "}" t))%res
      | String "}" _ => Raise ValueError
      | String c rest => (t <~ format_from kw rest None; Ok (String c t))%res
      end
  | Some name =>
      match s with
      | EmptyString => Raise ValueError
      | String "}" rest =>
          (value <~ field_value kw name;
           t <~ format_from kw rest None;
           Ok (value +:+ t))%res
      | String c rest =>
          if field_special c then Raise Unmodelled
          else format_from kw rest (Some (name +:+ String c EmptyString))
      end
  end.

Definition py_format (s : string) (kw : list (string * json)) : res string :=
  format_from kw s None.

(** [x.format] with keywords [kw] on a JSON value: only a [str] has the method. *)
Definition json_format (kw : list (string * json)) (x : json) : res json :=
  match x with
  | JStr s => (t <~ py_format s kw; Ok (JStr t))%res
  | _ => Raise AttributeError
  end.

(** [x[0]] *)
Definition py_first (x : json) : res json :=
  match x with
  | JList (y :: _) => Ok y
  | JList [] => Raise IndexError
  | JStr (String c _) => Ok (JStr (String c EmptyString))
  | JStr EmptyString => Raise IndexError
  | JDict _ => Raise (KeyError "0")
  | _ => Raise TypeError
  end.

(** [sep.join(xs)] *)
Fixpoint str_join (sep : string) (xs : list string) : string :=
  match xs with
  | [] => EmptyString
  | [x] => x
  | x :: rest => x +:+ sep +:+ str_join sep rest
  end.

(** Run [f] over [xs] in order and concatenate what it yields; the
    first exception ends the run. *)
Fixpoint res_concat_map {A B} (f : A -> res (list B)) (xs : list A) : res (list B) :=
  match xs with
  | [] => Ok []
  | x :: rest =>
      (ys <~ f x; zs <~ res_concat_map f rest; Ok (ys ++ zs)%list)%res
  end.

Fixpoint m_collect {A B} (f : A -> M (list B)) (xs : list A) : M (list B) :=
  match xs with
  | [] => ret []
  | x :: rest =>
      (ys <- f x;; zs <- m_collect f rest;; ret (ys ++ zs)%list)%M
  end.

(** [classpath.add(x)] on a set kept as a duplicate-free list *)
Definition set_add (x : string) (l : list string) : list string :=
  if bool_decide (x ∈ l) then l else (l ++ [x])%list.

(** ** launch_game, from the return of [install_version] to the
    command handed to [subprocess.Popen] *)

Record launch_options := {
  ram_mb : Z;
  java_path : string;
  game_dir : option string;
  server_ip : option string;
  port : option Z;
  use_rosetta : bool;
  lunar_client : bool
}.

Section Launch.
Variable mc_dir : string.
Variable h : host.
Variable rosetta_active : bool.                 (* detect_rosetta() *)
Variable abspath : string -> string.            (* os.path.abspath *)
Variable pathsep : string.                      (* os.pathsep *)
Variable set_order : list string -> list string.  (* the order in which a set is iterated *)

Variable version_id : string.
Variable account : json.
Variable opts : launch_options.

(** [game_dir or mc_dir] *)
Definition effective_game_dir : string :=
  match game_dir opts with
  | Some d => if bool_decide (d = EmptyString) then mc_dir else d
  | None => mc_dir
  end.

Definition natives_dir_absolute : string :=
  abspath (path_join (version_folder_of mc_dir version_id) "natives").

(** Client.py 299-304, Cat4k.py 495-500: the direct parent's descriptor *)
Definition load_parent (vdata : json) : M json :=
  (inherits <- lift (py_get vdata "inheritsFrom");;
   if truthy inherits then
     pid <- lift (p <~ py_item vdata "inheritsFrom"; as_str p)%res;;
     json_load (version_json_path_of mc_dir pid)
   else ret (JDict []))%M.

Definition main_class_of (vdata parent_data : json) : res json :=
  (own <~ py_get vdata "mainClass";
   inherits <~ py_get vdata "inheritsFrom";
   if truthy inherits then
     (if truthy own then Ok own else py_get parent_data "mainClass")
   else Ok own)%res.

(** One library's contribution to the classpath, given the rule test. *)
Definition classpath_entry (allowed : json -> res bool) (lib : json) : M (list string) :=
  (ok <- lift (allowed lib);;
   if ok : bool then
     downloads <- lift (py_get_d lib "downloads" (JDict []));;
     artifact <- lift (py_get downloads "artifact");;
     if truthy artifact then
       path <- lift (py_get artifact "path");;
       if truthy path then
         p <- lift (p <~ py_item artifact "path"; as_str p)%res;;
         let lib_file := path_join (LIBRARIES_DIR mc_dir) p in
         present <- isfile lib_file;;
         ret (if present : bool then [abspath lib_file] else [])
       else ret []
     else ret []
   else ret [])%M.

(** Client.py 314-320, Cat4k.py 524-530 *)
Definition jar_entry (vdata : json) : M (list string) :=
  (present <- isfile (version_jar_path_of mc_dir version_id);;
   if present : bool then ret [abspath (version_jar_path_of mc_dir version_id)]
   else
     inherits <- lift (py_get vdata "inheritsFrom");;
     if truthy inherits then
       pid <- lift (p <~ py_item vdata "inheritsFrom"; as_str p)%res;;
       parent_present <- isfile (version_jar_path_of mc_dir pid);;
       ret (if parent_present : bool then [abspath (version_jar_path_of mc_dir pid)] else [])
     else ret [])%M.

Definition classpath_of (allowed : json -> res bool) (vdata parent_data : json)
  : M (list string) :=
  (libs <- lift (l <~ merged_libraries vdata parent_data; py_iter l)%res;;
   entries <- m_collect (classpath_entry allowed) libs;;
   jar <- jar_entry vdata;;
   ret (fold_left (fun acc x => set_add x acc) (entries ++ jar)%list []))%M.

(** [(vdata.get("assetIndex") or parent_data.get("assetIndex", {})).get("id", "legacy")] *)
Definition assets_index_name (vdata parent_data : json) : res json :=
  (own <~ py_get vdata "assetIndex";
   info <~ (if truthy own then Ok own else py_get_d parent_data "assetIndex" (JDict []));
   py_get_d info "id" (JStr "legacy"))%res.

Definition user_type (acc_type : json) : string :=
  if py_eq_str acc_type "microsoft" then "msa" else "legacy".

Definition server_args : list json :=
  match server_ip opts with
  | Some ip =>
      if bool_decide (ip = EmptyString) then []
      else [JStr "--server"; JStr ip] ++
           match port opts with
           | Some p => if (p =? 0)%Z then [] else [JStr "--port"; JStr (pretty p)]
           | None => []
           end
  | None => []
  end%list.

Definition base_jvm_args : list json :=
  [ JStr ("-Xmx" +:+ pretty (ram_mb opts) +:+ "M");
    JStr ("-Djava.library.path=" +:+ natives_dir_absolute) ].

Definition cp_args (classpath : list string) : list json :=
  [ JStr "-cp"; JStr (str_join pathsep (set_order classpath)) ].

(** *** Client.py

    CAT2.1.X.py builds the two raw argument lists with the same
    expressions (395-398); its replacement table, its conditional JVM
    arguments and the end of its command differ and are not embedded. *)

(** Client.py 307: [any(...) or not lib.get("rules")] *)
Definition client_lib_allowed (lib : json) : res bool :=
  (rules <~ py_get_d lib "rules" (JList []);
   rs <~ py_iter rules;
   some_allow <~ py_any (rule_allows "osx") rs;
   if some_allow : bool then Ok true
   else (r <~ py_get lib "rules"; Ok (negb (truthy r))))%res.

(** Client.py 329-331 *)
Definition client_raw_jvm_args (vdata parent_data : json) : res json :=
  (args_data <~ py_get_d vdata "arguments" (JDict []);
   parent_args_data <~ py_get_d parent_data "arguments" (JDict []);
   inherited <~ py_get_d parent_args_data "jvm" (JList []);
   own <~ py_get_d args_data "jvm" (JList []);
   py_add inherited own)%res.

(** Client.py 332 *)
Definition client_raw_game_args (vdata parent_data : json) : res json :=
  (args_data <~ py_get_d vdata "arguments" (JDict []);
   parent_args_data <~ py_get_d parent_data "arguments" (JDict []);
   inherited <~ py_get_d parent_args_data "game" (JList []);
   own <~ py_get_d args_data "game" (JList []);
   both <~ py_add inherited own;
   if truthy both then Ok both
   else
     legacy <~ py_get_d vdata "minecraftArguments" (JStr EmptyString);
     match legacy with
     | JStr s => Ok (JList (map JStr (py_split s)))
     | _ => Raise AttributeError
     end)%res.

(** Client.py 334-348: the keys carry the dollar sign and the braces. *)
Definition client_replacements (vdata parent_data : json) : res (list (string * json)) :=
  (username <~ py_item account "username";
   index_name <~ assets_index_name vdata parent_data;
   uuid <~ py_item account "uuid";
   token <~ py_item account "token";
   acc_type <~ py_item account "type";
   version_type <~ py_get_d vdata "type" (JStr "release");
   Ok [ ("${auth_player_name}", username);
        ("${version_name}", JStr version_id);
        ("${game_directory}", JStr effective_game_dir);
        ("${assets_root}", JStr (abspath (ASSETS_DIR mc_dir)));
        ("${assets_index_name}", index_name);
        ("${auth_uuid}", uuid);
        ("${auth_access_token}", token);
        ("${user_type}", JStr (user_type acc_type));
        ("${version_type}", version_type);
        ("${natives_directory}", JStr natives_dir_absolute);
        ("${classpath_separator}", JStr pathsep);
        ("${launcher_name}", JStr (if lunar_client opts then "LunarClient" else "CatClient-M1"));
        ("${launcher_version}", JStr "1.2") ])%res.

(** Client.py 350-355: one turn of [for arg in raw_jvm_args] *)
Definition client_jvm_arg (replacements : list (string * json)) (arg : json)
  : res (list json) :=
  match arg with
  | JStr _ => (t <~ json_format replacements arg; Ok [t])%res
  | JDict _ =>
      (rules <~ py_item arg "rules";
       rs <~ py_iter rules;
       allowed <~ py_any (rule_allows "osx") rs;
       if allowed : bool then
         value <~ py_item arg "value";
         match value with
         | JList _ => Raise (NameError "v")
         | _ => (t <~ json_format replacements value; Ok [t])
         end
       else Ok [])%res
  | _ => Ok []
  end.

(** Client.py 358: one element of the list comprehension *)
Definition client_game_arg (replacements : list (string * json)) (arg : json)
  : res (list json) :=
  match arg with
  | JStr _ => (t <~ json_format replacements arg; Ok [t])%res
  | JDict d =>
      if bool_decide (is_Some (dict_lookup d "value")) then
        (value <~ py_item arg "value";
         first <~ py_first value;
         t <~ json_format replacements first;
         Ok [t])%res
      else Ok []
  | _ => Ok []
  end.

Definition client_is_arm64 : bool := Client.is_arm64 h.

(** Client.py 150-153 *)
Definition client_run_with_rosetta (cmd : list json) : list json :=
  if client_is_arm64 && negb rosetta_active
  then ([JStr "arch"; JStr "-x86_64"] ++ cmd)%list else cmd.

(** Client.py 291-365: the command given to [subprocess.Popen] *)
Definition client_launch_command : M (list json) :=
  (vdata <- json_load (version_json_path_of mc_dir version_id);;
   parent_data <- load_parent vdata;;
   main_class <- lift (main_class_of vdata parent_data);;
   classpath <- classpath_of client_lib_allowed vdata parent_data;;
   main_class <- lift (if lunar_client opts then
                         (is_vanilla <~ py_in (JStr "net.minecraft.client.main.Main") main_class;
                          Ok (if is_vanilla : bool
                              then JStr "com.moonsworth.lunar.genesis.Genesis"
                              else main_class))%res
                       else Ok main_class);;
   raw_jvm_args <- lift (client_raw_jvm_args vdata parent_data);;
   raw_game_args <- lift (client_raw_game_args vdata parent_data);;
   replacements <- lift (client_replacements vdata parent_data);;
   jvm <- lift (args <~ py_iter raw_jvm_args;
                res_concat_map (client_jvm_arg replacements) args)%res;;
   game <- lift (args <~ py_iter raw_game_args;
                 res_concat_map (client_game_arg replacements) args)%res;;
   let jvm_args :=
     (base_jvm_args ++
      (if client_is_arm64
       then [JStr "-XX:+UseG1GC"; JStr "-XX:MaxGCPauseMillis=200"; JStr "-XX:ParallelGCThreads=4"]
       else []) ++
      (if lunar_client opts
       then [JStr "-Dfml.ignoreInvalidMinecraftCertificates=true";
             JStr "-Dorg.lwjgl.opengl.Display.allowSoftwareOpenGL=true"]
       else []) ++
      jvm ++ cp_args classpath)%list in
   let command := ([JStr (java_path opts)] ++ jvm_args ++ [main_class] ++ game ++ server_args)%list in
   ret (if use_rosetta opts then client_run_with_rosetta command else command))%M.

(** *** Cat4k.py *)

(** Cat4k.py 552-558 *)
Definition cat4k_raw_jvm_args (vdata parent_data : json) : res json :=
  (args_data <~ py_get_d vdata "arguments" (JDict []);
   parent_args_data <~ py_get_d parent_data "arguments" (JDict []);
   inherited <~ py_get_d parent_args_data "jvm" (JList []);
   py_get_d args_data "jvm" inherited)%res.

Definition cat4k_raw_game_args (vdata parent_data : json) : res json :=
  (args_data <~ py_get_d vdata "arguments" (JDict []);
   parent_args_data <~ py_get_d parent_data "arguments" (JDict []);
   inherited <~ py_get_d parent_args_data "game" (JList []);
   raw <~ py_get_d args_data "game" inherited;
   has_legacy <~ (if truthy raw then Ok false else py_in (JStr "minecraftArguments") vdata);
   if has_legacy : bool then
     legacy <~ py_item vdata "minecraftArguments";
     match legacy with
     | JStr s => Ok (JList (map JStr (py_split s)))
     | _ => Raise AttributeError
     end
   else Ok raw)%res.

(** Cat4k.py 560-574: bare names as keys *)
Definition cat4k_replacements (vdata parent_data : json) : res (list (string * json)) :=
  (username <~ py_item account "username";
   index_name <~ assets_index_name vdata parent_data;
   uuid <~ py_item account "uuid";
   token <~ py_item account "token";
   acc_type <~ py_item account "type";
   version_type <~ py_get_d vdata "type" (JStr "release");
   Ok [ ("auth_player_name", username);
        ("version_name", JStr version_id);
        ("game_directory", JStr effective_game_dir);
        ("assets_root", JStr (abspath (ASSETS_DIR mc_dir)));
        ("assets_index_name", index_name);
        ("auth_uuid", uuid);
        ("auth_access_token", token);
        ("user_type", JStr (user_type acc_type));
        ("version_type", version_type);
        ("natives_directory", JStr natives_dir_absolute);
        ("classpath_separator", JStr pathsep);
        ("launcher_name", JStr (if lunar_client opts then "LunarClient" else "CatClient"));
        ("launcher_version", JStr "0.1.0") ])%res.

(** [{k: v for k, v in replacements.items() if k in arg}] *)
Definition present_keys (replacements : list (string * json)) (arg : string)
  : list (string * json) :=
  List.filter (fun kv => str_contains (fst kv) arg) replacements.

(** [except KeyError: print(...)]: the argument is dropped, whatever
    was appended before the exception stays. *)
Definition skip_key_error (r : res (list json)) : res (list json) :=
  match r with
  | Raise (KeyError _) => Ok []
  | _ => r
  end.

(** A literal token (Cat4k.py 578-583, 600-604) *)
Definition cat4k_literal (replacements : list (string * json)) (arg : string)
  : res (list json) :=
  skip_key_error (t <~ py_format arg (present_keys replacements arg); Ok [JStr t])%res.

(** [for v in value: args.append(v.format( **replacements))] inside
    the [try]: the values appended so far, and how the loop ended. *)
Fixpoint cat4k_append_all (replacements : list (string * json)) (values : list json)
  : list json * res unit :=
  match values with
  | [] => ([], Ok tt)
  | x :: rest =>
      match json_format replacements x with
      | Ok t => let (done, r) := cat4k_append_all replacements rest in (t :: done, r)
      | Raise e => ([], Raise e)
      | Diverge => ([], Diverge)
      end
  end.

(** The value of a conditional token (Cat4k.py 585-593, 606-614) *)
Definition cat4k_value (replacements : list (string * json)) (value : json)
  : res (list json) :=
  match value with
  | JList values =>
      match cat4k_append_all replacements values with
      | (done, Ok _) => Ok done
      | (done, Raise (KeyError _)) => Ok done
      | (_, Raise e) => Raise e
      | (_, Diverge) => Diverge
      end
  | _ => skip_key_error (t <~ json_format replacements value; Ok [t])%res
  end.

(** One turn of [for arg in raw_jvm_args] (Cat4k.py 577-593) *)
Definition cat4k_jvm_arg (replacements : list (string * json)) (arg : json)
  : res (list json) :=
  match arg with
  | JStr s => cat4k_literal replacements s
  | JDict _ =>
      (rules <~ py_get_d arg "rules" (JList []);
       rs <~ py_iter rules;
       allowed <~ py_any (fun r => (a <~ py_item r "action"; Ok (py_eq_str a "allow"))) rs;
       if allowed : bool then (value <~ py_item arg "value"; cat4k_value replacements value)
       else Ok [])%res
  | _ => Ok []
  end.

(** One turn of [for arg in raw_game_args] (Cat4k.py 599-614) *)
Definition cat4k_game_arg (replacements : list (string * json)) (arg : json)
  : res (list json) :=
  match arg with
  | JStr s => cat4k_literal replacements s
  | JDict d =>
      if bool_decide (is_Some (dict_lookup d "value")) then
        (value <~ py_item arg "value"; cat4k_value replacements value)%res
      else Ok []
  | _ => Ok []
  end.

(** Cat4k.py 82-89 and 622-623 *)
Definition cat4k_run_with_rosetta (cmd : list json) : list json :=
  if Cat4k.IS_MAC h && Cat4k.is_arm64 h && negb (Cat4k.IS_MAC h && rosetta_active)
  then ([JStr "arch"; JStr "-x86_64"] ++ cmd)%list else cmd.

(** Cat4k.py 487-623: the command given to [subprocess.Popen] *)
Definition cat4k_launch_command : M (list json) :=
  (vdata <- json_load (version_json_path_of mc_dir version_id);;
   parent_data <- load_parent vdata;;
   main_class <- lift (main_class_of vdata parent_data);;
   classpath <- classpath_of (lib_rules_allow (Cat4k.current_os h)) vdata parent_data;;
   main_class <- lift (if lunar_client opts && truthy main_class then
                         (is_vanilla <~ py_in (JStr "net.minecraft.client.main.Main") main_class;
                          Ok (if is_vanilla : bool
                              then JStr "com.moonsworth.lunar.genesis.Genesis"
                              else main_class))%res
                       else Ok main_class);;
   raw_jvm_args <- lift (cat4k_raw_jvm_args vdata parent_data);;
   raw_game_args <- lift (cat4k_raw_game_args vdata parent_data);;
   replacements <- lift (cat4k_replacements vdata parent_data);;
   jvm <- lift (args <~ py_iter raw_jvm_args;
                res_concat_map (cat4k_jvm_arg replacements) args)%res;;
   game <- lift (args <~ py_iter raw_game_args;
                 res_concat_map (cat4k_game_arg replacements) args)%res;;
   let jvm_args :=
     (base_jvm_args ++
      (if Cat4k.is_arm64 h
       then [JStr "-XX:+UseG1GC"; JStr "-XX:MaxGCPauseMillis=200";
             JStr "-XX:ParallelGCThreads=4"; JStr "-Dapple.awt.application.name=Cat Client"]
       else []) ++
      (if lunar_client opts
       then [JStr "-Dfml.ignoreInvalidMinecraftCertificates=true";
             JStr "-Dorg.lwjgl.opengl.Display.allowSoftwareOpenGL=true"]
       else []) ++
      jvm ++ cp_args classpath)%list in
   let command := ([JStr (java_path opts)] ++ jvm_args ++ [main_class] ++ game ++ server_args)%list in
   ret (if use_rosetta opts && Cat4k.IS_MAC h then cat4k_run_with_rosetta command else command))%M.
End Launch.

(** ** A small installation used in the examples *)

Module Example.
Definition mc : string := "/mc".
Definition linux : host := {| system := "Linux"; machine := "x86_64" |}.
Definition empty_disk : disk :=
  {| files := ∅; extracted := []; requests := []; sleeps := []; locked := ∅ |}.

(** A child version ["c"] inheriting from ["p"]. *)
Definition child : json :=
  JDict [ ("id", JStr "c"); ("inheritsFrom", JStr "p");
          ("libraries",
           JList [JDict [("name", JStr "lc");
                         ("downloads",
                          JDict [("artifact",
                                  JDict [("path", JStr "a/lc.jar");
                                         ("url", JStr "http://x/lc")])])]]);
          ("arguments",
           JDict [("jvm", JList [JStr "-Dchild=1"]);
                  ("game", JList [JStr "--username"; JStr "${auth_player_name}"])]) ].

Definition parent : json :=
  JDict [ ("id", JStr "p");
          ("mainClass", JStr "net.minecraft.client.main.Main");
          ("downloads", JDict [("client", JDict [("url", JStr "http://x/p.jar")])]);
          ("assetIndex", JDict [("id", JStr "17"); ("url", JStr "http://x/idx")]);
          ("libraries",
           JList [JDict [("name", JStr "lp");
                         ("downloads",
                          JDict [("artifact", JDict [("path", JStr "a/lp.jar")])])]]);
          ("arguments",
           JDict [("jvm", JList [JStr "-Dparent=1"]);
                  ("game", JList [JStr "--demo"])]) ].

Definition asset_index : json :=
  JDict [("objects",
          JDict [("icons/icon.png", JDict [("hash", JStr "abc123"); ("size", JNum 10)])])].

(** Descriptors that already carry a truthy [skinVersion]. *)
Definition flagged : json := JDict [("id", JStr "f"); ("skinVersion", JBool true)].
Definition flagged_yes : json := JDict [("id", JStr "y"); ("skinVersion", JStr "yes")].

Definition versions : gmap string json :=
  <["c" := JStr "http://m/c.json"]>
    (<["p" := JStr "http://m/p.json"]>
       (<["f" := JStr "http://m/f.json"]>
          (<["y" := JStr "http://m/y.json"]> ∅))).

(** A network on which every request succeeds. *)
Definition net (n : nat) (url : string) : outcome :=
  if bool_decide (url = "http://m/c.json") then Body (CJson child)
  else if bool_decide (url = "http://m/p.json") then Body (CJson parent)
  else if bool_decide (url = "http://m/f.json") then Body (CJson flagged)
  else if bool_decide (url = "http://m/y.json") then Body (CJson flagged_yes)
  else if bool_decide (url = "http://x/idx") then Body (CJson asset_index)
  else Body CBlob.


Definition dead (n : nat) (url : string) : outcome := Failure.

Definition install (depth : nat) (version_id : string) (s : disk) : res unit * disk :=
  install_version mc versions net (Cat4k.variant linux) depth (JStr version_id) s.

Definition installed : disk := snd (install 5 "c" empty_disk).


Definition steve : json :=
  JDict [ ("type", JStr "offline"); ("username", JStr "Steve");
          ("uuid", JStr "0000"); ("token", JStr "0"); ("client", JNull) ].

Definition options : launch_options :=
  {| ram_mb := 1024; java_path := "java"; game_dir := None;
     server_ip := None; port := None; use_rosetta := false; lunar_client := false |}.
End Example.

(** ** Hashes *)

Definition hex_digit (c : ascii) : bool :=
  let n := nat_of_ascii c in
  ((Nat.leb 48 n && Nat.leb n 57) || (Nat.leb 97 n && Nat.leb n 102)
   || (Nat.leb 65 n && Nat.leb n 70))%bool.

Fixpoint all_hex (s : string) : bool :=
  match s with
  | EmptyString => true
  | String c rest => hex_digit c && all_hex rest
  end.

(** A non-empty string of hexadecimal digits. *)
Definition is_hash (h : string) : bool :=
  negb (bool_decide (h = EmptyString)) && all_hex h.

Fixpoint no_slash (s : string) : bool :=
  match s with
  | EmptyString => true
  | String c rest => negb (bool_decide (c = "/"%char)) && no_slash rest
  end.


(** ** The account list *)

Definition is_dict (j : json) : Prop :=
  match j with
  | JDict _ => True
  | _ => False
  end.

(** At most one record answers to any given (type, username). *)
Definition unique_accounts (accounts : list json) : Prop :=
  forall acc_type username (i j : nat) a b,
    accounts !! i = Some a -> accounts !! j = Some b ->
    same_account acc_type username a = Ok true ->
    same_account acc_type username b = Ok true ->
    i = j.

(** [k in d] for a descriptor field *)
Definition has_key (j : json) (k : string) : bool :=
  match j with
  | JDict d => bool_decide (is_Some (dict_lookup d k))
  | _ => false
  end.

Fixpoint no_brace (s : string) : bool :=
  match s with
  | EmptyString => true
  | String c rest =>
      negb (bool_decide (c = "{"%char)) && negb (bool_decide (c = "}"%char)) && no_brace rest
  end.

Module ExampleLaunch.
Definition client_command : res (list json) :=
  fst (client_launch_command Example.mc Example.linux false (fun p => p) ":" (fun l => l)
         "c" Example.steve Example.options Example.installed).
Definition cat4k_command : res (list json) :=
  fst (cat4k_launch_command Example.mc Example.linux false (fun p => p) ":" (fun l => l)
         "c" Example.steve Example.options Example.installed).
End ExampleLaunch.

(** ** Notions used to state the properties *)

(** Two documents that the patch makes equal. *)
Definition same_json (j j2 : json) : Prop := patch_json j = patch_json j2.

Definition patch_content (c : content) : content :=
  match c with
  | CJson j => CJson (patch_json j)
  | _ => c
  end.

Definition same_doc (c c2 : content) : Prop := patch_content c = patch_content c2.

(** Every file of [s] is still in [s2], unchanged up to the patch. *)
Definition covers (s s2 : disk) : Prop :=
  forall p c, files s !! p = Some c -> exists c2, files s2 !! p = Some c2 /\ same_doc c c2.

(** A successful run only adds files or patches descriptors. *)
Definition mono {A} (m : M A) : Prop :=
  forall s a s', m s = (Ok a, s') -> covers s s'.

(** After a successful run, a second run on any disk covering the
    result succeeds with a related value and issues no request. *)
Definition idem {A} (R : A -> A -> Prop) (m : M A) : Prop :=
  forall s a s', m s = (Ok a, s') ->
  forall s2, covers s' s2 ->
  exists a2 s2', m s2 = (Ok a2, s2') /\ R a a2 /\ covers s2 s2' /\ requests s2' = requests s2.

Definition nice {A} (R : A -> A -> Prop) (m : M A) : Prop := mono m /\ idem R m.

(** What is run when [p] is missing either creates [p] or does nothing
    at all, on any disk. *)
Definition fills (p : string) (m : M unit) : Prop :=
  forall s s', m s = (Ok tt, s') -> files s !! p = None ->
    covers s s' /\ (is_Some (files s' !! p) \/ forall s2, m s2 = (Ok tt, s2)).


(** The descriptor install_version works from: the cached one, or the
    one the first request delivers. *)
Definition descriptor_obtained (mc_dir : string) (all_versions : gmap string json)
  (net : nat -> string -> outcome) (s : disk) (vid : string) (j0 : json) : Prop :=
  files s !! version_json_path_of mc_dir vid = Some (CJson j0) \/
  (files s !! version_json_path_of mc_dir vid = None /\
   exists url, all_versions !! vid = Some (JStr url) /\
               net (length (requests s)) url = Body (CJson j0)).


(** The libraries of [Example.child] and [Example.parent]. *)
Definition child_libs : list json :=
  [JDict [("name", JStr "lc");
          ("downloads", JDict [("artifact", JDict [("path", JStr "a/lc.jar");
                                                   ("url", JStr "http://x/lc")])])]].
Definition parent_libs : list json :=
  [JDict [("name", JStr "lp");
          ("downloads", JDict [("artifact", JDict [("path", JStr "a/lp.jar")])])]].


(** * Further properties of the scripts: the notions they are stated with *)

Definition succeeded {A} (r : res A) : Prop :=
  match r with
  | Ok _ => True
  | _ => False
  end.

(** What a run may do to a file that was there: leave it as it is, or,
    if it is the descriptor of a version, is not locked and carries no
    truthy skinVersion, store it again with skinVersion true. *)
Definition kept (mc_dir : string) (s s' : disk) : Prop :=
  forall p c, files s !! p = Some c ->
    files s' !! p = Some c \/
    exists vid j,
      p = version_json_path_of mc_dir vid /\ (p ∉ locked s) /\
      c = CJson j /\ needs_patch j = true /\
      files s' !! p = Some (CJson (patch_json j)).

(** What one run, from [s] to [s'], may do to the disk and the request
    log: files are kept, every new request is for a destination that
    did not exist at the start, no destination is requested twice, and
    if the run succeeded every requested destination exists at the
    end. *)
Definition tidy_run (mc_dir : string) (s : disk) (ok : Prop) (s' : disk) : Prop :=
  kept mc_dir s s' /\ locked s' = locked s /\
  exists new : list (string * string),
    requests s' = (requests s ++ new)%list /\
    (forall u d, (u, d) ∈ new -> files s !! d = None) /\
    NoDup (snd <$> new) /\
    (ok -> forall u d, (u, d) ∈ new -> is_Some (files s' !! d)).

Definition tidy (mc_dir : string) {A} (m : M A) : Prop :=
  forall s r s', m s = (r, s') -> tidy_run mc_dir s (succeeded r) s'.

(** The same for what runs when [p] is missing. *)
Definition tidy_at (mc_dir : string) (p : string) (m : M unit) : Prop :=
  forall s r s', files s !! p = None -> m s = (r, s') -> tidy_run mc_dir s (succeeded r) s'.

(** The cached descriptors lead from [vid] to a version without parent
    in at most [n] steps. *)
Inductive chain_ends (mc_dir : string) (s : disk) : nat -> string -> Prop :=
| chain_root n vid j parent :
    files s !! version_json_path_of mc_dir vid = Some (CJson j) ->
    py_get j "inheritsFrom" = Ok parent ->
    truthy parent = false ->
    chain_ends mc_dir s (S n) vid
| chain_step n vid j parent :
    files s !! version_json_path_of mc_dir vid = Some (CJson j) ->
    py_get j "inheritsFrom" = Ok (JStr parent) ->
    parent <> EmptyString ->
    chain_ends mc_dir s n parent ->
    chain_ends mc_dir s (S n) vid.

(** A value or an exception, not an unfinished recursion. *)
Definition returns {A} (r : res A) : Prop := r <> Diverge.

Definition finite {A} (m : M A) : Prop := forall s, returns (fst (m s)).

(** The two script-specific tests on native keys always answer. *)
Definition answering (v : variant) : Prop :=
  forall a b, returns (native_key_of v a b) /\ returns (use_native_key v a b).

(** A chain of three cached descriptors, c3 -> c2 -> c1. *)
Definition three_deep : disk :=
  {| files :=
       <[version_json_path_of Example.mc "c3" := CJson (JDict [("inheritsFrom", JStr "c2")])]>
         (<[version_json_path_of Example.mc "c2" := CJson (JDict [("inheritsFrom", JStr "c1")])]>
            (<[version_json_path_of Example.mc "c1" := CJson (JDict [("id", JStr "c1")])]> ∅));
     extracted := []; requests := []; sleeps := []; locked := ∅ |}.

(** ** What a finished installation consists of *)

(** The artifact of every allowed library of [libs] is on disk. *)
Definition libraries_ready (mc_dir : string) (v : variant) (s : disk) (libs : list json) : Prop :=
  forall lib downloads artifact p,
    lib ∈ libs ->
    lib_rules_allow (rule_os v) lib = Ok true ->
    py_get_d lib "downloads" (JDict []) = Ok downloads ->
    py_get downloads "artifact" = Ok artifact ->
    py_get artifact "path" = Ok (JStr p) ->
    p <> EmptyString ->
    is_Some (files s !! path_join (LIBRARIES_DIR mc_dir) p).

(** The object of every hashed entry of an asset index is on disk. *)
Definition objects_ready (mc_dir : string) (s : disk) (items : list (string * json)) : Prop :=
  forall name info h,
    (name, info) ∈ items ->
    py_get info "hash" = Ok (JStr h) ->
    h <> EmptyString ->
    is_Some (files s !! asset_path_of mc_dir h).

(** The asset index a descriptor names is on disk, with its objects. *)
Definition assets_ready (mc_dir : string) (s : disk) (asset_index_info : json) : Prop :=
  truthy asset_index_info = true ->
  exists idx_id name idx_data items,
    py_item asset_index_info "id" = Ok idx_id /\
    py_str idx_id = Ok name /\
    files s !! path_join (path_join (ASSETS_DIR mc_dir) "indexes") (name +:+ ".json")
      = Some (CJson idx_data) /\
    rbind (py_item idx_data "objects") py_items = Ok items /\
    objects_ready mc_dir s items.

(** The client jar a descriptor declares is on disk. *)
Definition client_ready (mc_dir : string) (s : disk) (vid : string) (j : json) : Prop :=
  forall downloads client url,
    py_get_d j "downloads" (JDict []) = Ok downloads ->
    py_get downloads "client" = Ok client ->
    truthy client = true ->
    py_get client "url" = Ok url ->
    truthy url = true ->
    is_Some (files s !! version_jar_path_of mc_dir vid).

Definition own_ready (mc_dir : string) (v : variant) (s : disk) (vid : string) (j : json) : Prop :=
  is_dict j /\
  client_ready mc_dir s vid j /\
  (forall own_libs, py_get_d j "libraries" (JList []) = Ok (JList own_libs) ->
                    libraries_ready mc_dir v s own_libs) /\
  (forall info, py_get j "assetIndex" = Ok info -> assets_ready mc_dir s info).

(** A version is ready when its descriptor is cached and is an object,
    what the descriptor itself declares is on disk, and its parent is
    ready. *)
Inductive version_ready (mc_dir : string) (v : variant) (s : disk) : json -> Prop :=
| ready vid j :
    files s !! version_json_path_of mc_dir vid = Some (CJson j) ->
    own_ready mc_dir v s vid j ->
    (forall parent_id, py_get j "inheritsFrom" = Ok parent_id -> truthy parent_id = true ->
                       version_ready mc_dir v s parent_id) ->
    version_ready mc_dir v s (JStr vid).

(** ** load_version_manifest (Client.py 125-138, CAT2.1.X.py 155-167,
    Cat4k.py 227-238 and, with the retrying download, the fourth
    script's 121-132) *)

(** The constant of Cat4k.py 45, CAT2.1.X.py 43 and the fourth script's
    16, and the literal that Client.py 129 asks for instead. *)
Definition VERSION_MANIFEST_URL : string :=
  "https://launchermeta.mojang.com/mc/game/version_manifest.json".
Definition VERSION_MANIFEST_V2_URL : string :=
  "https://launchermeta.mojang.com/mc/game/version_manifest_v2.json".

Definition version_manifest_path (mc_dir : string) : string :=
  path_join mc_dir "version_manifest_v2.json".

(** One turn of the dict comprehension [{v['id']: v['url'] for v in ...}].
    [all_versions] is only ever read with a [str] key, so an entry whose
    id is another hashable value is left out of the map; a list or a
    dict as id is unhashable. *)
Definition manifest_entry (acc : gmap string json) (v : json) : res (gmap string json) :=
  (id <~ py_item v "id";
   url <~ py_item v "url";
   match id with
   | JStr k => Ok (<[k := url]> acc)
   | JList _ | JDict _ => Raise TypeError
   | _ => Ok acc
   end)%res.

Fixpoint manifest_entries (acc : gmap string json) (vs : list json) : res (gmap string json) :=
  match vs with
  | [] => Ok acc
  | v :: rest => (acc' <~ manifest_entry acc v; manifest_entries acc' rest)%res
  end.

Definition all_versions_of (version_manifest : json) : res (gmap string json) :=
  (versions <~ py_item version_manifest "versions";
   vs <~ py_iter versions;
   manifest_entries ∅ vs)%res.

Definition empty_manifest : json := JDict [("versions", JList [])].

Section Manifest.
Variable mc_dir : string.
Variable download : json -> string -> M unit.     (* the script's download_file *)
Variable manifest_url : string.                   (* the URL the script asks for *)

(** The body of the [try]. *)
Definition read_manifest : M (json * gmap string json) :=
  (unless_file (version_manifest_path mc_dir)
     (download (JStr manifest_url) (version_manifest_path mc_dir));;;
   version_manifest <- json_load (version_manifest_path mc_dir);;
   all <- lift (all_versions_of version_manifest);;
   ret (version_manifest, all))%M.

(** The value returned, paired with the new value of the global
    [all_versions]; [except Exception] turns every exception into the
    empty manifest, with [all_versions] not assigned. *)
Definition load_version_manifest (all_versions : gmap string json)
  : M (json * gmap string json) :=
  fun s =>
    match read_manifest s with
    | (Raise _, s') => (Ok (empty_manifest, all_versions), s')
    | r => r
    end.
End Manifest.

(** The retrying download used as a statement, its result dropped. *)
Definition download_retrying (net : nat -> string -> outcome) (url : json) (dest_path : string)
  : M unit :=
  (_ <- download_file_retry net url dest_path 3;; ret tt)%M.

(** ** Cosmetics *)

Definition LUNAR_COSMETICS_ENDPOINT : string :=
  "https://api.lunarclientprod.com/launcher/cosmetics/users".
Definition TLAUNCHER_SKIN_API : string := "https://auth.tlauncher.org/skin/".

Section Cosmetics.
Variable mc_dir : string.
Variable net : nat -> string -> outcome.
Variable urlencode : string -> string.     (* urllib.parse.urlencode({"uuids": uuid}) *)

Definition LUNAR_CACHE_DIR : string := path_join mc_dir "lunar_cache".
Definition TLAUNCHER_SKINS_DIR : string := path_join mc_dir "tlauncher_skins".

Definition cosmetics_cache_of (uuid : string) : string :=
  path_join LUNAR_CACHE_DIR (uuid +:+ "_cosmetics.json").
Definition cosmetics_url_of (uuid : string) : string :=
  LUNAR_COSMETICS_ENDPOINT +:+ "?" +:+ urlencode uuid.

(** [fetch_lunar_cosmetics] (Client.py 85-103, CAT2.1.X.py 87-112,
    Cat4k.py 162-183), for a [str] uuid.  The cache is read outside
    the [try]; inside it the answer is parsed before the cache file is
    opened, so nothing is written unless the answer is JSON. *)
Definition fetch_lunar_cosmetics (uuid : string) : M json :=
  (present <- isfile (cosmetics_cache_of uuid);;
   if present : bool then json_load (cosmetics_cache_of uuid)
   else
     fun s =>
       let s1 := add_request (cosmetics_url_of uuid) (cosmetics_cache_of uuid) s in
       match net (length (requests s)) (cosmetics_url_of uuid) with
       | Body (CJson data) =>
           (Ok data, set_files (insert (cosmetics_cache_of uuid) (CJson data)) s1)
       | _ => (Ok (JDict []), s1)
       end)%M.

Definition skin_file_of (username : string) : string :=
  path_join TLAUNCHER_SKINS_DIR (username +:+ "_skin.png").
Definition cape_file_of (username : string) : string :=
  path_join TLAUNCHER_SKINS_DIR (username +:+ "_cape.png").
Definition skin_url_of (username : string) : string :=
  TLAUNCHER_SKIN_API +:+ username +:+ ".png".
Definition cape_url_of (username : string) : string :=
  TLAUNCHER_SKIN_API +:+ "cape/" +:+ username +:+ ".png".

(** [os.path.isfile(skin_file) and os.path.isfile(cape_file)] *)
Definition both_cached (username : string) : M bool :=
  (skin <- isfile (skin_file_of username);;
   if skin : bool then isfile (cape_file_of username) else ret false)%M.

Definition file_or_none (p : string) : M (option string) :=
  (present <- isfile p;; ret (if present : bool then Some p else None))%M.

(** Cat4k.py 185-204: each download in a [try] of its own, then both
    files are looked for. *)
Definition cat4k_fetch_tlauncher_skin (username : string) : M (option string * option string) :=
  (cached <- both_cached username;;
   if cached : bool then ret (Some (skin_file_of username), Some (cape_file_of username))
   else
     try_except (download_file net (JStr (skin_url_of username)) (skin_file_of username));;;
     try_except (download_file net (JStr (cape_url_of username)) (cape_file_of username));;;
     skin_exists <- file_or_none (skin_file_of username);;
     cape_exists <- file_or_none (cape_file_of username);;
     ret (skin_exists, cape_exists))%M.

(** CAT2.1.X.py 114-131: both downloads in one [try]. *)
Definition cat21x_fetch_tlauncher_skin (username : string) : M (option string * option string) :=
  (cached <- both_cached username;;
   if cached : bool then ret (Some (skin_file_of username), Some (cape_file_of username))
   else
     fun s =>
       match (download_file net (JStr (skin_url_of username)) (skin_file_of username);;;
              download_file net (JStr (cape_url_of username)) (cape_file_of username))%M s with
       | (Ok _, s') => (Ok (Some (skin_file_of username), Some (cape_file_of username)), s')
       | (Raise _, s') => (Ok (None, None), s')
       | (Diverge, s') => (Diverge, s')
       end)%M.
End Cosmetics.

(** ** Reading the disk *)

(** A computation that leaves the disk as it is; [P] holds of the disk
    and of a value it returns. *)
Definition reads {A} (P : disk -> A -> Prop) (m : M A) : Prop :=
  forall s r s', m s = (r, s') -> s' = s /\ forall a, r = Ok a -> P s a.

(** Every entry is the absolute path of a file on disk. *)
Definition listed (abspath : string -> string) (s : disk) (ys : list string) : Prop :=
  forall x, x ∈ ys -> exists p, x = abspath p /\ is_Some (files s !! p).

(** ** Native archives *)

(** What a run may unpack: a member that passes the filter, into the
    natives folder of some version. *)
Definition native_entry (mc_dir : string) (e : string * string) : Prop :=
  wanted_member (snd e) = true /\
  exists vid, fst e = path_join (version_folder_of mc_dir vid) "natives".

Definition unpacks (P : string * string -> Prop) {A} (m : M A) : Prop :=
  forall s r s', m s = (r, s') ->
    exists new, extracted s' = (extracted s ++ new)%list /\ Forall P new.

(** A cached version whose only library ships a native archive. *)
Definition with_natives : disk :=
  {| files :=
       <[version_json_path_of Example.mc "n" :=
           CJson (JDict [("id", JStr "n");
                         ("libraries",
                          JList [JDict [("name", JStr "nat");
                                        ("natives", JDict [("linux", JStr "natives-linux")]);
                                        ("downloads",
                                         JDict [("classifiers",
                                                 JDict [("natives-linux",
                                                         JDict [("path", JStr "n/nat.jar")])])])]])])]>
         (<[path_join (LIBRARIES_DIR Example.mc) "n/nat.jar" :=
              CZip ["META-INF/MANIFEST.MF"; "lib/"; "lib/libx.so"]]> ∅);
     extracted := []; requests := []; sleeps := []; locked := ∅ |}.
(** * Properties *)

(** ** Rule evaluation *)

Lemma rule_allows_json os r :
  rule_allows os (rule_json r) = Ok (allow_applies os r).
Proof.
  destruct r as [[] [n|] [a|]]; cbn; try reflexivity.
Qed.

Lemma py_any_rules os rs :
  py_any (rule_allows os) (map rule_json rs) = Ok (existsb (allow_applies os) rs).
Proof.
  induction rs as [|r rs IH]; [reflexivity|].
  cbn [map py_any existsb]. rewrite rule_allows_json.
  destruct (allow_applies os r); [reflexivity | exact IH].
Qed.

(** With a non-empty list under its [rules] key, the verdict is what
    [any] finds. *)
Lemma lib_rules_allow_any os r rs :
  lib_rules_allow os (lib_with_rules (r :: rs))
  = py_any (rule_allows os) (map rule_json (r :: rs)).
Proof. reflexivity. Qed.

(** C1 (as the scripts implement it): on a non-empty rule list the
    verdict is true exactly when some allow rule applies to the current
    OS; disallow rules and architecture constraints have no effect. *)
Theorem rules_any_allow os r rs :
  lib_rules_allow os (lib_with_rules (r :: rs))
  = Ok (existsb (allow_applies os) (r :: rs)).
Proof.
  rewrite lib_rules_allow_any.
  induction (r :: rs) as [|x xs IH]; [reflexivity|].
  cbn [map py_any existsb]. rewrite rule_allows_json.
  destruct (allow_applies os x); [reflexivity | exact IH].
Qed.

(** C1 (as stated) fails: with rules [allow; disallow on windows] the
    last matching rule on windows is the disallow, yet the scripts
    answer true. *)
Lemma last_match_wins_fails :
  spec_isAllowed ex_rules {| p_os := "windows"; p_arch := "x86" |} = false /\
  lib_rules_allow "windows" (lib_with_rules ex_rules) = Ok true /\
  lib_rules_allow "linux" (lib_with_rules ex_rules) = Ok true.
Proof. repeat split; reflexivity. Qed.

(** Where the scripts and the last-match rule agree: lists of allow
    rules without architecture constraints. *)
Lemma last_match_of_allows p rs verdict :
  Forall (fun r => r_allow r = true /\ r_arch r = None) rs ->
  fold_left (fun verdict r => if spec_matches p r then r_allow r else verdict) rs verdict
  = verdict || existsb (allow_applies (p_os p)) rs.
Proof.
  intros H. revert verdict. induction H as [|r rs [Ha Hn] _ IH]; intros verdict; cbn.
  - rewrite orb_false_r. reflexivity.
  - rewrite IH. unfold spec_matches, allow_applies. rewrite Ha, Hn.
    destruct (r_os r) as [n|]; cbn.
    + rewrite andb_true_r. destruct (bool_decide (n = p_os p)); cbn;
        [rewrite orb_true_r; reflexivity | reflexivity].
    + rewrite orb_true_r. reflexivity.
Qed.

Lemma allow_only_rules_agree p r rs :
  Forall (fun r => r_allow r = true /\ r_arch r = None) (r :: rs) ->
  lib_rules_allow (p_os p) (lib_with_rules (r :: rs)) = Ok (spec_isAllowed (r :: rs) p).
Proof.
  intros H. rewrite lib_rules_allow_any, py_any_rules. unfold spec_isAllowed.
  rewrite (last_match_of_allows p (r :: rs) false H). reflexivity.
Qed.

(** C8: an empty rule list allows, whatever the platform.  The list is
    the entry's [rules] key; an entry without that key reads as []. *)
Theorem empty_rules_allow os (fields : list (string * json)) :
  lib_rules_allow os (JDict (dict_set fields "rules" (JList []))) = Ok true.
Proof.
  unfold lib_rules_allow, py_get_d.
  assert (H : dict_lookup (dict_set fields "rules" (JList [])) "rules" = Some (JList [])).
  { induction fields as [|[k v] d IH]; cbn.
    - reflexivity.
    - destruct (bool_decide (k = "rules")) eqn:E; cbn; rewrite E; [reflexivity | exact IH]. }
  rewrite H. reflexivity.
Qed.

(** ** Dictionaries and the skinVersion patch *)

Lemma dict_lookup_set_eq d k v : dict_lookup (dict_set d k v) k = Some v.
Proof.
  induction d as [|[k' v'] d IH]; cbn.
  - rewrite bool_decide_eq_true_2; reflexivity.
  - destruct (bool_decide (k' = k)) eqn:E; cbn; rewrite E; [reflexivity | exact IH].
Qed.

Lemma dict_lookup_set_ne d k k' v :
  k <> k' -> dict_lookup (dict_set d k v) k' = dict_lookup d k'.
Proof.
  intros Hne. induction d as [|[k0 v0] d IH]; cbn.
  - rewrite bool_decide_eq_false_2; [reflexivity | exact Hne].
  - destruct (bool_decide (k0 = k)) eqn:E; cbn.
    + apply bool_decide_eq_true_1 in E. subst k0.
      rewrite !bool_decide_eq_false_2 by exact Hne. reflexivity.
    + destruct (bool_decide (k0 = k')); [reflexivity | exact IH].
Qed.

Lemma patch_json_idem j : patch_json (patch_json j) = patch_json j.
Proof.
  destruct j as [| | | | |d]; try reflexivity.
  unfold patch_json at 2.
  destruct (truthy _) eqn:E.
  - cbn. rewrite E. reflexivity.
  - unfold patch_json. rewrite dict_lookup_set_eq, E. reflexivity.
Qed.

Lemma needs_patch_false j : needs_patch j = false -> patch_json j = j.
Proof.
  destruct j as [| | | | |d]; try reflexivity.
  unfold needs_patch, patch_json, py_get_d.
  destruct (truthy _); [reflexivity | discriminate].
Qed.

Lemma needs_patch_true j :
  needs_patch j = true ->
  exists d, j = JDict d /\ patch_json j = JDict (dict_set d "skinVersion" (JBool true)).
Proof.
  destruct j as [| | | | |d]; try discriminate.
  unfold needs_patch, patch_json, py_get_d.
  destruct (truthy _); [discriminate | eauto].
Qed.

Lemma py_get_d_patch j k dflt :
  k <> "skinVersion" -> py_get_d (patch_json j) k dflt = py_get_d j k dflt.
Proof.
  intros Hk. destruct j as [| | | | |d]; try reflexivity.
  unfold patch_json. destruct (truthy _); [reflexivity|].
  cbn. rewrite dict_lookup_set_ne; [reflexivity | congruence].
Qed.

Lemma py_item_patch j k :
  k <> "skinVersion" -> py_item (patch_json j) k = py_item j k.
Proof.
  intros Hk. destruct j as [| | | | |d]; try reflexivity.
  unfold patch_json. destruct (truthy _); [reflexivity|].
  cbn. rewrite dict_lookup_set_ne; [reflexivity | congruence].
Qed.

Lemma same_json_get_d j j2 k dflt :
  same_json j j2 -> k <> "skinVersion" -> py_get_d j2 k dflt = py_get_d j k dflt.
Proof.
  intros H Hk. rewrite <- (py_get_d_patch j2), <- (py_get_d_patch j) by exact Hk.
  rewrite H. reflexivity.
Qed.

Lemma same_json_get j j2 k :
  same_json j j2 -> k <> "skinVersion" -> py_get j2 k = py_get j k.
Proof. apply same_json_get_d. Qed.

Lemma same_json_item j j2 k :
  same_json j j2 -> k <> "skinVersion" -> py_item j2 k = py_item j k.
Proof.
  intros H Hk. rewrite <- (py_item_patch j2), <- (py_item_patch j) by exact Hk.
  rewrite H. reflexivity.
Qed.

(** ** What a later disk keeps of an earlier one *)

Lemma covers_refl s : covers s s.
Proof. intros p c H. exists c. split; [exact H | reflexivity]. Qed.

Lemma covers_trans s1 s2 s3 : covers s1 s2 -> covers s2 s3 -> covers s1 s3.
Proof.
  intros H12 H23 p c H.
  destruct (H12 p c H) as (c2 & H2 & E12).
  destruct (H23 p c2 H2) as (c3 & H3 & E23).
  exists c3. split; [exact H3 | unfold same_doc in *; congruence].
Qed.

Lemma covers_same_files s s2 : files s2 = files s -> covers s s2.
Proof. intros E p c H. exists c. rewrite E. split; [exact H | reflexivity]. Qed.

Lemma covers_insert_fresh s s2 p c :
  files s !! p = None -> files s2 = <[p := c]> (files s) -> covers s s2.
Proof.
  intros Hnone E q cq Hq. exists cq. split; [|reflexivity].
  rewrite E. rewrite lookup_insert_ne; [exact Hq | congruence].
Qed.

Lemma covers_insert_patched s s2 p j :
  files s !! p = Some (CJson j) ->
  files s2 = <[p := CJson (patch_json j)]> (files s) -> covers s s2.
Proof.
  intros Hp E q cq Hq. rewrite E.
  destruct (decide (p = q)) as [->|Hne].
  - exists (CJson (patch_json j)). rewrite lookup_insert_eq. split; [reflexivity|].
    rewrite Hp in Hq. injection Hq as <-. unfold same_doc. cbn.
    rewrite patch_json_idem. reflexivity.
  - exists cq. rewrite lookup_insert_ne by exact Hne. split; [exact Hq | reflexivity].
Qed.

(** ** Re-running a computation on a disk that covers its result *)

Ltac split_run := split; [ | split; [ | split ] ].

Lemma bind_ok {A B} (m : M A) (f : A -> M B) s b s' :
  bind m f s = (Ok b, s') -> exists a s1, m s = (Ok a, s1) /\ f a s1 = (Ok b, s').
Proof.
  unfold bind. destruct (m s) as [[a|e|] s1]; intros H; try discriminate. eauto.
Qed.

Lemma nice_ret {A} (R : A -> A -> Prop) (a : A) : R a a -> nice R (ret a).
Proof.
  intros HR. split.
  - intros s a' s' H. injection H as _ <-. apply covers_refl.
  - intros s a' s' H s2 _. injection H as <- _. exists a, s2.
    split_run; [reflexivity | exact HR | apply covers_refl | reflexivity].
Qed.

Lemma nice_lift {A} (R : A -> A -> Prop) (r : res A) :
  (forall a, R a a) -> nice R (lift r).
Proof.
  intros HR. split.
  - intros s a s' H. injection H as _ <-. apply covers_refl.
  - intros s a s' H s2 _. injection H as -> _. exists a, s2.
    split_run; [reflexivity | apply HR | apply covers_refl | reflexivity].
Qed.

Lemma nice_bind {A B} (R : A -> A -> Prop) (R' : B -> B -> Prop)
    (m : M A) (f : A -> M B) :
  nice R m ->
  (forall a a2, R a a2 -> forall s, f a2 s = f a s) ->
  (forall a, nice R' (f a)) ->
  nice R' (bind m f).
Proof.
  intros [Hm Him] Hf Hnf. split.
  - intros s b s' H. apply bind_ok in H as (a & s1 & H1 & H2).
    eapply covers_trans; [eapply Hm, H1 | eapply (proj1 (Hnf a)), H2].
  - intros s b s' H s2 Hc. apply bind_ok in H as (a & s1 & H1 & H2).
    assert (Hc1 : covers s1 s2).
    { eapply covers_trans; [eapply (proj1 (Hnf a)), H2 | exact Hc]. }
    destruct (Him s a s1 H1 s2 Hc1) as (a2 & s2' & E1 & HR & Hc2 & Hq).
    assert (Hc' : covers s' s2') by (eapply covers_trans; eassumption).
    destruct (proj2 (Hnf a) s1 b s' H2 s2' Hc') as (b2 & s2'' & E2 & HR' & Hc3 & Hq').
    exists b2, s2''. unfold bind. rewrite E1, (Hf a a2 HR), E2.
    split_run; [reflexivity | exact HR' | eapply covers_trans; eassumption | congruence].
Qed.

Lemma bind_ext {A B} (m : M A) (f g : A -> M B) s :
  (forall a s1, f a s1 = g a s1) -> bind m f s = bind m g s.
Proof.
  intros H. unfold bind. destruct (m s) as [[a|e|] s1]; [apply H | reflexivity | reflexivity].
Qed.

Lemma nice_bind_eq {A B} (R' : B -> B -> Prop) (m : M A) (f : A -> M B) :
  nice eq m -> (forall a, nice R' (f a)) -> nice R' (bind m f).
Proof. intros Hm Hf. eapply nice_bind; [exact Hm | intros a a2 <- s; reflexivity | exact Hf]. Qed.

Lemma nice_for_each {A} (body : A -> M unit) xs :
  (forall x, nice eq (body x)) -> nice eq (for_each xs body).
Proof.
  intros Hb. induction xs as [|x xs IH]; cbn [for_each].
  - apply nice_ret. reflexivity.
  - apply nice_bind_eq; [apply Hb | intros _; exact IH].
Qed.

Lemma nice_diverge {A} (R : A -> A -> Prop) : nice R (lift Diverge).
Proof. split; intros s a s' H; discriminate. Qed.

Lemma nice_raise {A} (R : A -> A -> Prop) e : nice R (raise e).
Proof. split; intros s a s' H; discriminate. Qed.

Lemma nice_json_load p : nice same_json (json_load p).
Proof.
  split.
  - intros s a s' H. unfold json_load in H.
    destruct (files s !! p) as [[j| |]|]; try discriminate.
    injection H as _ <-. apply covers_refl.
  - intros s a s' H s2 Hc. unfold json_load in H.
    destruct (files s !! p) as [[j| |]|] eqn:E; try discriminate.
    injection H as <- <-.
    destruct (Hc p _ E) as (c2 & E2 & Hd).
    destruct c2 as [j2| |]; try discriminate.
    exists j2, s2. unfold json_load. rewrite E2.
    split_run; [reflexivity | injection Hd as Hd; exact Hd | apply covers_refl | reflexivity].
Qed.

Lemma patch_skin_version_spec p s :
  exists s', patch_skin_version p s = (Ok tt, s') /\ covers s s' /\
             requests s' = requests s /\
             (forall j, files s !! p = Some (CJson j) -> p ∉ locked s ->
                        files s' = <[p := CJson (patch_json j)]> (files s)) /\
             (p ∈ locked s -> s' = s).
Proof.
  unfold patch_skin_version.
  destruct (files s !! p) as [[j| |]|] eqn:E.
  2-4: exists s; split; [reflexivity|]; split; [apply covers_refl|];
    split; [reflexivity|]; split; [intros j' Hj; discriminate | reflexivity].
  destruct (bool_decide (p ∈ locked s)) eqn:L.
  { apply bool_decide_eq_true_1 in L.
    exists s. split; [reflexivity|]. split; [apply covers_refl|].
    split; [reflexivity|]. split; [intros j' _ Hn; contradiction | reflexivity]. }
  apply bool_decide_eq_false_1 in L.
  destruct (needs_patch j) eqn:N.
  - eexists. split; [reflexivity|]. split.
    + eapply covers_insert_patched; [exact E | reflexivity].
    + split; [reflexivity|]. split; [|intros Hl; contradiction].
      intros j' Hj _. injection Hj as <-. reflexivity.
  - exists s. split; [reflexivity|]. split; [apply covers_refl|].
    split; [reflexivity|]. split; [|reflexivity].
    intros j' Hj _. injection Hj as <-.
    rewrite (needs_patch_false _ N). symmetry. apply insert_id. exact E.
Qed.

Lemma nice_patch_skin_version p : nice eq (patch_skin_version p).
Proof.
  split.
  - intros s a s' H.
    destruct (patch_skin_version_spec p s) as (s1 & E & Hc & _).
    rewrite E in H. inversion H; subst. exact Hc.
  - intros s a s' _ s2 _.
    destruct (patch_skin_version_spec p s2) as (s1 & E & Hc & Hq & _).
    exists tt, s1. destruct a. split_run; [exact E | reflexivity | exact Hc | exact Hq].
Qed.

Lemma nice_extract_natives np dir : nice eq (extract_natives np dir).
Proof.
  split.
  - intros s a s' H. unfold extract_natives in H.
    destruct (files s !! np) as [[j|ms|]|]; try discriminate.
    inversion H; subst. apply covers_same_files. reflexivity.
  - intros s a s' H s2 Hc. unfold extract_natives in H.
    destruct (files s !! np) as [[j|ms|]|] eqn:E; try discriminate.
    inversion H; subst.
    destruct (Hc np (CZip ms)) as (c2 & E2 & Hd); [exact E|].
    destruct c2 as [j2|ms2|]; try discriminate. injection Hd as <-.
    eexists tt, _. unfold extract_natives. rewrite E2.
    split_run; [reflexivity | reflexivity | apply covers_same_files; reflexivity | reflexivity].
Qed.

Lemma nice_try_extract np dir : nice eq (try_except (extract_natives np dir)).
Proof.
  assert (T : forall s, exists s', try_except (extract_natives np dir) s = (Ok tt, s') /\
                                   files s' = files s /\ requests s' = requests s).
  { intros s. unfold try_except, extract_natives.
    destruct (files s !! np) as [[j|ms|]|]; eexists; (split; [reflexivity | split; reflexivity]). }
  split.
  - intros s a s' H. destruct (T s) as (s1 & E & Hf & _).
    rewrite E in H. inversion H; subst. apply covers_same_files. exact Hf.
  - intros s a s' _ s2 _. destruct (T s2) as (s1 & E & Hf & Hq).
    destruct a. exists tt, s1.
    split_run; [exact E | reflexivity | apply covers_same_files; exact Hf | exact Hq].
Qed.

(** *** The presence-check-then-fetch pattern *)

Lemma nice_unless_file p m : fills p m -> nice eq (unless_file p m).
Proof.
  intros Hm. split.
  - intros s [] s' H. unfold unless_file, bind, isfile in H.
    destruct (files s !! p) as [c|] eqn:E.
    + rewrite bool_decide_eq_true_2 in H by eauto.
      inversion H; subst. apply covers_refl.
    + rewrite bool_decide_eq_false_2 in H by (intros [? ?]; discriminate).
      apply (Hm _ _ H E).
  - intros s [] s' H s2 Hc. unfold unless_file, bind, isfile in H.
    assert (Hcase : is_Some (files s' !! p) \/ forall s3, m s3 = (Ok tt, s3)).
    { destruct (files s !! p) as [c|] eqn:E.
      - rewrite bool_decide_eq_true_2 in H by eauto.
        inversion H; subst. left. eauto.
      - rewrite bool_decide_eq_false_2 in H by (intros [? ?]; discriminate).
        apply (Hm _ _ H E). }
    exists tt, s2. unfold unless_file, bind, isfile.
    destruct (bool_decide (is_Some (files s2 !! p))) eqn:B.
    + split_run; [reflexivity | reflexivity | apply covers_refl | reflexivity].
    + destruct Hcase as [[c Hs]|Hnoop].
      * destruct (Hc p c Hs) as (c2 & E2 & _).
        apply bool_decide_eq_false_1 in B. exfalso. apply B. eauto.
      * rewrite Hnoop.
        split_run; [reflexivity | reflexivity | apply covers_refl | reflexivity].
Qed.

Lemma fills_ret p : fills p (ret tt).
Proof.
  intros s s' H _. inversion H; subst. split; [apply covers_refl | right; reflexivity].
Qed.

Lemma fills_bind_lift {A} p (r : res A) (f : A -> M unit) :
  (forall a, fills p (f a)) -> fills p (bind (lift r) f).
Proof.
  intros Hf s s' H Hnone. unfold bind, lift in H |- *.
  destruct r as [a| |]; try discriminate.
  destruct (Hf a s s' H Hnone) as [Hc [Hs|Hn]]; split; auto.
Qed.

Ltac nice_go :=
  repeat first
    [ apply nice_ret; reflexivity
    | apply nice_lift; intros; reflexivity
    | match goal with
      | |- nice _ (bind (json_load _) _) => fail 1
      | |- nice _ (bind _ _) => apply nice_bind_eq; [ | intro ]
      | |- nice _ (if ?b then _ else _) => destruct b
      end ].

Lemma append_cons c a b : String c a +:+ b = String c (a +:+ b).
Proof. reflexivity. Qed.

Lemma download_file_unfold net u p s :
  download_file net (JStr u) p s
  = if has_url_type u
    then match net (length (requests s)) u with
         | Body c => (Ok tt, set_files (insert p c) (add_request u p s))
         | Interrupted c =>
             (Raise (DownloadFailed u), set_files (insert p c) (add_request u p s))
         | _ => (Raise (DownloadFailed u), add_request u p s)
         end
    else (Raise ValueError, s).
Proof.
  unfold download_file, bind, lift. cbn [url_of].
  destruct (has_url_type u); reflexivity.
Qed.

Lemma lstrip_nonspace c r : is_space c = false -> lstrip (String c r) = String c r.
Proof. intros H. cbn [lstrip]. rewrite H. reflexivity. Qed.

Lemma rstrip_nonspace c r : is_space c = false -> rstrip (String c r) = String c (rstrip r).
Proof. intros H. cbn [rstrip]. rewrite H. reflexivity. Qed.

Lemma starts_with_other a b p s : a <> b -> starts_with (String a p) (String b s) = false.
Proof. intros H. cbn [starts_with]. rewrite bool_decide_eq_false_2 by exact H. reflexivity. Qed.

Lemma before_last_hash_other c r :
  c <> "#"%char ->
  before_last_hash (String c r) = option_map (String c) (before_last_hash r).
Proof.
  intros H. cbn [before_last_hash]. destruct (before_last_hash r); [reflexivity|].
  rewrite bool_decide_eq_false_2 by exact H. reflexivity.
Qed.

Lemma scheme_ends_other seen c r :
  c <> ":"%char -> c <> "/"%char -> scheme_ends seen (String c r) = scheme_ends true r.
Proof.
  intros H1 H2. cbn [scheme_ends].
  rewrite !bool_decide_eq_false_2 by assumption. reflexivity.
Qed.

Lemma scheme_ends_colon seen r : scheme_ends seen (String ":" r) = seen.
Proof. reflexivity. Qed.

Ltac url_type_go :=
  unfold has_url_type, unwrap, str_strip, without_tag;
  rewrite !append_cons;
  rewrite lstrip_nonspace by reflexivity;
  rewrite !rstrip_nonspace by reflexivity;
  rewrite !starts_with_other by discriminate;
  cbn [andb];
  rewrite !starts_with_other by discriminate;
  rewrite !before_last_hash_other by discriminate;
  match goal with
  | |- context [before_last_hash ?x] => destruct (before_last_hash x)
  end;
  cbn [option_map];
  rewrite !scheme_ends_other by discriminate;
  apply scheme_ends_colon.

(** A URL that starts with a scheme the scripts use passes [Request]. *)
Lemma has_url_type_http rest : has_url_type ("http:" +:+ rest) = true.
Proof. url_type_go. Qed.

Lemma has_url_type_https rest : has_url_type ("https:" +:+ rest) = true.
Proof. url_type_go. Qed.

Section InstallerProperties.
Variable mc_dir : string.
Variable all_versions : gmap string json.
Variable net : nat -> string -> outcome.
Variable v : variant.

Lemma download_file_ok url p s s' :
  download_file net url p s = (Ok tt, s') ->
  exists u c, url = JStr u /\ net (length (requests s)) u = Body c /\
              files s' = <[p := c]> (files s) /\
              requests s' = (requests s ++ [(u, p)])%list.
Proof.
  unfold download_file, bind, lift.
  destruct url as [| | |u| |]; cbn [url_of]; try discriminate.
  destruct (has_url_type u); [|discriminate].
  destruct (net _ u) as [c| | |c|] eqn:E; intros H; inversion H; subst.
  exists u, c. split; [reflexivity | split; [exact E | split; reflexivity]].
Qed.

Lemma fills_download url p : fills p (download_file net url p).
Proof.
  intros s s' H Hnone.
  destruct (download_file_ok _ _ _ _ H) as (u & c & _ & _ & Hf & _).
  split.
  - eapply covers_insert_fresh; eassumption.
  - left. rewrite Hf, lookup_insert_eq. eauto.
Qed.

Lemma nice_install_artifact lib : nice eq (install_artifact mc_dir net lib).
Proof.
  unfold install_artifact. nice_go.
  apply nice_unless_file. apply fills_bind_lift. intros u. apply fills_download.
Qed.

Lemma nice_extract np dir : nice eq (extract v np dir).
Proof.
  unfold extract. destruct (extraction_guarded v);
    [apply nice_try_extract | apply nice_extract_natives].
Qed.

Lemma nice_install_natives folder lib : nice eq (install_natives mc_dir net v folder lib).
Proof.
  unfold install_natives. nice_go.
  - apply nice_unless_file. apply fills_bind_lift. intros u. apply fills_download.
  - apply nice_extract.
Qed.

Lemma nice_install_library folder lib : nice eq (install_library mc_dir net v folder lib).
Proof.
  unfold install_library. nice_go.
  - apply nice_install_artifact.
  - apply nice_install_natives.
Qed.

Lemma nice_install_asset entry : nice eq (install_asset mc_dir net v entry).
Proof.
  unfold install_asset. nice_go.
  apply nice_unless_file. apply fills_download.
Qed.

Lemma nice_install_objects idx_data : nice eq (install_objects mc_dir net v idx_data).
Proof.
  unfold install_objects. nice_go.
  apply nice_for_each. apply nice_install_asset.
Qed.

Lemma install_objects_same j j2 :
  same_json j j2 ->
  install_objects mc_dir net v j2 = install_objects mc_dir net v j.
Proof.
  intros H. unfold install_objects.
  rewrite (same_json_item j j2 "objects" H) by discriminate. reflexivity.
Qed.

Lemma nice_install_assets version_data parent_data :
  nice eq (install_assets mc_dir net v version_data parent_data).
Proof.
  unfold install_assets. nice_go.
  - apply nice_unless_file. apply fills_download.
  - eapply nice_bind; [apply nice_json_load | | apply nice_install_objects].
    intros j j2 H s. rewrite (install_objects_same j j2 H). reflexivity.
Qed.

Lemma nice_install_client vid version_data :
  nice eq (install_client mc_dir net vid version_data).
Proof.
  unfold install_client. nice_go.
  apply nice_unless_file. apply fills_bind_lift. intros u.
  destruct (truthy u); [apply fills_download | apply fills_ret].
Qed.

Lemma nice_install_files vid version_data parent_data :
  nice eq (install_files mc_dir net v vid version_data parent_data).
Proof.
  unfold install_files. nice_go.
  - apply nice_install_client.
  - apply nice_for_each. intros lib. apply nice_install_library.
  - apply nice_install_assets.
Qed.

Lemma install_files_same_parent vid version_data j j2 :
  same_json j j2 ->
  install_files mc_dir net v vid version_data j2
  = install_files mc_dir net v vid version_data j.
Proof.
  intros H. unfold install_files, merged_libraries, install_assets, asset_index_info_of.
  rewrite (same_json_get_d j j2 "libraries" _ H) by discriminate.
  rewrite (same_json_get j j2 "assetIndex" H) by discriminate.
  reflexivity.
Qed.

Lemma install_files_same_version vid parent_data j j2 :
  same_json j j2 ->
  install_files mc_dir net v vid j2 parent_data
  = install_files mc_dir net v vid j parent_data.
Proof.
  intros H. unfold install_files, install_client, merged_libraries, install_assets,
    asset_index_info_of.
  rewrite (same_json_get_d j j2 "downloads" _ H) by discriminate.
  rewrite (same_json_get_d j j2 "libraries" _ H) by discriminate.
  rewrite (same_json_get j j2 "assetIndex" H) by discriminate.
  reflexivity.
Qed.

Lemma nice_fetch_descriptor vid : nice eq (fetch_descriptor mc_dir all_versions net vid).
Proof.
  unfold fetch_descriptor. apply nice_unless_file.
  apply fills_bind_lift. intros u. apply fills_download.
Qed.

Lemma nice_patch_step vid : nice eq (patch_step mc_dir v vid).
Proof.
  unfold patch_step. destruct (patches_skin v);
    [apply nice_patch_skin_version | apply nice_ret; reflexivity].
Qed.

Lemma same_json_refl j : same_json j j.
Proof. reflexivity. Qed.

Lemma nice_install_parent (install : json -> M unit) version_data :
  (forall id, nice eq (install id)) ->
  nice same_json (install_parent mc_dir install version_data).
Proof.
  intros Hrec. unfold install_parent.
  apply nice_bind_eq; [apply nice_lift; reflexivity | intros parent_id].
  destruct (truthy parent_id).
  - apply nice_bind_eq; [apply Hrec | intros _].
    apply nice_bind_eq; [apply nice_lift; reflexivity | intros pid].
    apply nice_json_load.
  - apply nice_ret. reflexivity.
Qed.

Lemma install_parent_same (install : json -> M unit) j j2 :
  same_json j j2 ->
  install_parent mc_dir install j2 = install_parent mc_dir install j.
Proof.
  intros H. unfold install_parent.
  rewrite (same_json_get j j2 "inheritsFrom" H) by discriminate. reflexivity.
Qed.

(** The whole installer only adds or patches files, and a second run
    on anything that covers its result fetches nothing. *)
Lemma nice_install_version depth :
  forall version_id,
    nice eq (install_version mc_dir all_versions net v depth version_id).
Proof.
  induction depth as [|depth IH]; intros version_id; cbn [install_version].
  - apply nice_diverge.
  - apply nice_bind_eq; [apply nice_lift; reflexivity | intros vid].
    apply nice_bind_eq; [apply nice_fetch_descriptor | intros _].
    eapply nice_bind; [apply nice_json_load | | ].
    + intros j j2 H s.
      rewrite (install_parent_same _ j j2 H).
      apply bind_ext. intros pd s1.
      rewrite (install_files_same_version vid pd j j2 H). reflexivity.
    + intros version_data.
      eapply nice_bind; [apply nice_install_parent, IH | | ].
      * intros j j2 H s. rewrite (install_files_same_parent vid version_data j j2 H).
        reflexivity.
      * intros parent_data.
        apply nice_bind_eq; [apply nice_install_files | intros _].
        apply nice_patch_step.
Qed.
End InstallerProperties.

(** ** Properties of install_version *)

Section InstallerClaims.
Variable mc_dir : string.
Variable all_versions : gmap string json.
Variable net : nat -> string -> outcome.
Variable v : variant.

Local Abbreviation install := (install_version mc_dir all_versions net v).

(** C4: after a successful install, installing the same version again
    on the resulting disk succeeds and issues no network request:
    every lookup finds its file. *)
Theorem install_twice_fetches_nothing depth version_id s s' :
  install depth version_id s = (Ok tt, s') ->
  exists s'', install depth version_id s' = (Ok tt, s'') /\
              requests s'' = requests s'.
Proof.
  intros H.
  destruct (proj2 (nice_install_version mc_dir all_versions net v depth version_id)
              s tt s' H s' (covers_refl s'))
    as ([] & s'' & E & _ & _ & Hq).
  exists s''. split; assumption.
Qed.


Lemma fetch_descriptor_obtained vid s s1 j0 :
  fetch_descriptor mc_dir all_versions net vid s = (Ok tt, s1) ->
  files s1 !! version_json_path_of mc_dir vid = Some (CJson j0) ->
  descriptor_obtained mc_dir all_versions net s vid j0.
Proof.
  unfold fetch_descriptor, unless_file, bind at 1, isfile. intros H Hf.
  destruct (files s !! version_json_path_of mc_dir vid) as [c|] eqn:E.
  - rewrite bool_decide_eq_true_2 in H by eauto. inversion H; subst.
    left. congruence.
  - rewrite bool_decide_eq_false_2 in H by (intros [? ?]; discriminate).
    right. split; [exact E|].
    apply bind_ok in H as (url & s0 & Hl & Hd). unfold lift in Hl.
    destruct (all_versions !! vid) as [u|] eqn:Ev; inversion Hl; subst.
    destruct (download_file_ok _ _ _ _ _ Hd) as (u' & c & -> & Hn & Hfiles & _).
    exists u'. split; [reflexivity|].
    rewrite Hfiles, lookup_insert_eq in Hf. congruence.
Qed.

End InstallerClaims.

(** *** Examples for the installer *)

Lemma example_install_ok :
  Example.install 5 "c" Example.empty_disk = (Ok tt, Example.installed).
Proof. vm_compute. reflexivity. Qed.

Lemma install_twice_witness :
  Example.install 5 "c" Example.empty_disk = (Ok tt, Example.installed) /\
  exists s'', Example.install 5 "c" Example.installed = (Ok tt, s'') /\
              requests s'' = requests Example.installed.
Proof.
  split; [vm_compute; reflexivity|].
  apply (install_twice_fetches_nothing Example.mc Example.versions Example.net
           (Cat4k.variant Example.linux) 5 (JStr "c") Example.empty_disk Example.installed).
  vm_compute. reflexivity.
Defined.



(** C9 (as stated) fails: a descriptor that arrives with skinVersion
    true is stored exactly as fetched, and one that arrives with
    another truthy value keeps that value. *)
Lemma skin_version_left_alone :
  (fst (Example.install 3 "f" Example.empty_disk) = Ok tt /\
   files (snd (Example.install 3 "f" Example.empty_disk))
     !! version_json_path_of Example.mc "f" = Some (CJson Example.flagged)) /\
  (fst (Example.install 3 "y" Example.empty_disk) = Ok tt /\
   exists stored,
     files (snd (Example.install 3 "y" Example.empty_disk))
       !! version_json_path_of Example.mc "y" = Some (CJson stored) /\
     py_get stored "skinVersion" = Ok (JStr "yes")).
Proof.
  split; split; try (vm_compute; reflexivity).
  exists Example.flagged_yes. split; vm_compute; reflexivity.
Qed.

(** ** Asset objects *)

Lemma str_app_assoc (a b c : string) : (a +:+ b) +:+ c = a +:+ (b +:+ c).
Proof.
  induction a as [|x a IH]; [reflexivity|].
  change (String x ((a +:+ b) +:+ c) = String x (a +:+ (b +:+ c))).
  f_equal. exact IH.
Qed.

Lemma str_app_empty (a b : string) : a +:+ b = EmptyString -> b = EmptyString.
Proof. destruct a; cbn; [auto | discriminate]. Qed.

Lemma ends_with_app (x y : string) :
  y <> EmptyString -> ends_with "/" (x +:+ y) = ends_with "/" y.
Proof.
  intros Hy. induction x as [|c x IH]; [reflexivity|].
  change (bool_decide (String c (x +:+ y) = "/") || ends_with "/" (x +:+ y)
          = ends_with "/" y).
  rewrite IH.
  rewrite bool_decide_eq_false_2; [reflexivity|].
  intros E. injection E as _ E. apply str_app_empty in E. contradiction.
Qed.

Lemma no_slash_starts s : no_slash s = true -> starts_with "/" s = false.
Proof.
  destruct s as [|c s]; [reflexivity|]. cbn.
  intros H. apply andb_true_iff in H as [H _]. apply negb_true_iff in H.
  apply bool_decide_eq_false_1 in H.
  rewrite bool_decide_eq_false_2; [reflexivity | congruence].
Qed.

Lemma no_slash_ends s : no_slash s = true -> ends_with "/" s = false.
Proof.
  induction s as [|c s IH]; [reflexivity|]. cbn [no_slash ends_with].
  intros H. apply andb_true_iff in H as [Hc Hs]. apply negb_true_iff in Hc.
  apply bool_decide_eq_false_1 in Hc.
  rewrite (IH Hs), orb_false_r. apply bool_decide_eq_false_2.
  intros E. injection E as E _. contradiction.
Qed.

Lemma hex_digit_not_slash c : hex_digit c = true -> c <> "/"%char.
Proof. intros H ->. vm_compute in H. discriminate. Qed.

Lemma all_hex_no_slash s : all_hex s = true -> no_slash s = true.
Proof.
  induction s as [|c s IH]; [reflexivity|]. cbn.
  intros H. apply andb_true_iff in H as [Hc Hs].
  rewrite (IH Hs), andb_true_r. apply negb_true_iff, bool_decide_eq_false_2.
  apply hex_digit_not_slash, Hc.
Qed.

Lemma no_slash_take n s : no_slash s = true -> no_slash (str_take n s) = true.
Proof.
  revert s. induction n as [|n IH]; intros [|c s]; cbn; try reflexivity.
  intros H. apply andb_true_iff in H as [Hc Hs]. rewrite Hc, (IH s Hs). reflexivity.
Qed.

Lemma path_join_plain a b :
  a <> EmptyString -> ends_with "/" a = false -> starts_with "/" b = false ->
  path_join a b = a +:+ "/" +:+ b.
Proof.
  intros Ha He Hs. unfold path_join. rewrite Hs, He.
  rewrite bool_decide_eq_false_2 by exact Ha. reflexivity.
Qed.

Lemma path_join_tail a b :
  starts_with "/" b = false -> b <> EmptyString ->
  exists x, path_join a b = x +:+ b.
Proof.
  intros Hs Hb. unfold path_join. rewrite Hs.
  destruct (bool_decide (a = EmptyString) || ends_with "/" a).
  - exists a. reflexivity.
  - exists (a +:+ "/"). rewrite str_app_assoc. reflexivity.
Qed.

Lemma ends_in_word x w :
  w <> EmptyString -> ends_with "/" w = false ->
  x +:+ w <> EmptyString /\ ends_with "/" (x +:+ w) = false.
Proof.
  intros Hw He. split.
  - intros E. apply str_app_empty in E. contradiction.
  - rewrite ends_with_app by exact Hw. exact He.
Qed.

Lemma asset_path_shape mc_dir h :
  is_hash h = true ->
  asset_path_of mc_dir h
  = ASSETS_DIR mc_dir +:+ "/objects/" +:+ str_take 2 h +:+ "/" +:+ h.
Proof.
  intros Hh. unfold is_hash in Hh. apply andb_true_iff in Hh as [Hne Hhex].
  apply negb_true_iff, bool_decide_eq_false_1 in Hne.
  pose proof (all_hex_no_slash h Hhex) as Hns.
  pose proof (no_slash_take 2 h Hns) as Hnt.
  assert (Htne : str_take 2 h <> EmptyString).
  { destruct h as [|c h]; [contradiction | discriminate]. }
  unfold asset_path_of, ASSETS_DIR.
  destruct (path_join_tail mc_dir "assets") as (x & ->); [reflexivity | discriminate |].
  destruct (ends_in_word x "assets") as [A1 A2]; [discriminate | reflexivity |].
  rewrite (path_join_plain (x +:+ "assets") "objects" A1 A2) by reflexivity.
  assert (B : (x +:+ "assets") +:+ "/" +:+ "objects" = (x +:+ "assets/") +:+ "objects").
  { rewrite !str_app_assoc. reflexivity. }
  destruct (ends_in_word (x +:+ "assets/") "objects") as [B1 B2];
    [discriminate | reflexivity |].
  rewrite <- B in B1, B2.
  rewrite (path_join_plain _ (str_take 2 h) B1 B2) by (apply no_slash_starts, Hnt).
  destruct (ends_in_word (((x +:+ "assets") +:+ "/" +:+ "objects") +:+ "/") (str_take 2 h))
    as [C1 C2]; [exact Htne | apply no_slash_ends, Hnt |].
  rewrite str_app_assoc in C1, C2.
  rewrite (path_join_plain _ h C1 C2) by (apply no_slash_starts, Hns).
  rewrite !str_app_assoc. reflexivity.
Qed.

Lemma unless_file_present p m s :
  is_Some (files s !! p) -> unless_file p m s = (Ok tt, s).
Proof.
  intros Hs. unfold unless_file, bind, isfile.
  rewrite bool_decide_eq_true_2 by exact Hs. reflexivity.
Qed.

Lemma unless_file_absent p m s :
  files s !! p = None -> unless_file p m s = m s.
Proof.
  intros Hn. unfold unless_file, bind, isfile.
  rewrite bool_decide_eq_false_2; [reflexivity|].
  rewrite Hn. intros [? ?]. discriminate.
Qed.

Lemma asset_url_has_type v h : has_url_type (asset_url_of v h) = true.
Proof.
  unfold asset_url_of, asset_base_url. destruct (secure_assets v); url_type_go.
Qed.

Section AssetClaims.
Variable mc_dir : string.
Variable net : nat -> string -> outcome.
Variable v : variant.

(** C5: the object of an entry with hash [h] lives at
    assets/objects/<first two characters of h>/<h>; it is requested
    exactly when no file is there, and a delivered body is written
    to that path. *)
Theorem asset_fetched_iff_missing name info h s :
  is_hash h = true ->
  py_get info "hash" = Ok (JStr h) ->
  let path := ASSETS_DIR mc_dir +:+ "/objects/" +:+ str_take 2 h +:+ "/" +:+ h in
  let run := install_asset mc_dir net v (name, info) s in
  asset_path_of mc_dir h = path /\
  (is_Some (files s !! path) -> run = (Ok tt, s)) /\
  (files s !! path = None ->
     requests (snd run) = (requests s ++ [(asset_url_of v h, path)])%list /\
     (fst run = Ok tt ->
        exists c, net (length (requests s)) (asset_url_of v h) = Body c /\
                  files (snd run) = <[path := c]> (files s))).
Proof.
  intros Hh Hget path run.
  pose proof (asset_path_shape mc_dir h Hh) as Hp. fold path in Hp.
  assert (Ht : truthy (JStr h) = true).
  { unfold is_hash in Hh. apply andb_true_iff in Hh as [Hne _]. exact Hne. }
  assert (Hrun : run = unless_file path
                         (download_file net (JStr (asset_url_of v h)) path) s).
  { unfold run, install_asset, bind at 1, lift. cbn [snd]. rewrite Hget, Ht.
    unfold bind at 1. cbn [lift as_str]. rewrite Hp. reflexivity. }
  split; [exact Hp|]. split.
  - intros Hs. rewrite Hrun. apply unless_file_present, Hs.
  - intros Hnone. rewrite Hrun, (unless_file_absent _ _ _ Hnone).
    rewrite download_file_unfold, asset_url_has_type.
    destruct (net (length (requests s)) (asset_url_of v h)) as [c| | |c|];
      cbn [fst snd]; (split; [reflexivity|]); intros E; try discriminate.
    exists c. split; reflexivity.
Qed.
End AssetClaims.

Lemma asset_fetched_witness :
  is_hash "abc123" = true /\
  asset_path_of Example.mc "abc123" = "/mc/assets/objects/ab/abc123" /\
  requests (snd (install_asset Example.mc Example.net (Cat4k.variant Example.linux)
                   ("icons/icon.png", JDict [("hash", JStr "abc123"); ("size", JNum 10)])
                   Example.empty_disk))
  = [("https://resources.download.minecraft.net/ab/abc123", "/mc/assets/objects/ab/abc123")] /\
  install_asset Example.mc Example.net (Cat4k.variant Example.linux)
    ("icons/icon.png", JDict [("hash", JStr "abc123"); ("size", JNum 10)])
    Example.installed = (Ok tt, Example.installed).
Proof.
  split; [reflexivity|].
  destruct (asset_fetched_iff_missing Example.mc Example.net (Cat4k.variant Example.linux)
              "icons/icon.png" (JDict [("hash", JStr "abc123"); ("size", JNum 10)])
              "abc123" Example.empty_disk) as (Hp & _ & Hmiss); [reflexivity | reflexivity |].
  destruct (asset_fetched_iff_missing Example.mc Example.net (Cat4k.variant Example.linux)
              "icons/icon.png" (JDict [("hash", JStr "abc123"); ("size", JNum 10)])
              "abc123" Example.installed) as (_ & Hthere & _); [reflexivity | reflexivity |].
  split; [rewrite Hp; reflexivity|]. split.
  - destruct Hmiss as [Hreq _]; [reflexivity|]. rewrite Hreq. reflexivity.
  - apply Hthere. vm_compute. eauto.
Defined.

(** ** download_file with retries *)

Section RetryClaims.
Variable net : nat -> string -> outcome.






(** The loop always ends: with [retries] as fuel it never runs dry. *)
Lemma download_attempts_total fuel u dest retries :
  forall attempt s,
    (retries - attempt <= fuel)%nat ->
    fst (download_attempts net fuel attempt retries u dest s) <> Diverge.
Proof.
  induction fuel as [|fuel IH]; intros attempt s Hf; cbn [download_attempts].
  - assert (H : Nat.ltb attempt retries = false) by (apply Nat.ltb_ge; lia).
    rewrite H. discriminate.
  - destruct (Nat.ltb attempt retries) eqn:Hlt; [|discriminate].
    apply Nat.ltb_lt in Hlt.
    destruct (net (length (requests s)) u); try discriminate; apply IH; lia.
Qed.
End RetryClaims.



(** ** add_account *)

Section AccountClaims.
Variable uuid3 : string -> string.

Lemma same_account_dict t u a : is_dict a -> exists b, same_account t u a = Ok b.
Proof.
  destruct a as [| | | | |d]; try contradiction. intros _.
  unfold same_account, py_get, py_get_d. cbn [rbind].
  destruct (py_eq_str _ t); eauto.
Qed.

Lemma make_account_type t u tok :
  py_get (make_account uuid3 t u tok) "type" = Ok (JStr t).
Proof. reflexivity. Qed.

Lemma make_account_username t u tok :
  py_get (make_account uuid3 t u tok) "username" = Ok (JStr u).
Proof. reflexivity. Qed.

Lemma same_account_new t u tok t' u' :
  same_account t' u' (make_account uuid3 t u tok) = Ok true -> t' = t /\ u' = u.
Proof.
  unfold same_account. rewrite make_account_type, make_account_username.
  cbn [rbind py_eq_str].
  destruct (bool_decide (t = t')) eqn:Et; [|discriminate].
  destruct (bool_decide (u = u')) eqn:Eu; [|discriminate].
  apply bool_decide_eq_true_1 in Et, Eu. auto.
Qed.

Lemma same_account_made t u tok :
  same_account t u (make_account uuid3 t u tok) = Ok true.
Proof.
  unfold same_account. rewrite make_account_type, make_account_username.
  cbn [rbind py_eq_str].
  rewrite !bool_decide_eq_true_2 by reflexivity. reflexivity.
Qed.

(** What the loop finds: the first matching record, if any. *)
Lemma find_account_spec t u accounts :
  Forall is_dict accounts ->
  forall i0,
    (exists k a, find_account t u i0 accounts = Ok (Some (i0 + k)%nat) /\
                 accounts !! k = Some a /\ same_account t u a = Ok true) \/
    (find_account t u i0 accounts = Ok None /\
     forall k a, accounts !! k = Some a -> same_account t u a = Ok false).
Proof.
  induction 1 as [|a l Ha Hl IH]; intros i0.
  - right. split; [reflexivity|]. intros k a Hk. destruct k; discriminate.
  - cbn [find_account].
    destruct (same_account_dict t u a Ha) as [[|] E]; rewrite E; cbn [rbind].
    + left. exists 0%nat, a. rewrite Nat.add_0_r. auto.
    + destruct (IH (S i0)) as [(k & b & Ef & Hk & Hb)|[Ef Hnone]].
      * left. exists (S k), b. rewrite Ef.
        replace (i0 + S k)%nat with (S i0 + k)%nat by lia. auto.
      * right. split; [exact Ef|]. intros [|k] b Hk; [|eapply Hnone, Hk].
        injection Hk as <-. exact E.
Qed.

(** C10: on a list of records with at most one per (type, username),
    [add_account] keeps that property; an existing pair is replaced
    where it stands, a new pair is appended once, and an empty
    username changes nothing. *)
Theorem add_account_keeps_unique acc_type username token accounts :
  Forall is_dict accounts ->
  unique_accounts accounts ->
  exists accounts',
    add_account uuid3 acc_type username token accounts = Ok accounts' /\
    Forall is_dict accounts' /\
    unique_accounts accounts' /\
    (username = EmptyString -> accounts' = accounts) /\
    (username <> EmptyString ->
     (forall i a, accounts !! i = Some a ->
                  same_account acc_type username a = Ok true ->
                  accounts' = <[i := make_account uuid3 acc_type username token]> accounts /\
                  length accounts' = length accounts) /\
     ((forall i a, accounts !! i = Some a ->
                   same_account acc_type username a = Ok false) ->
      accounts' = (accounts ++ [make_account uuid3 acc_type username token])%list)).
Proof.
  intros Hd Hu. unfold add_account.
  destruct (bool_decide (username = EmptyString)) eqn:Eu.
  { apply bool_decide_eq_true_1 in Eu.
    exists accounts.
    split; [reflexivity|]. split; [exact Hd|]. split; [exact Hu|].
    split; [reflexivity | intros Hne; contradiction]. }
  apply bool_decide_eq_false_1 in Eu.
  set (acc := make_account uuid3 acc_type username token).
  assert (Hacc : is_dict acc) by exact I.
  destruct (find_account_spec acc_type username accounts Hd 0)
    as [(k & a & Ef & Hk & Ha)|[Ef Hnone]]; rewrite Ef; cbn [rbind Nat.add].
  - exists (<[k := acc]> accounts). split; [reflexivity|]. split.
    { apply Forall_insert; assumption. }
    split.
    { intros t u i j x y Hi Hj Hx Hy.
      destruct (decide (i = k)) as [->|Hik]; destruct (decide (j = k)) as [->|Hjk];
        try reflexivity.
      - rewrite list_lookup_insert_eq in Hi by (eapply lookup_lt_Some, Hk).
        injection Hi as <-.
        apply same_account_new in Hx as [-> ->].
        rewrite list_lookup_insert_ne in Hj by congruence.
        symmetry. eapply (Hu acc_type username j k); eassumption.
      - rewrite list_lookup_insert_eq in Hj by (eapply lookup_lt_Some, Hk).
        injection Hj as <-.
        apply same_account_new in Hy as [-> ->].
        rewrite list_lookup_insert_ne in Hi by congruence.
        eapply (Hu acc_type username i k); eassumption.
      - rewrite list_lookup_insert_ne in Hi by congruence.
        rewrite list_lookup_insert_ne in Hj by congruence.
        eapply Hu; eassumption. }
    split; [intros; contradiction|]. intros _. split.
    + intros i b Hi Hb. rewrite (Hu acc_type username i k b a Hi Hk Hb Ha).
      split; [reflexivity | apply length_insert].
    + intros Hall. rewrite (Hall k a Hk) in Ha. discriminate.
  - exists (accounts ++ [acc])%list. split; [reflexivity|]. split.
    { apply Forall_app. split; [assumption | constructor; [exact Hacc | constructor]]. }
    split.
    { assert (Hlast : forall t u i x, (accounts ++ [acc])%list !! i = Some x ->
                        same_account t u x = Ok true ->
                        (i < length accounts /\ accounts !! i = Some x)%nat \/
                        (i = length accounts /\ t = acc_type /\ u = username)).
      { intros t u i x Hi Hx.
        destruct (decide (i < length accounts)%nat) as [Hlt|Hge].
        - left. rewrite lookup_app_l in Hi by exact Hlt. auto.
        - right. rewrite lookup_app_r in Hi by lia.
          destruct (i - length accounts)%nat as [|n] eqn:En; [|destruct n; discriminate].
          injection Hi as <-. apply same_account_new in Hx as [-> ->].
          split; [lia | auto]. }
      intros t u i j x y Hi Hj Hx Hy.
      destruct (Hlast t u i x Hi Hx) as [[Hil Hi']|(Hie & Hit & Hiu)];
        destruct (Hlast t u j y Hj Hy) as [[Hjl Hj']|(Hje & Hjt & Hju)].
      - eapply Hu; eassumption.
      - subst t u. rewrite (Hnone _ _ Hi') in Hx. discriminate.
      - subst t u. rewrite (Hnone _ _ Hj') in Hy. discriminate.
      - congruence. }
    split; [intros; contradiction|]. intros _. split.
    + intros i b Hi Hb. rewrite (Hnone i b Hi) in Hb. discriminate.
    + intros _. reflexivity.
Qed.
End AccountClaims.

Lemma add_account_witness :
  exists accounts',
    add_account (fun name => name) "offline" "Steve" None [Example.steve] = Ok accounts' /\
    length accounts' = 1%nat.
Proof.
  destruct (add_account_keeps_unique (fun name => name) "offline" "Steve" None [Example.steve])
    as (accounts' & E & _ & _ & _ & H).
  - repeat constructor.
  - intros t u [|i] [|j] a b Hi Hj _ _; try reflexivity; try discriminate;
      destruct i || destruct j; discriminate.
  - exists accounts'. split; [exact E|].
    destruct (H ltac:(discriminate)) as [Hrep _].
    destruct (Hrep 0%nat Example.steve eq_refl eq_refl) as [_ Hlen]. exact Hlen.
Defined.

(** ** Merging a descriptor with its parent *)

Lemma load_parent_cached mc_dir vdata pid parent_data s :
  py_get vdata "inheritsFrom" = Ok (JStr pid) ->
  pid <> EmptyString ->
  files s !! version_json_path_of mc_dir pid = Some (CJson parent_data) ->
  load_parent mc_dir vdata s = (Ok parent_data, s).
Proof.
  intros Hget Hne Hfile. unfold load_parent, bind at 1, lift. rewrite Hget.
  assert (T : truthy (JStr pid) = true).
  { cbn. rewrite bool_decide_eq_false_2 by exact Hne. reflexivity. }
  rewrite T.
  assert (Hitem : py_item vdata "inheritsFrom" = Ok (JStr pid)).
  { destruct vdata as [| | | | |d]; try discriminate.
    unfold py_get, py_get_d in Hget. unfold py_item.
    destruct (dict_lookup d "inheritsFrom") as [x|]; [congruence|].
    injection Hget as Hget. discriminate. }
  unfold bind, lift. rewrite Hitem. cbn [rbind as_str].
  unfold json_load. rewrite Hfile. reflexivity.
Qed.

(** C2 (as the scripts behave): for a version that declares a parent,
    the library list is the child's libraries followed by the parent's.
    Client.py puts the parent's jvm and game arguments before the
    child's; Cat4k.py takes the child's list when the child has the
    key and the parent's otherwise.  A game list that comes out empty
    is replaced: in Client.py by the words of the child's
    minecraftArguments (of the empty string without that field), in
    Cat4k.py by those words if the child has the field. *)
Theorem merge_orders mc_dir s vdata pid parent_data
    own_libs parent_libs own_args parent_args own_jvm parent_jvm own_game parent_game :
  py_get vdata "inheritsFrom" = Ok (JStr pid) ->
  pid <> EmptyString ->
  files s !! version_json_path_of mc_dir pid = Some (CJson parent_data) ->
  py_get_d vdata "libraries" (JList []) = Ok (JList own_libs) ->
  py_get_d parent_data "libraries" (JList []) = Ok (JList parent_libs) ->
  py_get_d vdata "arguments" (JDict []) = Ok own_args ->
  py_get_d parent_data "arguments" (JDict []) = Ok parent_args ->
  py_get_d own_args "jvm" (JList []) = Ok (JList own_jvm) ->
  py_get_d parent_args "jvm" (JList []) = Ok (JList parent_jvm) ->
  py_get_d own_args "game" (JList []) = Ok (JList own_game) ->
  py_get_d parent_args "game" (JList []) = Ok (JList parent_game) ->
  load_parent mc_dir vdata s = (Ok parent_data, s) /\
  merged_libraries vdata parent_data = Ok (JList (own_libs ++ parent_libs)) /\
  client_raw_jvm_args vdata parent_data = Ok (JList (parent_jvm ++ own_jvm)) /\
  ((parent_game ++ own_game)%list <> [] ->
   client_raw_game_args vdata parent_data = Ok (JList (parent_game ++ own_game))) /\
  (forall legacy,
      (parent_game ++ own_game)%list = [] ->
      py_get_d vdata "minecraftArguments" (JStr EmptyString) = Ok (JStr legacy) ->
      client_raw_game_args vdata parent_data = Ok (JList (map JStr (py_split legacy)))) /\
  cat4k_raw_jvm_args vdata parent_data
  = Ok (JList (if has_key own_args "jvm" then own_jvm else parent_jvm)) /\
  ((if has_key own_args "game" then own_game else parent_game) <> [] ->
   cat4k_raw_game_args vdata parent_data
   = Ok (JList (if has_key own_args "game" then own_game else parent_game))) /\
  ((if has_key own_args "game" then own_game else parent_game) = [] ->
   (has_key vdata "minecraftArguments" = false ->
    cat4k_raw_game_args vdata parent_data = Ok (JList [])) /\
   (forall legacy,
       py_item vdata "minecraftArguments" = Ok (JStr legacy) ->
       cat4k_raw_game_args vdata parent_data = Ok (JList (map JStr (py_split legacy))))).
Proof.
  intros Hinh Hne Hfile Hl Hpl Ha Hpa Hj Hpj Hg Hpg.
  split; [eapply load_parent_cached; eassumption|].
  split; [unfold merged_libraries; rewrite Hl, Hpl; reflexivity|].
  split; [unfold client_raw_jvm_args; rewrite Ha, Hpa; cbn [rbind];
          rewrite Hpj, Hj; reflexivity|].
  assert (Hcat : forall k own inherited,
             py_get_d own_args k (JList []) = Ok (JList own) ->
             py_get_d own_args k (JList inherited)
             = Ok (JList (if has_key own_args k then own else inherited))).
  { intros k own inherited. destruct own_args as [| | | | |d]; try discriminate.
    unfold py_get_d, has_key. destruct (dict_lookup d k) as [x|].
    - rewrite bool_decide_eq_true_2 by eauto. auto.
    - rewrite bool_decide_eq_false_2 by (intros [? ?]; discriminate). reflexivity. }
  assert (Hdict : exists d, vdata = JDict d).
  { destruct vdata; try discriminate. eauto. }
  destruct Hdict as [d ->].
  split; [|split; [|split; [|split]]].
  - intros Hnonempty. unfold client_raw_game_args. rewrite Ha, Hpa. cbn [rbind].
    rewrite Hpg, Hg. cbn [rbind py_add].
    destruct (parent_game ++ own_game)%list eqn:E; [contradiction | reflexivity].
  - intros legacy Hempty Hlegacy. unfold client_raw_game_args. rewrite Ha, Hpa. cbn [rbind].
    rewrite Hpg, Hg. cbn [rbind py_add]. rewrite Hempty. cbn [truthy].
    rewrite Hlegacy. reflexivity.
  - unfold cat4k_raw_jvm_args. rewrite Ha, Hpa. cbn [rbind]. rewrite Hpj. cbn [rbind].
    apply Hcat, Hj.
  - intros Hnonempty. unfold cat4k_raw_game_args. rewrite Ha, Hpa. cbn [rbind].
    rewrite Hpg. cbn [rbind]. rewrite (Hcat "game" own_game parent_game Hg). cbn [rbind].
    destruct (if has_key own_args "game" then own_game else parent_game) eqn:E;
      [contradiction | reflexivity].
  - intros Hempty. split.
    + intros Hno. unfold cat4k_raw_game_args. rewrite Ha, Hpa. cbn [rbind].
      rewrite Hpg. cbn [rbind]. rewrite (Hcat "game" own_game parent_game Hg). cbn [rbind].
      rewrite Hempty. cbn [truthy py_in rbind].
      unfold has_key in Hno. rewrite Hno. reflexivity.
    + intros legacy Hlegacy. unfold cat4k_raw_game_args. rewrite Ha, Hpa. cbn [rbind].
      rewrite Hpg. cbn [rbind]. rewrite (Hcat "game" own_game parent_game Hg). cbn [rbind].
      rewrite Hempty. cbn [truthy py_in rbind].
      assert (Hhas : bool_decide (is_Some (dict_lookup d "minecraftArguments")) = true).
      { apply bool_decide_eq_true_2. unfold py_item in Hlegacy.
        destruct (dict_lookup d "minecraftArguments"); [eauto | discriminate]. }
      rewrite Hhas, Hlegacy. reflexivity.
Qed.

Lemma merge_orders_witness :
  merged_libraries Example.child (patch_json Example.parent)
  = Ok (JList (child_libs ++ parent_libs)) /\
  client_raw_jvm_args Example.child (patch_json Example.parent)
  = Ok (JList [JStr "-Dparent=1"; JStr "-Dchild=1"]) /\
  cat4k_raw_jvm_args Example.child (patch_json Example.parent)
  = Ok (JList [JStr "-Dchild=1"]).
Proof.
  destruct (merge_orders Example.mc Example.installed Example.child "p"
              (patch_json Example.parent) child_libs parent_libs
              (JDict [("jvm", JList [JStr "-Dchild=1"]);
                      ("game", JList [JStr "--username"; JStr "${auth_player_name}"])])
              (JDict [("jvm", JList [JStr "-Dparent=1"]);
                      ("game", JList [JStr "--demo"])])
              [JStr "-Dchild=1"] [JStr "-Dparent=1"]
              [JStr "--username"; JStr "${auth_player_name}"]
              [JStr "--demo"])
    as (_ & Hlibs & Hjvm & _ & _ & Hcat & _);
    try reflexivity; try discriminate.
  split; [exact Hlibs | split; [exact Hjvm | exact Hcat]].
Defined.

(** C2 (as stated) fails: the parent's libraries come after the
    child's, and Cat4k.py drops the parent's jvm arguments when the
    child has its own. *)
Lemma parent_then_child_fails :
  merged_libraries Example.child Example.parent = Ok (JList (child_libs ++ parent_libs)) /\
  merged_libraries Example.child Example.parent <> Ok (JList (parent_libs ++ child_libs)) /\
  cat4k_raw_jvm_args Example.child Example.parent
  <> Ok (JList [JStr "-Dparent=1"; JStr "-Dchild=1"]).
Proof.
  split; [reflexivity|]. split; vm_compute; discriminate.
Qed.

(** ** Placeholders *)

Lemma format_plain_char kw c rest :
  c <> "{"%char -> c <> "}"%char ->
  format_from kw (String c rest) None
  = rbind (format_from kw rest None) (fun t => Ok (String c t)).
Proof.
  intros H1 H2.
  destruct c as [[] [] [] [] [] [] [] []]; try reflexivity; contradiction.
Qed.

Lemma format_plain kw pre rest :
  no_brace pre = true ->
  format_from kw (pre +:+ rest) None
  = rbind (format_from kw rest None) (fun t => Ok (pre +:+ t)).
Proof.
  induction pre as [|c pre IH]; intros H.
  - change (format_from kw rest None = rbind (format_from kw rest None) (fun t => Ok t)).
    destruct (format_from kw rest None); reflexivity.
  - cbn [no_brace] in H. apply andb_true_iff in H as [H Hr].
    apply andb_true_iff in H as [H1 H2].
    apply negb_true_iff, bool_decide_eq_false_1 in H1.
    apply negb_true_iff, bool_decide_eq_false_1 in H2.
    change (String c pre +:+ rest) with (String c (pre +:+ rest)).
    rewrite (format_plain_char kw c _ H1 H2), (IH Hr).
    destruct (format_from kw rest None); reflexivity.
Qed.

Lemma format_plain_only kw post :
  no_brace post = true -> format_from kw post None = Ok post.
Proof.
  intros H. induction post as [|c post IH]; [reflexivity|].
  cbn [no_brace] in H. apply andb_true_iff in H as [H Hr].
  apply andb_true_iff in H as [H1 H2].
  apply negb_true_iff, bool_decide_eq_false_1 in H1.
  apply negb_true_iff, bool_decide_eq_false_1 in H2.
  rewrite (format_plain_char kw c _ H1 H2), (IH Hr). reflexivity.
Qed.

Lemma str_contains_middle sub pre post :
  str_contains sub (pre +:+ sub +:+ post) = true.
Proof.
  assert (P : forall a b, starts_with a (a +:+ b) = true).
  { induction a as [|c a IH]; intros b; [reflexivity|].
    change (String c a +:+ b) with (String c (a +:+ b)). cbn [starts_with].
    rewrite bool_decide_eq_true_2 by reflexivity. apply IH. }
  induction pre as [|c pre IH].
  - change (EmptyString +:+ sub +:+ post) with (sub +:+ post).
    destruct (sub +:+ post) eqn:E; cbn [str_contains]; rewrite <- E, P; reflexivity.
  - change (String c pre +:+ sub +:+ post) with (String c (pre +:+ sub +:+ post)).
    cbn [str_contains]. rewrite IH. apply orb_true_r.
Qed.

Section PlaceholderClaims.
Variable mc_dir : string.
Variable h : host.
Variable abspath : string -> string.
Variable pathsep : string.
Variable version_id : string.
Variable account : json.
Variable opts : launch_options.
Variables vdata parent_data : json.

(** In Client.py no key of the table is a field name: every token
    that mentions the player-name placeholder raises KeyError. *)
Lemma client_placeholder_raises replacements pre post :
  client_replacements mc_dir abspath pathsep version_id account opts vdata parent_data
  = Ok replacements ->
  no_brace pre = true ->
  json_format replacements (JStr (pre +:+ "${auth_player_name}" +:+ post))
  = Raise (KeyError "auth_player_name").
Proof.
  unfold client_replacements. intros H Hpre.
  destruct (py_item account "username") as [username| |]; try discriminate.
  cbn [rbind] in H.
  destruct (assets_index_name vdata parent_data) as [index_name| |]; try discriminate.
  cbn [rbind] in H.
  destruct (py_item account "uuid") as [uuid| |]; try discriminate.
  cbn [rbind] in H.
  destruct (py_item account "token") as [token| |]; try discriminate.
  cbn [rbind] in H.
  destruct (py_item account "type") as [acc_type| |]; try discriminate.
  cbn [rbind] in H.
  destruct (py_get_d vdata "type" (JStr "release")) as [version_type| |]; try discriminate.
  cbn [rbind] in H. injection H as <-.
  unfold json_format, py_format. rewrite (format_plain _ _ _ Hpre).
  reflexivity.
Qed.

(** In Cat4k.py the braces and the name are replaced by the user
    name; the dollar sign stays. *)
Lemma cat4k_placeholder_substituted replacements name pre post :
  cat4k_replacements mc_dir abspath pathsep version_id account opts vdata parent_data
  = Ok replacements ->
  py_item account "username" = Ok (JStr name) ->
  no_brace pre = true -> no_brace post = true ->
  cat4k_literal replacements (pre +:+ "${auth_player_name}" +:+ post)
  = Ok [JStr (pre +:+ "$" +:+ name +:+ post)].
Proof.
  unfold cat4k_replacements. intros H Hname Hpre Hpost. rewrite Hname in H.
  cbn [rbind] in H.
  destruct (assets_index_name vdata parent_data) as [index_name| |]; try discriminate.
  cbn [rbind] in H.
  destruct (py_item account "uuid") as [uuid| |]; try discriminate.
  cbn [rbind] in H.
  destruct (py_item account "token") as [token| |]; try discriminate.
  cbn [rbind] in H.
  destruct (py_item account "type") as [acc_type| |]; try discriminate.
  cbn [rbind] in H.
  destruct (py_get_d vdata "type" (JStr "release")) as [version_type| |]; try discriminate.
  cbn [rbind] in H. injection H as <-.
  unfold cat4k_literal, present_keys, py_format.
  cbn [List.filter fst].
  assert (C : str_contains "auth_player_name" (pre +:+ "${auth_player_name}" +:+ post) = true).
  { change (pre +:+ "${auth_player_name}" +:+ post)
      with (pre +:+ "${" +:+ "auth_player_name" +:+ "}" +:+ post).
    rewrite <- (str_app_assoc pre "${"). apply str_contains_middle. }
  rewrite C. rewrite (format_plain _ _ _ Hpre).
  change ("${auth_player_name}" +:+ post)
    with (String "$" (String "{" ("auth_player_name}" +:+ post))).
  rewrite format_plain_char by discriminate.
  cbn -[format_from String.append].
  assert (F : forall kw,
             dict_lookup kw "auth_player_name" = Some (JStr name) ->
             format_from kw (String "{" ("auth_player_name}" +:+ post)) None
             = Ok (name +:+ post)).
  { intros kw Hkw. rewrite !append_cons.
    change (EmptyString +:+ post) with post.
    cbn [format_from field_special existsb bool_decide decide_rel].
    change (rbind (field_value kw "auth_player_name")
              (fun value => rbind (format_from kw post None)
                              (fun t => Ok (value +:+ t)))
            = Ok (name +:+ post)).
    unfold field_value. cbn [all_digits is_digit]. rewrite Hkw.
    cbn [py_str rbind]. rewrite (format_plain_only kw post Hpost). reflexivity. }
  rewrite F; [reflexivity|].
  cbn. rewrite bool_decide_eq_true_2 by reflexivity. reflexivity.
Qed.
End PlaceholderClaims.

(** C7: on a descriptor whose game arguments hold the player-name
    placeholder, with the account of Steve, Client.py builds no command:
    the launch ends in KeyError.  Cat4k.py, on the same input, puts
    "$Steve" in that position. *)
Theorem client_launch_raises_key_error :
  ExampleLaunch.client_command = Raise (KeyError "auth_player_name") /\
  ExampleLaunch.cat4k_command
  = Ok [ JStr "java"; JStr "-Xmx1024M"; JStr "-Djava.library.path=/mc/versions/c/natives";
         JStr "-Dchild=1"; JStr "-cp";
         JStr "/mc/libraries/a/lc.jar:/mc/libraries/a/lp.jar:/mc/versions/p/p.jar";
         JStr "net.minecraft.client.main.Main"; JStr "--username"; JStr "$Steve" ].
Proof. split; vm_compute; reflexivity. Qed.

(** * Further properties *)

(** ** What any run of the installer leaves alone *)

Section Frame.
Variable mc_dir : string.

Lemma kept_same s s' : files s' = files s -> kept mc_dir s s'.
Proof. intros E p c H. left. rewrite E. exact H. Qed.

Lemma kept_covers s s' : kept mc_dir s s' -> covers s s'.
Proof.
  intros H p c Hp. destruct (H p c Hp) as [E|(vid & j & _ & _ & -> & _ & E)].
  - exists c. split; [exact E | reflexivity].
  - exists (CJson (patch_json j)). split; [exact E|].
    unfold same_doc. cbn. rewrite patch_json_idem. reflexivity.
Qed.

Lemma needs_patch_patched j : needs_patch (patch_json j) = false.
Proof.
  destruct (needs_patch j) eqn:N.
  - destruct (needs_patch_true _ N) as (d & -> & ->).
    unfold needs_patch, py_get_d. rewrite dict_lookup_set_eq. reflexivity.
  - rewrite (needs_patch_false _ N). exact N.
Qed.

Lemma kept_trans s s1 s2 :
  kept mc_dir s s1 -> locked s1 = locked s -> kept mc_dir s1 s2 -> kept mc_dir s s2.
Proof.
  intros H1 Hl H2 p c Hp.
  destruct (H1 p c Hp) as [E|(vid & j & Hvid & Hlock & Hc & Hn & E)].
  - destruct (H2 p c E) as [E2|(vid & j & Hvid & Hlock & Hc & Hn & E2)].
    + left. exact E2.
    + right. exists vid, j. rewrite Hl in Hlock. auto 6.
  - destruct (H2 p _ E) as [E2|(vid2 & j2 & _ & _ & Hc2 & Hn2 & _)].
    + right. exists vid, j. auto 6.
    + injection Hc2 as <-. rewrite needs_patch_patched in Hn2. discriminate.
Qed.

Lemma kept_insert_fresh s s2 p c :
  files s !! p = None -> files s2 = <[p := c]> (files s) -> kept mc_dir s s2.
Proof.
  intros Hnone E q cq Hq. left. rewrite E.
  rewrite lookup_insert_ne; [exact Hq | congruence].
Qed.

Lemma tidy_run_same s (ok : Prop) s' :
  files s' = files s -> requests s' = requests s -> locked s' = locked s ->
  tidy_run mc_dir s ok s'.
Proof.
  intros Hf Hr Hl. split; [apply kept_same, Hf|]. split; [exact Hl|].
  exists []. rewrite app_nil_r. split; [exact Hr|]. split.
  - intros u d H. inversion H.
  - split; [constructor | intros _ u d H; inversion H].
Qed.

Lemma tidy_run_weaken s (ok ok' : Prop) s' :
  (ok' -> ok) -> tidy_run mc_dir s ok s' -> tidy_run mc_dir s ok' s'.
Proof.
  intros Hok (Hc & Hl & new & Hr & Ha & Hn & Hp).
  split; [exact Hc|]. split; [exact Hl|]. exists new.
  split; [exact Hr|]. split; [exact Ha|]. split; [exact Hn|].
  intros H u d Hin. exact (Hp (Hok H) u d Hin).
Qed.

Lemma covers_absent s s' d : covers s s' -> files s' !! d = None -> files s !! d = None.
Proof.
  intros Hc Hn. destruct (files s !! d) as [c|] eqn:E; [|reflexivity].
  destruct (Hc d c E) as (c2 & E2 & _). congruence.
Qed.

Lemma covers_present s s' d : covers s s' -> is_Some (files s !! d) -> is_Some (files s' !! d).
Proof. intros Hc [c E]. destruct (Hc d c E) as (c2 & E2 & _). eauto. Qed.

Lemma tidy_run_trans s s1 s' (ok : Prop) :
  tidy_run mc_dir s True s1 -> tidy_run mc_dir s1 ok s' -> tidy_run mc_dir s ok s'.
Proof.
  intros (Hk1 & Hl1 & new1 & Hr1 & Ha1 & Hn1 & Hp1) (Hk2 & Hl2 & new2 & Hr2 & Ha2 & Hn2 & Hp2).
  pose proof (kept_covers _ _ Hk1) as Hc1. pose proof (kept_covers _ _ Hk2) as Hc2.
  split; [eapply kept_trans; eassumption|].
  split; [congruence|].
  exists (new1 ++ new2)%list. split; [rewrite Hr2, Hr1, app_assoc; reflexivity|].
  split; [|split].
  - intros u d H. apply elem_of_app in H as [H|H]; [eapply Ha1, H|].
    eapply covers_absent; [exact Hc1 | eapply Ha2, H].
  - rewrite fmap_app. apply NoDup_app. split; [exact Hn1|]. split; [|exact Hn2].
    intros d H1 H2.
    apply list_elem_of_fmap in H1 as ([u1 d1] & -> & H1).
    apply list_elem_of_fmap in H2 as ([u2 d2] & E & H2). cbn in E. subst d2.
    destruct (Hp1 I u1 d1 H1) as [c Hc]. rewrite (Ha2 u2 d1 H2) in Hc. discriminate.
  - intros Hok u d H. apply elem_of_app in H as [H|H]; [|eapply Hp2; eassumption].
    eapply covers_present; [exact Hc2 | eapply Hp1; [exact I | exact H]].
Qed.

Lemma tidy_ret {A} (a : A) : tidy mc_dir (ret a).
Proof. intros s r s' H. inversion H; subst. apply tidy_run_same; reflexivity. Qed.

Lemma tidy_lift {A} (x : res A) : tidy mc_dir (lift x).
Proof. intros s r s' H. inversion H; subst. apply tidy_run_same; reflexivity. Qed.

Lemma tidy_bind {A B} (m : M A) (f : A -> M B) :
  tidy mc_dir m -> (forall a, tidy mc_dir (f a)) -> tidy mc_dir (bind m f).
Proof.
  intros Hm Hf s r s' H. unfold bind in H.
  destruct (m s) as [[a|e|] s1] eqn:E.
  - eapply tidy_run_trans; [apply (Hm s (Ok a) s1 E) | apply (Hf a s1 r s' H)].
  - inversion H; subst. eapply tidy_run_weaken; [|apply (Hm s (Raise e) s' E)].
    intros [].
  - inversion H; subst. eapply tidy_run_weaken; [|apply (Hm s Diverge s' E)].
    intros [].
Qed.

Lemma tidy_for_each {A} (body : A -> M unit) xs :
  (forall x, tidy mc_dir (body x)) -> tidy mc_dir (for_each xs body).
Proof.
  intros Hb. induction xs as [|x xs IH]; cbn [for_each].
  - apply tidy_ret.
  - apply tidy_bind; [apply Hb | intros _; exact IH].
Qed.

Lemma tidy_json_load p : tidy mc_dir (json_load p).
Proof.
  intros s r s' H. unfold json_load in H.
  destruct (files s !! p) as [[j| |]|]; inversion H; subst;
    apply tidy_run_same; reflexivity.
Qed.

Lemma tidy_patch_skin_version vid :
  tidy mc_dir (patch_skin_version (version_json_path_of mc_dir vid)).
Proof.
  intros s r s' H. unfold patch_skin_version in H.
  destruct (files s !! version_json_path_of mc_dir vid) as [[j| |]|] eqn:E;
    try (inversion H; subst; apply tidy_run_same; reflexivity).
  destruct (bool_decide (version_json_path_of mc_dir vid ∈ locked s)) eqn:L;
    [inversion H; subst; apply tidy_run_same; reflexivity|].
  apply bool_decide_eq_false_1 in L.
  destruct (needs_patch j) eqn:N;
    [|inversion H; subst; apply tidy_run_same; reflexivity].
  inversion H; subst. split; [|split; [reflexivity|]].
  - intros q c Hq. cbn [files set_files].
    destruct (decide (version_json_path_of mc_dir vid = q)) as [<-|Hne].
    + right. exists vid, j. rewrite E in Hq. injection Hq as <-.
      rewrite lookup_insert_eq. auto 6.
    + left. rewrite lookup_insert_ne by exact Hne. exact Hq.
  - exists []. rewrite app_nil_r. split; [reflexivity|].
    split; [intros u d Hin; inversion Hin|].
    split; [constructor | intros _ u d Hin; inversion Hin].
Qed.

Lemma tidy_extract_natives np dir : tidy mc_dir (extract_natives np dir).
Proof.
  intros s r s' H. unfold extract_natives in H.
  destruct (files s !! np) as [[j|ms|]|]; inversion H; subst;
    apply tidy_run_same; reflexivity.
Qed.

Lemma tidy_try_extract np dir : tidy mc_dir (try_except (extract_natives np dir)).
Proof.
  intros s r s' H. unfold try_except, extract_natives in H.
  destruct (files s !! np) as [[j|ms|]|]; inversion H; subst;
    apply tidy_run_same; reflexivity.
Qed.

Lemma tidy_at_ret p : tidy_at mc_dir p (ret tt).
Proof. intros s r s' _ H. apply (tidy_ret tt s r s' H). Qed.

Lemma tidy_at_bind_lift {A} p (x : res A) (f : A -> M unit) :
  (forall a, tidy_at mc_dir p (f a)) -> tidy_at mc_dir p (bind (lift x) f).
Proof.
  intros Hf s r s' Hn H. unfold bind, lift in H.
  destruct x as [a|e|].
  - apply (Hf a s r s' Hn H).
  - inversion H; subst. apply tidy_run_same; reflexivity.
  - inversion H; subst. apply tidy_run_same; reflexivity.
Qed.

Lemma tidy_unless_file p m : tidy_at mc_dir p m -> tidy mc_dir (unless_file p m).
Proof.
  intros Hm s r s' H.
  destruct (files s !! p) as [c|] eqn:E.
  - rewrite unless_file_present in H by eauto. inversion H; subst.
    apply tidy_run_same; reflexivity.
  - rewrite (unless_file_absent _ _ _ E) in H. apply (Hm s r s' E H).
Qed.

Lemma tidy_at_download net url p : tidy_at mc_dir p (download_file net url p).
Proof.
  intros s r s' Hn H.
  destruct url as [| | |u| |];
    try (unfold download_file, bind, lift in H; cbn [url_of] in H;
         inversion H; subst; apply tidy_run_same; reflexivity).
  rewrite download_file_unfold in H.
  destruct (has_url_type u);
    [|inversion H; subst; apply tidy_run_same; reflexivity].
  assert (Hlog : forall (ok : Prop) s2,
             requests s2 = (requests s ++ [(u, p)])%list ->
             locked s2 = locked s ->
             (files s2 = files s /\ ~ ok \/ exists c, files s2 = <[p := c]> (files s)) ->
             tidy_run mc_dir s ok s2).
  { intros ok s2 Hr Hl Hf. split; [|split; [exact Hl|]].
    - destruct Hf as [[Hf _]|[c Hf]];
        [apply kept_same, Hf | eapply kept_insert_fresh; eassumption].
    - exists [(u, p)]. split; [exact Hr|]. split; [|split].
      + intros u' d Hin. apply list_elem_of_singleton in Hin. congruence.
      + cbn. apply NoDup_singleton.
      + intros Hok u' d Hin. apply list_elem_of_singleton in Hin. injection Hin as -> ->.
        destruct Hf as [[_ Hno]|[c Hf]]; [contradiction|].
        rewrite Hf, lookup_insert_eq. eauto. }
  destruct (net (length (requests s)) u) as [c| | |c|]; inversion H; subst;
    apply Hlog; try reflexivity; cbn; eauto.
Qed.
End Frame.

Ltac tidy_go :=
  repeat first
    [ apply tidy_ret
    | apply tidy_lift
    | match goal with
      | |- tidy _ (bind _ _) => apply tidy_bind; [ | intro ]
      | |- tidy _ (if ?b then _ else _) => destruct b
      end ].

Section InstallerFrame.
Variable mc_dir : string.
Variable all_versions : gmap string json.
Variable net : nat -> string -> outcome.
Variable v : variant.

Lemma tidy_install_artifact lib : tidy mc_dir (install_artifact mc_dir net lib).
Proof.
  unfold install_artifact. tidy_go.
  apply tidy_unless_file, tidy_at_bind_lift. intros u. apply tidy_at_download.
Qed.

Lemma tidy_extract np dir : tidy mc_dir (extract v np dir).
Proof.
  unfold extract. destruct (extraction_guarded v);
    [apply tidy_try_extract | apply tidy_extract_natives].
Qed.

Lemma tidy_install_natives folder lib : tidy mc_dir (install_natives mc_dir net v folder lib).
Proof.
  unfold install_natives. tidy_go.
  - apply tidy_unless_file, tidy_at_bind_lift. intros u. apply tidy_at_download.
  - apply tidy_extract.
Qed.

Lemma tidy_install_library folder lib : tidy mc_dir (install_library mc_dir net v folder lib).
Proof.
  unfold install_library. tidy_go; [apply tidy_install_artifact | apply tidy_install_natives].
Qed.

Lemma tidy_install_asset entry : tidy mc_dir (install_asset mc_dir net v entry).
Proof.
  unfold install_asset. tidy_go. apply tidy_unless_file, tidy_at_download.
Qed.

Lemma tidy_install_assets version_data parent_data :
  tidy mc_dir (install_assets mc_dir net v version_data parent_data).
Proof.
  unfold install_assets. tidy_go.
  - apply tidy_unless_file, tidy_at_download.
  - apply tidy_json_load.
  - unfold install_objects. tidy_go. apply tidy_for_each, tidy_install_asset.
Qed.

Lemma tidy_install_client vid version_data :
  tidy mc_dir (install_client mc_dir net vid version_data).
Proof.
  unfold install_client. tidy_go.
  apply tidy_unless_file, tidy_at_bind_lift. intros u.
  destruct (truthy u); [apply tidy_at_download | apply tidy_at_ret].
Qed.

Lemma tidy_install_files vid version_data parent_data :
  tidy mc_dir (install_files mc_dir net v vid version_data parent_data).
Proof.
  unfold install_files. tidy_go.
  - apply tidy_install_client.
  - apply tidy_for_each. intros lib. apply tidy_install_library.
  - apply tidy_install_assets.
Qed.

Lemma tidy_fetch_descriptor vid : tidy mc_dir (fetch_descriptor mc_dir all_versions net vid).
Proof.
  unfold fetch_descriptor. apply tidy_unless_file, tidy_at_bind_lift.
  intros u. apply tidy_at_download.
Qed.

Lemma tidy_install_version depth :
  forall version_id, tidy mc_dir (install_version mc_dir all_versions net v depth version_id).
Proof.
  induction depth as [|depth IH]; intros version_id; cbn [install_version].
  - apply tidy_lift.
  - tidy_go.
    + apply tidy_fetch_descriptor.
    + apply tidy_json_load.
    + unfold install_parent. tidy_go; [apply IH | apply tidy_json_load].
    + apply tidy_install_files.
    + unfold patch_step. destruct (patches_skin v);
        [apply tidy_patch_skin_version | apply tidy_ret].
Qed.


Lemma patched_document j0 :
  (exists d, j0 = JDict d) ->
  exists sv,
    py_get (patch_json j0) "skinVersion" = Ok sv /\ truthy sv = true /\
    (needs_patch j0 = true -> sv = JBool true /\ patch_json j0 <> j0) /\
    (needs_patch j0 = false -> patch_json j0 = j0).
Proof.
  intros [d ->]. destruct (needs_patch (JDict d)) eqn:N.
  - destruct (needs_patch_true _ N) as (d' & Hd & Hpj). injection Hd as <-.
    exists (JBool true). rewrite Hpj. split.
    { unfold py_get, py_get_d. rewrite dict_lookup_set_eq. reflexivity. }
    split; [reflexivity|]. split; [|discriminate].
    intros _. split; [reflexivity|].
    intros Heq. injection Heq as Heq.
    unfold needs_patch, py_get_d in N.
    rewrite <- Heq, dict_lookup_set_eq in N. discriminate.
  - rewrite (needs_patch_false _ N).
    pose proof N as N'.
    unfold needs_patch, py_get_d in N'. apply negb_false_iff in N'.
    destruct (dict_lookup d "skinVersion") as [sv|] eqn:E; [|discriminate].
    exists sv. split; [unfold py_get, py_get_d; rewrite E; reflexivity|].
    split; [exact N'|]. split; [discriminate | reflexivity].
Qed.

(** C9 (as the scripts behave): where the skinVersion block exists, a
    successful install ends with the descriptor it obtained on disk.
    If that file can be opened for update, the patch has been applied:
    the stored document has a truthy skinVersion; it is set to true,
    and the document changes, exactly when the obtained one had none
    that is truthy; otherwise it is stored as obtained.  If the file
    cannot be opened for update, the install succeeds all the same and
    the document stays as obtained. *)
Theorem install_sets_skin_version depth vid s s' :
  patches_skin v = true ->
  install_version mc_dir all_versions net v depth (JStr vid) s = (Ok tt, s') ->
  exists j0 stored,
    descriptor_obtained mc_dir all_versions net s vid j0 /\
    files s' !! version_json_path_of mc_dir vid = Some (CJson stored) /\
    (version_json_path_of mc_dir vid ∉ locked s ->
     exists sv,
       py_get stored "skinVersion" = Ok sv /\ truthy sv = true /\
       (needs_patch j0 = true -> sv = JBool true /\ stored <> j0) /\
       (needs_patch j0 = false -> stored = j0)) /\
    (version_json_path_of mc_dir vid ∈ locked s -> stored = j0).
Proof.
  intros Hp H. destruct depth as [|depth]; [discriminate|].
  cbn [install_version] in H.
  apply bind_ok in H as (vid' & s0 & Hv & H). inversion Hv; subst vid' s0.
  apply bind_ok in H as ([] & s1 & Hfetch & H).
  apply bind_ok in H as (j0 & s1' & Hload & H).
  assert (Hfile : files s1 !! version_json_path_of mc_dir vid = Some (CJson j0) /\ s1' = s1).
  { unfold json_load in Hload.
    destruct (files s1 !! version_json_path_of mc_dir vid) as [[j| |]|];
      inversion Hload; subst; auto. }
  destruct Hfile as [Hfile ->].
  apply bind_ok in H as (pd & s2 & Hpar & H).
  apply bind_ok in H as ([] & s3 & Hfiles & Hpatch).
  assert (Hdict : exists d, j0 = JDict d).
  { unfold install_parent in Hpar. apply bind_ok in Hpar as (pid & s1'' & Hl & _).
    unfold lift in Hl. destruct j0; inversion Hl. eauto. }
  destruct (tidy_fetch_descriptor vid s _ _ Hfetch) as (_ & Hl01 & _).
  assert (Tpar : tidy mc_dir (install_parent mc_dir
                                (install_version mc_dir all_versions net v depth) j0)).
  { unfold install_parent. tidy_go; [apply tidy_install_version | apply tidy_json_load]. }
  destruct (Tpar s1 _ _ Hpar) as (Hk12 & Hl12 & _).
  destruct (tidy_install_files vid j0 pd s2 _ _ Hfiles) as (Hk23 & Hl23 & _).
  pose proof (kept_trans mc_dir _ _ _ Hk12 Hl12 Hk23) as Hk13.
  assert (Hl3 : locked s3 = locked s) by congruence.
  assert (Hstored :
            (version_json_path_of mc_dir vid ∉ locked s ->
             files s' !! version_json_path_of mc_dir vid = Some (CJson (patch_json j0))) /\
            (version_json_path_of mc_dir vid ∈ locked s ->
             files s' !! version_json_path_of mc_dir vid = Some (CJson j0))).
  { unfold patch_step in Hpatch. rewrite Hp in Hpatch. unfold patch_skin_version in Hpatch.
    destruct (Hk13 _ _ Hfile) as [E3|(vid2 & j2 & _ & Hun & Hc & Hn & E3)].
    - rewrite E3, Hl3 in Hpatch.
      destruct (bool_decide (version_json_path_of mc_dir vid ∈ locked s)) eqn:L.
      + apply bool_decide_eq_true_1 in L. inversion Hpatch; subst s'.
        split; [intros Hno; contradiction | intros _; exact E3].
      + apply bool_decide_eq_false_1 in L. split; [intros _|intros Hyes; contradiction].
        destruct (needs_patch j0) eqn:N; inversion Hpatch; subst s'.
        * cbn [files set_files]. apply lookup_insert_eq.
        * rewrite (needs_patch_false _ N). exact E3.
    - injection Hc as <-. rewrite E3, Hl3 in Hpatch.
      assert (L : version_json_path_of mc_dir vid ∉ locked s) by congruence.
      rewrite bool_decide_eq_false_2 in Hpatch by exact L.
      rewrite needs_patch_patched in Hpatch. inversion Hpatch; subst s'.
      split; [intros _; exact E3 | intros Hyes; contradiction]. }
  destruct Hstored as [Hopen Hshut].
  destruct (decide (version_json_path_of mc_dir vid ∈ locked s)) as [L|L].
  - exists j0, j0. split; [eapply fetch_descriptor_obtained; eassumption|].
    split; [apply Hshut, L|]. split; [intros Hno; contradiction | reflexivity].
  - exists j0, (patch_json j0). split; [eapply fetch_descriptor_obtained; eassumption|].
    split; [apply Hopen, L|]. split; [|intros Hyes; contradiction].
    intros _. apply patched_document, Hdict.
Qed.

(** X2: a version that is neither cached nor listed in the manifest
    makes install_version raise at once: nothing is requested and the
    disk is as before. *)
Theorem install_unknown_version depth vid s :
  files s !! version_json_path_of mc_dir vid = None ->
  all_versions !! vid = None ->
  install_version mc_dir all_versions net v (S depth) (JStr vid) s
  = (Raise (VersionNotFound vid), s).
Proof.
  intros Hf Hv. cbn [install_version]. unfold bind at 1. cbn [lift as_str].
  unfold bind at 1. unfold fetch_descriptor.
  rewrite (unless_file_absent _ _ _ Hf). unfold bind, lift. rewrite Hv. reflexivity.
Qed.
End InstallerFrame.


Lemma skin_version_witness :
  exists j0 stored sv,
    descriptor_obtained Example.mc Example.versions Example.net Example.empty_disk "c" j0 /\
    files Example.installed !! version_json_path_of Example.mc "c" = Some (CJson stored) /\
    py_get stored "skinVersion" = Ok sv /\ truthy sv = true /\
    (needs_patch j0 = true -> sv = JBool true /\ stored <> j0) /\
    (needs_patch j0 = false -> stored = j0).
Proof.
  destruct (install_sets_skin_version Example.mc Example.versions Example.net
              (Cat4k.variant Example.linux) 5 "c" Example.empty_disk Example.installed)
    as (j0 & stored & Hobt & Hfile & Hopen & _).
  - reflexivity.
  - vm_compute. reflexivity.
  - destruct Hopen as (sv & Hsv); [apply not_elem_of_empty|].
    exists j0, stored, sv. split; [exact Hobt|]. split; [exact Hfile | exact Hsv].
Defined.

Lemma install_unknown_version_witness :
  Example.install 3 "nope" Example.empty_disk = (Raise (VersionNotFound "nope"), Example.empty_disk).
Proof.
  apply (install_unknown_version Example.mc Example.versions Example.net
           (Cat4k.variant Example.linux) 2 "nope" Example.empty_disk); reflexivity.
Defined.

(** ** Chains without a loop *)

Lemma returns_rbind {A B} (r : res A) (f : A -> res B) :
  returns r -> (forall a, returns (f a)) -> returns (rbind r f).
Proof. intros Hr Hf. destruct r as [a|e|]; cbn; [apply Hf | discriminate | contradiction]. Qed.

Lemma returns_py_get_d x k d : returns (py_get_d x k d).
Proof. destruct x; discriminate. Qed.

Lemma returns_py_get x k : returns (py_get x k).
Proof. apply returns_py_get_d. Qed.

Lemma returns_py_item x k : returns (py_item x k).
Proof. destruct x as [| | | | |d]; try discriminate. cbn. destruct (dict_lookup d k); discriminate. Qed.

Lemma returns_as_str x : returns (as_str x).
Proof. destruct x; discriminate. Qed.

Lemma returns_py_iter x : returns (py_iter x).
Proof. destruct x; discriminate. Qed.

Lemma returns_py_items x : returns (py_items x).
Proof. destruct x; discriminate. Qed.

Lemma returns_py_str x : returns (py_str x).
Proof. destruct x; discriminate. Qed.

Lemma returns_py_add a b : returns (py_add a b).
Proof.
  destruct a as [|x|x|x|x|x], b as [|y|y|y|y|y]; cbn; try discriminate;
    try destruct x; try destruct y; discriminate.
Qed.

Lemma returns_py_in k c : returns (py_in k c).
Proof. destruct c, k; discriminate. Qed.

Lemma returns_py_any {A} (p : A -> res bool) xs :
  (forall x, returns (p x)) -> returns (py_any p xs).
Proof.
  intros Hp. induction xs as [|x xs IH]; cbn; [discriminate|].
  specialize (Hp x). destruct (p x) as [[|]|e|]; [discriminate | exact IH | discriminate | contradiction].
Qed.

Ltac returns_go :=
  repeat first
    [ apply returns_py_get_d | apply returns_py_get | apply returns_py_item
    | apply returns_as_str | apply returns_py_iter | apply returns_py_items
    | apply returns_py_str | apply returns_py_add | apply returns_py_in
    | match goal with
      | |- returns (rbind _ _) => apply returns_rbind; [ | intro ]
      | |- returns (if ?b then _ else _) => destruct b
      | |- returns (Ok _) => discriminate
      | |- returns (Raise _) => discriminate
      end ].

Lemma returns_rule_allows os rule : returns (rule_allows os rule).
Proof. unfold rule_allows. returns_go. Qed.

Lemma returns_lib_rules_allow os lib : returns (lib_rules_allow os lib).
Proof.
  unfold lib_rules_allow, rules_allow. returns_go.
  apply returns_py_any. intros x. apply returns_rule_allows.
Qed.

Lemma returns_artifact_url a : returns (artifact_url a).
Proof. unfold artifact_url. returns_go. Qed.

Lemma answering_client h : answering (Client.variant h).
Proof.
  intros a b. split; cbn; [|apply returns_py_in].
  unfold Client.choose_native_key. returns_go.
  match goal with |- returns (match ?x with _ => _ end) => destruct x end; discriminate.
Qed.

Lemma answering_cat21x h : answering (CAT21X.variant h).
Proof. exact (answering_client h). Qed.

Lemma answering_cat4k h : answering (Cat4k.variant h).
Proof.
  intros a b. split; cbn.
  - unfold Cat4k.choose_native_key. returns_go.
    match goal with |- returns (match ?x with _ => _ end) => destruct x end;
      try discriminate. returns_go.
  - unfold Cat4k.key_usable. returns_go.
Qed.

Lemma finite_ret {A} (a : A) : finite (ret a).
Proof. intros s. discriminate. Qed.

Lemma finite_lift {A} (r : res A) : returns r -> finite (lift r).
Proof. intros H s. exact H. Qed.

Lemma bind_returns {A B} (m : M A) (f : A -> M B) s :
  returns (fst (m s)) -> (forall a, finite (f a)) -> returns (fst (bind m f s)).
Proof.
  intros Hm Hf. unfold bind. destruct (m s) as [[a|e|] s1]; cbn in *;
    [apply Hf | discriminate | contradiction].
Qed.

Lemma finite_bind {A B} (m : M A) (f : A -> M B) :
  finite m -> (forall a, finite (f a)) -> finite (bind m f).
Proof. intros Hm Hf s. apply bind_returns; [apply Hm | exact Hf]. Qed.

Lemma finite_for_each {A} (body : A -> M unit) xs :
  (forall x, finite (body x)) -> finite (for_each xs body).
Proof.
  intros Hb. induction xs as [|x xs IH]; cbn [for_each];
    [apply finite_ret | apply finite_bind; [apply Hb | intros _; exact IH]].
Qed.

Lemma finite_json_load p : finite (json_load p).
Proof. intros s. unfold json_load. destruct (files s !! p) as [[| |]|]; discriminate. Qed.

Lemma finite_unless_file p m : finite m -> finite (unless_file p m).
Proof.
  intros Hm s. unfold unless_file, bind, isfile.
  destruct (bool_decide _); [discriminate | apply Hm].
Qed.

Lemma finite_download_file net url p : finite (download_file net url p).
Proof.
  intros s. destruct url as [| | |u| |];
    try (unfold download_file, bind, lift; cbn; discriminate).
  rewrite download_file_unfold.
  destruct (has_url_type u); [|discriminate]. destruct (net _ _); discriminate.
Qed.

Lemma finite_extract v np dir : finite (extract v np dir).
Proof.
  intros s. unfold extract, try_except, extract_natives.
  destruct (extraction_guarded v); destruct (files s !! np) as [[| |]|]; discriminate.
Qed.

Lemma finite_patch_step mc_dir v vid : finite (patch_step mc_dir v vid).
Proof.
  intros s. unfold patch_step, patch_skin_version.
  destruct (patches_skin v); [|discriminate].
  destruct (files s !! _) as [[j| |]|]; try discriminate.
  destruct (bool_decide _); [discriminate|]. destruct (needs_patch j); discriminate.
Qed.

Ltac finite_go :=
  repeat first
    [ apply finite_ret
    | apply finite_json_load
    | apply finite_download_file
    | apply finite_extract
    | match goal with
      | |- finite (unless_file _ _) => apply finite_unless_file
      | |- finite (bind _ _) => apply finite_bind; [ | intro ]
      | |- finite (lift _) => apply finite_lift; returns_go
      | |- finite (if ?b then _ else _) => destruct b
      end ].

Section AcyclicChains.
Variable mc_dir : string.
Variable all_versions : gmap string json.
Variable net : nat -> string -> outcome.
Variable v : variant.
Hypothesis v_answers : answering v.

Lemma finite_install_library folder lib : finite (install_library mc_dir net v folder lib).
Proof.
  unfold install_library. finite_go.
  - apply returns_lib_rules_allow.
  - unfold install_artifact. finite_go. apply returns_artifact_url.
  - unfold install_natives. finite_go;
      try apply (proj1 (v_answers _ _)); try apply (proj2 (v_answers _ _));
      try apply returns_artifact_url.
Qed.

Lemma finite_install_files vid version_data parent_data :
  finite (install_files mc_dir net v vid version_data parent_data).
Proof.
  unfold install_files. finite_go.
  - unfold install_client. finite_go.
  - unfold merged_libraries. returns_go.
  - apply finite_for_each. intros lib. apply finite_install_library.
  - unfold install_assets. finite_go.
    + unfold asset_index_info_of. returns_go.
    + unfold install_objects. finite_go.
      apply finite_for_each. intros entry. unfold install_asset. finite_go.
Qed.

(** X3: when the cached descriptors lead from a version to one without
    parent in n steps, a recursion depth of n is enough: install_version
    then returns or raises. *)
Theorem acyclic_chain_terminates s n vid :
  chain_ends mc_dir s n vid ->
  forall depth, (n <= depth)%nat ->
    returns (fst (install_version mc_dir all_versions net v depth (JStr vid) s)).
Proof.
  induction 1 as [n vid j parent Hfile Hget Hfalsy | n vid j parent Hfile Hget Hne Hrest IH];
    intros depth Hd; (destruct depth as [|depth]; [lia|]);
    cbn [install_version]; unfold bind at 1; cbn [lift as_str];
    unfold bind at 1; unfold fetch_descriptor;
    rewrite unless_file_present by eauto;
    unfold bind at 1, json_load; rewrite Hfile.
  - apply bind_returns.
    + unfold install_parent, bind, lift. rewrite Hget, Hfalsy. discriminate.
    + intros pd. finite_go; [apply finite_install_files | apply finite_patch_step].
  - apply bind_returns.
    + unfold install_parent, bind at 1, lift. rewrite Hget.
      assert (T : truthy (JStr parent) = true).
      { cbn. rewrite bool_decide_eq_false_2 by exact Hne. reflexivity. }
      rewrite T. apply bind_returns; [apply IH; lia|].
      intros _. finite_go.
    + intros pd. finite_go; [apply finite_install_files | apply finite_patch_step].
Qed.
End AcyclicChains.

Lemma acyclic_chain_witness :
  returns (fst (install_version Example.mc Example.versions Example.net
                  (Cat4k.variant Example.linux) 3 (JStr "c3") three_deep)).
Proof.
  apply (acyclic_chain_terminates Example.mc Example.versions Example.net
           (Cat4k.variant Example.linux) (answering_cat4k Example.linux) three_deep 3 "c3");
    [|lia].
  eapply chain_step; [vm_compute; reflexivity | reflexivity | discriminate |].
  eapply chain_step; [vm_compute; reflexivity | reflexivity | discriminate |].
  eapply chain_root; [vm_compute; reflexivity | reflexivity | reflexivity].
Defined.

(** ** What a successful install leaves on disk *)

Lemma mono_for_each {A} (body : A -> M unit) xs :
  (forall x, mono (body x)) -> mono (for_each xs body).
Proof.
  intros Hb. induction xs as [|y xs IH]; intros s a s' H; cbn [for_each] in H.
  - inversion H; subst. apply covers_refl.
  - apply bind_ok in H as ([] & s1 & Hy & Hrest).
    eapply covers_trans; [eapply Hb, Hy | eapply IH, Hrest].
Qed.

Lemma for_each_post {A} (body : A -> M unit) (P : A -> disk -> Prop) :
  (forall x, mono (body x)) ->
  (forall x s s1, body x s = (Ok tt, s1) -> P x s1) ->
  (forall x s s1, P x s -> covers s s1 -> P x s1) ->
  forall xs s s', for_each xs body s = (Ok tt, s') -> forall x, x ∈ xs -> P x s'.
Proof.
  intros Hmono Hpost Hstable xs. induction xs as [|y xs IH]; intros s s' H x Hin.
  - inversion Hin.
  - cbn [for_each] in H. apply bind_ok in H as ([] & s1 & Hy & Hrest).
    apply elem_of_cons in Hin as [->|Hin].
    + eapply Hstable; [eapply Hpost, Hy|].
      eapply (mono_for_each body xs Hmono), Hrest.
    + eapply IH; eassumption.
Qed.

Lemma unless_file_ok p m s s' :
  unless_file p m s = (Ok tt, s') ->
  (forall s0 s1, m s0 = (Ok tt, s1) -> is_Some (files s1 !! p)) ->
  is_Some (files s' !! p).
Proof.
  intros H Hm. destruct (files s !! p) as [c|] eqn:E.
  - rewrite unless_file_present in H by eauto. inversion H; subst. eauto.
  - rewrite (unless_file_absent _ _ _ E) in H. eapply Hm, H.
Qed.

Lemma lift_ok {A} (r : res A) (a : A) s s' : lift r s = (Ok a, s') -> r = Ok a /\ s' = s.
Proof. unfold lift. intros H. inversion H; subst. auto. Qed.

Lemma covers_lookup_json s s' p j :
  covers s s' -> files s !! p = Some (CJson j) ->
  exists j', files s' !! p = Some (CJson j') /\ same_json j j'.
Proof.
  intros Hc Hf. destruct (Hc p _ Hf) as (c & Hc' & Hd).
  destruct c as [j'| |]; try discriminate. exists j'. split; [exact Hc'|].
  injection Hd as Hd. exact Hd.
Qed.

Section InstallerPost.
Variable mc_dir : string.
Variable all_versions : gmap string json.
Variable net : nat -> string -> outcome.
Variable v : variant.

Lemma download_file_present url p s0 s1 :
  download_file net url p s0 = (Ok tt, s1) -> is_Some (files s1 !! p).
Proof.
  intros H. destruct (download_file_ok _ _ _ _ _ H) as (u & c & _ & _ & Hf & _).
  rewrite Hf, lookup_insert_eq. eauto.
Qed.

Lemma lift_download_present {A} (x : res A) (f : A -> json) p s0 s1 :
  bind (lift x) (fun a => download_file net (f a) p) s0 = (Ok tt, s1) ->
  is_Some (files s1 !! p).
Proof.
  intros H. apply bind_ok in H as (a & s2 & _ & H). eapply download_file_present, H.
Qed.

(** One library: if it is allowed and names an artifact path, the file
    is there afterwards. *)
Local Abbreviation library_ready s lib := (libraries_ready mc_dir v s [lib]).

Lemma install_artifact_post lib s s1 downloads artifact p :
  install_artifact mc_dir net lib s = (Ok tt, s1) ->
  py_get_d lib "downloads" (JDict []) = Ok downloads ->
  py_get downloads "artifact" = Ok artifact ->
  py_get artifact "path" = Ok (JStr p) ->
  p <> EmptyString ->
  is_Some (files s1 !! path_join (LIBRARIES_DIR mc_dir) p).
Proof.
  intros H Hd Ha Hp Hne. unfold install_artifact in H.
  unfold bind at 1, lift in H. rewrite Hd in H.
  unfold bind at 1, lift in H. rewrite Ha in H.
  assert (Hdict : exists d, artifact = JDict d /\ dict_lookup d "path" = Some (JStr p)).
  { destruct artifact as [| | | | |d]; try discriminate. exists d. split; [reflexivity|].
    unfold py_get, py_get_d in Hp. destruct (dict_lookup d "path"); congruence. }
  destruct Hdict as (d & -> & Hlk).
  assert (Ht : truthy (JDict d) = true) by (destruct d; [discriminate | reflexivity]).
  rewrite Ht in H. unfold bind at 1, lift in H. rewrite Hp in H.
  assert (Htp : truthy (JStr p) = true).
  { cbn. rewrite bool_decide_eq_false_2 by exact Hne. reflexivity. }
  rewrite Htp in H. unfold bind at 1, lift in H.
  unfold py_item in H. rewrite Hlk in H. cbn [rbind as_str] in H.
  eapply unless_file_ok; [exact H|].
  intros s0 s2 Hm. eapply lift_download_present, Hm.
Qed.

Lemma install_library_post folder lib s s1 :
  install_library mc_dir net v folder lib s = (Ok tt, s1) -> library_ready s1 lib.
Proof.
  intros H lib' downloads artifact p Hin Hallow Hd Ha Hp Hne.
  apply list_elem_of_singleton in Hin. subst lib'.
  unfold install_library in H. unfold bind at 1, lift in H. rewrite Hallow in H.
  apply bind_ok in H as ([] & s0 & Hart & Hnat).
  eapply covers_present.
  - eapply (proj1 (nice_install_natives mc_dir net v folder lib)), Hnat.
  - eapply install_artifact_post; eassumption.
Qed.

Lemma library_ready_stable lib s s1 : library_ready s lib -> covers s s1 -> library_ready s1 lib.
Proof.
  intros H Hc lib' downloads artifact p Hin Hallow Hd Ha Hp Hne.
  eapply covers_present; [exact Hc | eapply H; eassumption].
Qed.

Lemma install_libraries_post folder libs s s' :
  for_each libs (install_library mc_dir net v folder) s = (Ok tt, s') ->
  libraries_ready mc_dir v s' libs.
Proof.
  intros H lib downloads artifact p Hin.
  eapply (for_each_post (install_library mc_dir net v folder) (fun x s => library_ready s x)).
  - intros x. apply (proj1 (nice_install_library mc_dir net v folder x)).
  - intros x s0 s1. apply install_library_post.
  - intros x s0 s1. apply library_ready_stable.
  - exact H.
  - exact Hin.
  - apply list_elem_of_singleton. reflexivity.
Qed.

Lemma install_asset_post entry s s1 h :
  install_asset mc_dir net v entry s = (Ok tt, s1) ->
  py_get (snd entry) "hash" = Ok (JStr h) ->
  h <> EmptyString ->
  is_Some (files s1 !! asset_path_of mc_dir h).
Proof.
  intros H Hh Hne. unfold install_asset in H.
  unfold bind at 1, lift in H. rewrite Hh in H.
  assert (Ht : truthy (JStr h) = true).
  { cbn. rewrite bool_decide_eq_false_2 by exact Hne. reflexivity. }
  rewrite Ht in H. unfold bind at 1, lift in H. cbn [as_str] in H.
  eapply unless_file_ok; [exact H|]. intros s0 s2. apply download_file_present.
Qed.

Lemma install_objects_post items s s' :
  for_each items (install_asset mc_dir net v) s = (Ok tt, s') ->
  objects_ready mc_dir s' items.
Proof.
  intros H name info h Hin Hh Hne.
  apply (for_each_post (install_asset mc_dir net v)
           (fun entry s => forall h, py_get (snd entry) "hash" = Ok (JStr h) ->
                                     h <> EmptyString ->
                                     is_Some (files s !! asset_path_of mc_dir h)))
    with (xs := items) (s := s) (x := (name, info)); try assumption.
  - intros x. apply (proj1 (nice_install_asset mc_dir net v x)).
  - intros x s0 s1 Hx h0. eapply install_asset_post, Hx.
  - intros x s0 s1 Hx Hc h0 Hh0 Hne0. eapply covers_present; [exact Hc | eapply Hx; eassumption].
Qed.

Lemma install_assets_post version_data parent_data s s' info :
  install_assets mc_dir net v version_data parent_data s = (Ok tt, s') ->
  asset_index_info_of version_data parent_data = Ok info ->
  assets_ready mc_dir s' info.
Proof.
  intros H Hinfo Ht. unfold install_assets in H.
  unfold bind at 1, lift in H. rewrite Hinfo, Ht in H.
  apply bind_ok in H as (idx_id & s0 & Hid & H). apply lift_ok in Hid as [Hid ->].
  apply bind_ok in H as (idx_url & s0 & Hurl & H). apply lift_ok in Hurl as [Hurl ->].
  apply bind_ok in H as (name & s0 & Hname & H). apply lift_ok in Hname as [Hname ->].
  cbv zeta in H.
  apply bind_ok in H as ([] & s1 & Hfetch & H).
  apply bind_ok in H as (idx_data & s1' & Hload & H).
  assert (Hfile : files s1 !! path_join (path_join (ASSETS_DIR mc_dir) "indexes") (name +:+ ".json")
                  = Some (CJson idx_data) /\ s1' = s1).
  { unfold json_load in Hload.
    destruct (files s1 !! _) as [[j| |]|]; inversion Hload; subst; auto. }
  destruct Hfile as [Hfile ->].
  pose proof (proj1 (nice_install_objects mc_dir net v idx_data) _ _ _ H) as Hc.
  destruct (covers_lookup_json _ _ _ _ Hc Hfile) as (idx_data' & Hfile' & Hsame).
  unfold install_objects in H.
  apply bind_ok in H as (items & s2 & Hitems & H). apply lift_ok in Hitems as [Hitems ->].
  exists idx_id, name, idx_data', items.
  split; [exact Hid|]. split; [exact Hname|]. split; [exact Hfile'|]. split.
  - rewrite (same_json_item idx_data idx_data' "objects" Hsame) by discriminate. exact Hitems.
  - eapply install_objects_post, H.
Qed.

Lemma install_client_post vid version_data s s1 :
  install_client mc_dir net vid version_data s = (Ok tt, s1) ->
  client_ready mc_dir s1 vid version_data.
Proof.
  intros H downloads client url Hd Hc Ht Hu Htu. unfold install_client in H.
  unfold bind at 1, lift in H. rewrite Hd in H.
  unfold bind at 1, lift in H. rewrite Hc, Ht in H.
  eapply unless_file_ok; [exact H|]. intros s0 s2 Hm.
  unfold bind at 1, lift in Hm. rewrite Hu, Htu in Hm.
  eapply download_file_present, Hm.
Qed.

Lemma libraries_ready_stable libs s s1 :
  libraries_ready mc_dir v s libs -> covers s s1 -> libraries_ready mc_dir v s1 libs.
Proof.
  intros H Hc lib downloads artifact p Hin Hallow Hd Ha Hp Hne.
  eapply covers_present; [exact Hc | eapply H; eassumption].
Qed.

Lemma assets_ready_stable info s s1 :
  assets_ready mc_dir s info -> covers s s1 -> assets_ready mc_dir s1 info.
Proof.
  intros H Hc Ht. destruct (H Ht) as (idx_id & name & idx_data & items & Hid & Hn & Hf & Hi & Ho).
  destruct (covers_lookup_json _ _ _ _ Hc Hf) as (idx_data' & Hf' & Hsame).
  exists idx_id, name, idx_data', items.
  split; [exact Hid|]. split; [exact Hn|]. split; [exact Hf'|]. split.
  - rewrite (same_json_item idx_data idx_data' "objects" Hsame) by discriminate. exact Hi.
  - intros nm info' h Hin Hh Hne. eapply covers_present; [exact Hc | eapply Ho; eassumption].
Qed.

Lemma own_ready_stable vid j j' s s1 :
  own_ready mc_dir v s vid j -> covers s s1 -> same_json j j' ->
  own_ready mc_dir v s1 vid j'.
Proof.
  intros (Hdict & Hcl & Hl & Ha) Hc Hs. split; [|split; [|split]].
  - pose proof (same_json_get j j' "inheritsFrom" Hs ltac:(discriminate)) as Hget.
    destruct j as [| | | | |d]; try contradiction.
    destruct j' as [| | | | |d']; try discriminate. exact I.
  - intros downloads client url Hd. rewrite (same_json_get_d j j' "downloads" _ Hs) in Hd
      by discriminate.
    intros H1 H2 H3 H4. eapply covers_present; [exact Hc | eapply Hcl; eassumption].
  - intros own_libs Hlibs. rewrite (same_json_get_d j j' "libraries" _ Hs) in Hlibs
      by discriminate.
    eapply libraries_ready_stable; [apply Hl, Hlibs | exact Hc].
  - intros info Hi. rewrite (same_json_get j j' "assetIndex" Hs) in Hi by discriminate.
    eapply assets_ready_stable; [apply Ha, Hi | exact Hc].
Qed.

Lemma version_ready_stable s version_id :
  version_ready mc_dir v s version_id ->
  forall s1, covers s s1 -> version_ready mc_dir v s1 version_id.
Proof.
  induction 1 as [vid j Hfile Hown Hparent IH]; intros s1 Hc.
  destruct (covers_lookup_json _ _ _ _ Hc Hfile) as (j' & Hfile' & Hsame).
  apply (ready mc_dir v s1 vid j' Hfile').
  - eapply own_ready_stable; eassumption.
  - intros parent_id Hget Ht.
    rewrite (same_json_get j j' "inheritsFrom" Hsame) in Hget by discriminate.
    apply (IH parent_id Hget Ht), Hc.
Qed.

Lemma install_files_post vid version_data parent_data s s' :
  install_files mc_dir net v vid version_data parent_data s = (Ok tt, s') ->
  own_ready mc_dir v s' vid version_data.
Proof.
  intros H. unfold install_files in H.
  apply bind_ok in H as ([] & s1 & Hclient & H).
  apply bind_ok in H as (libs & s1' & Hlibs & H). apply lift_ok in Hlibs as [Hlibs ->].
  apply bind_ok in H as ([] & s2 & Hfor & Hassets).
  pose proof (proj1 (nice_for_each _ libs
                       (fun lib => nice_install_library mc_dir net v
                                     (version_folder_of mc_dir vid) lib)) _ _ _ Hfor) as Hc12.
  pose proof (proj1 (nice_install_assets mc_dir net v version_data parent_data)
                _ _ _ Hassets) as Hc23.
  split; [|split; [|split]].
  - unfold merged_libraries in Hlibs.
    destruct version_data as [| | | | |d]; try discriminate. exact I.
  - intros downloads client url H1 H2 H3 H4 H5.
    eapply covers_present; [exact (covers_trans _ _ _ Hc12 Hc23)|].
    eapply install_client_post; eassumption.
  - intros own_libs Hown.
    eapply libraries_ready_stable; [|exact Hc23].
    pose proof (install_libraries_post _ _ _ _ Hfor) as Hready.
    unfold merged_libraries in Hlibs. rewrite Hown in Hlibs. cbn [rbind] in Hlibs.
    destruct (py_get_d parent_data "libraries" (JList [])) as [inherited| |];
      try discriminate.
    cbn [rbind] in Hlibs.
    destruct inherited as [| | | |pl|]; try discriminate. cbn in Hlibs.
    injection Hlibs as <-.
    intros lib downloads artifact p Hin. apply Hready. apply elem_of_app. left. exact Hin.
  - intros info Hinfo Ht.
    eapply install_assets_post; [exact Hassets | | exact Ht].
    unfold asset_index_info_of. rewrite Hinfo. cbn [rbind]. rewrite Ht. reflexivity.
Qed.

Lemma install_version_ready depth :
  forall version_id s s',
    install_version mc_dir all_versions net v depth version_id s = (Ok tt, s') ->
    version_ready mc_dir v s' version_id.
Proof.
  induction depth as [|depth IH]; intros version_id s s' H; [discriminate|].
  cbn [install_version] in H.
  apply bind_ok in H as (vid & s0 & Hv & H). apply lift_ok in Hv as [Hv ->].
  destruct version_id as [| | |vid'| |]; try discriminate. injection Hv as ->.
  apply bind_ok in H as ([] & s1 & Hfetch & H).
  apply bind_ok in H as (j0 & s1' & Hload & H).
  assert (Hfile : files s1 !! version_json_path_of mc_dir vid = Some (CJson j0) /\ s1' = s1).
  { unfold json_load in Hload.
    destruct (files s1 !! version_json_path_of mc_dir vid) as [[j| |]|];
      inversion Hload; subst; auto. }
  destruct Hfile as [Hfile ->].
  apply bind_ok in H as (pd & s2 & Hpar & H).
  apply bind_ok in H as ([] & s3 & Hfiles & Hpatch).
  pose proof (proj1 (nice_install_parent mc_dir _ j0
                       (nice_install_version mc_dir all_versions net v depth)) _ _ _ Hpar)
    as Hc12.
  pose proof (proj1 (nice_install_files mc_dir net v vid j0 pd) _ _ _ Hfiles) as Hc23.
  pose proof (proj1 (nice_patch_step mc_dir v vid) _ _ _ Hpatch) as Hc34.
  assert (Hc14 : covers s1 s').
  { exact (covers_trans _ _ _ Hc12 (covers_trans _ _ _ Hc23 Hc34)). }
  destruct (covers_lookup_json _ _ _ _ Hc14 Hfile) as (j' & Hfile' & Hsame).
  apply (ready mc_dir v s' vid j' Hfile').
  - eapply own_ready_stable; [eapply install_files_post, Hfiles | exact Hc34 | exact Hsame].
  - intros parent_id Hget Ht.
    rewrite (same_json_get j0 j' "inheritsFrom" Hsame) in Hget by discriminate.
    unfold install_parent in Hpar. unfold bind at 1, lift in Hpar.
    rewrite Hget, Ht in Hpar.
    apply bind_ok in Hpar as ([] & s1'' & Hrec & Hrest).
    pose proof (IH parent_id s1 s1'' Hrec) as Hready.
    apply (version_ready_stable _ _ Hready).
    assert (Hc : covers s1'' s2).
    { apply bind_ok in Hrest as (pid' & s5 & Hl & Hjl). apply lift_ok in Hl as [_ ->].
      eapply (proj1 (nice_json_load _)), Hjl. }
    exact (covers_trans _ _ _ Hc (covers_trans _ _ _ Hc23 Hc34)).
Qed.

(** X4: after a successful install the version is ready, and so is
    every ancestor: each descriptor is cached as an object, each declared client jar
    is on disk, so is the artifact of every allowed library and the
    asset index with the object of every hashed entry.  It stays ready
    on every later disk that only adds files and skinVersion patches. *)
Theorem install_makes_ready depth version_id s s' :
  install_version mc_dir all_versions net v depth version_id s = (Ok tt, s') ->
  version_ready mc_dir v s' version_id /\
  forall s2, covers s' s2 -> version_ready mc_dir v s2 version_id.
Proof.
  intros H. pose proof (install_version_ready depth version_id s s' H) as Hready.
  split; [exact Hready|].
  intros s2 Hc. exact (version_ready_stable _ _ Hready _ Hc).
Qed.
End InstallerPost.

Lemma install_makes_ready_witness :
  version_ready Example.mc (Cat4k.variant Example.linux) Example.installed (JStr "c").
Proof.
  refine (proj1 (install_makes_ready Example.mc Example.versions Example.net
                   (Cat4k.variant Example.linux) 5 (JStr "c") Example.empty_disk
                   Example.installed _)).
  vm_compute. reflexivity.
Defined.

(** ** The retry loop in full *)

Section RetryShape.
Variable net : nat -> string -> outcome.

Local Abbreviation backoff attempt k := (map (fun i => 2 ^ S i)%nat (seq attempt k)).

Lemma download_attempts_shape u dest retries fuel :
  forall attempt s r s',
    (retries - attempt <= fuel)%nat ->
    download_attempts net fuel attempt retries u dest s = (r, s') ->
    exists k n,
      (attempt + k <= Nat.max attempt retries)%nat /\
      sleeps s' = (sleeps s ++ backoff attempt k)%list /\
      requests s' = (requests s ++ replicate n (u, dest))%list /\
      ((r = Ok true /\ n = S k /\ is_Some (files s' !! dest) /\ (attempt + k < retries)%nat) \/
       (r = Raise PermissionError /\ n = S k /\ (attempt + k < retries)%nat) \/
       (r = Raise (DownloadGaveUp retries) /\ n = k /\ (retries <= attempt + k)%nat)).
Proof.
  induction fuel as [|fuel IH]; intros attempt s r s' Hf H.
  - cbn [download_attempts] in H.
    assert (E : Nat.ltb attempt retries = false) by (apply Nat.ltb_ge; lia).
    rewrite E in H. inversion H; subst.
    exists 0%nat, 0%nat. cbn. rewrite !app_nil_r.
    split; [lia|]. split; [reflexivity|]. split; [reflexivity|].
    right. right. split; [reflexivity|]. split; [reflexivity | lia].
  - cbn [download_attempts] in H.
    destruct (Nat.ltb attempt retries) eqn:E.
    + apply Nat.ltb_lt in E.
      assert (Hagain : forall s1,
                 requests s1 = (requests s ++ [(u, dest)])%list ->
                 sleeps s1 = (sleeps s ++ [2 ^ S attempt])%nat%list ->
                 download_attempts net fuel (S attempt) retries u dest s1 = (r, s') ->
                 exists k n,
                   (attempt + k <= Nat.max attempt retries)%nat /\
                   sleeps s' = (sleeps s ++ backoff attempt k)%list /\
                   requests s' = (requests s ++ replicate n (u, dest))%list /\
                   ((r = Ok true /\ n = S k /\ is_Some (files s' !! dest) /\
                     (attempt + k < retries)%nat) \/
                    (r = Raise PermissionError /\ n = S k /\ (attempt + k < retries)%nat) \/
                    (r = Raise (DownloadGaveUp retries) /\ n = k /\
                     (retries <= attempt + k)%nat))).
      { intros s1 Hr1 Hs1 Hrun.
        destruct (IH (S attempt) s1 r s') as (k & n & Hk & Hs & Hr & Hcase); [lia | exact Hrun |].
        exists (S k), (S n).
        split; [lia|]. split.
        { rewrite Hs, Hs1, <- app_assoc. reflexivity. }
        split.
        { rewrite Hr, Hr1, <- app_assoc. reflexivity. }
        destruct Hcase as [(-> & -> & Hp & Hlt)|[(-> & -> & Hlt)|(-> & -> & Hge)]].
        - left. repeat split; try assumption; lia.
        - right. left. repeat split; lia.
        - right. right. repeat split; lia. }
      destruct (net (length (requests s)) u) as [c| | |c|].
      * inversion H; subst. exists 0%nat, 1%nat. cbn. rewrite app_nil_r.
        split; [lia|]. split; [reflexivity|]. split; [reflexivity|].
        left. split; [reflexivity|]. split; [reflexivity|].
        split; [rewrite lookup_insert_eq; eauto | lia].
      * refine (Hagain _ _ _ H); reflexivity.
      * refine (Hagain _ _ _ H); reflexivity.
      * refine (Hagain _ _ _ H); reflexivity.
      * inversion H; subst. exists 0%nat, 1%nat. cbn. rewrite app_nil_r.
        split; [lia|]. split; [reflexivity|]. split; [reflexivity|].
        right. left. split; [reflexivity|]. split; [reflexivity | lia].
    + apply Nat.ltb_ge in E. inversion H; subst.
      exists 0%nat, 0%nat. cbn. rewrite !app_nil_r.
      split; [lia|]. split; [reflexivity|]. split; [reflexivity|].
      right. right. split; [reflexivity|]. split; [reflexivity | lia].
Qed.

(** X5: the retrying download_file always ends.  For a URL in which
    [Request] finds no type it raises ValueError before anything is
    sent.  Otherwise, whatever the network does, it ends after at most
    [retries] requests, all for the same URL and destination; it sleeps
    2, 4, 8, ... seconds, once after each failed attempt (also after the
    last one); and it returns True with the file written, re-raises a
    PermissionError at once, or gives up after exactly [retries]
    failures. *)
Theorem retry_is_bounded u dest retries s r s' :
  download_file_retry net (JStr u) dest retries s = (r, s') ->
  (has_url_type u = false /\ r = Raise ValueError /\ s' = s) \/
  (has_url_type u = true /\
   exists k n,
     (n <= retries)%nat /\
     sleeps s' = (sleeps s ++ map (fun i => 2 ^ S i)%nat (seq 0 k))%list /\
     requests s' = (requests s ++ replicate n (u, dest))%list /\
     ((r = Ok true /\ n = S k /\ is_Some (files s' !! dest)) \/
      (r = Raise PermissionError /\ n = S k) \/
      (r = Raise (DownloadGaveUp retries) /\ n = k /\ k = retries))).
Proof.
  intros H. unfold download_file_retry, bind, lift in H. cbn [url_of] in H.
  destruct (has_url_type u) eqn:Hu; [right | left; inversion H; auto].
  split; [reflexivity|].
  destruct (download_attempts_shape u dest retries retries 0 s r s') as
    (k & n & Hk & Hs & Hr & Hcase); [lia | exact H |].
  exists k, n. split; [|split; [exact Hs | split; [exact Hr|]]].
  - destruct Hcase as [(_ & -> & _ & Hlt)|[(_ & -> & Hlt)|(_ & -> & _)]]; lia.
  - destruct Hcase as [(-> & -> & Hp & _)|[(-> & -> & _)|(-> & -> & Hge)]].
    + left. auto.
    + right. left. auto.
    + right. right. repeat split. lia.
Qed.
End RetryShape.

Lemma retry_is_bounded_witness :
  (exists k n,
     (n <= 3)%nat /\
     sleeps (snd (download_file_retry Example.dead (JStr "http://x/lc") "/mc/lc.jar" 3
                    Example.empty_disk))
     = map (fun i => 2 ^ S i)%nat (seq 0 k) /\ k = 3%nat /\ n = 3%nat) /\
  has_url_type "x/idx" = false.
Proof.
  split.
  - destruct (retry_is_bounded Example.dead "http://x/lc" "/mc/lc.jar" 3 Example.empty_disk
                (Raise (DownloadGaveUp 3))
                (snd (download_file_retry Example.dead (JStr "http://x/lc") "/mc/lc.jar" 3
                        Example.empty_disk)))
      as [(Hu & _)|(_ & k & n & Hn & Hs & _ & Hcase)].
    + vm_compute. reflexivity.
    + discriminate.
    + exists k, n. split; [exact Hn|]. split; [exact Hs|].
      destruct Hcase as [(E & _)|[(E & _)|(_ & -> & ->)]]; try discriminate. auto.
  - destruct (retry_is_bounded Example.dead "x/idx" "/mc/idx" 3 Example.empty_disk
                (Raise ValueError) Example.empty_disk)
      as [(Hu & _)|(_ & k & n & _ & _ & _ & Hcase)].
    + vm_compute. reflexivity.
    + exact Hu.
    + destruct Hcase as [(E & _)|[(E & _)|(E & _)]]; discriminate.
Defined.

(** ** Accounts: what a later call sees *)

Section AccountUpdates.
Variable uuid3 : string -> string.

Lemma find_account_replaced t u tok accounts :
  forall i0 n,
    find_account t u i0 accounts = Ok (Some n) ->
    exists k, n = (i0 + k)%nat /\ (k < length accounts)%nat /\
              find_account t u i0 (<[k := make_account uuid3 t u tok]> accounts) = Ok (Some n).
Proof.
  induction accounts as [|a l IH]; intros i0 n H; [discriminate|].
  cbn [find_account] in H.
  destruct (same_account t u a) as [[|]| |] eqn:E; cbn [rbind] in H; try discriminate.
  - injection H as <-. exists 0%nat. rewrite Nat.add_0_r. cbn [length].
    split; [reflexivity|]. split; [lia|].
    cbn [find_account]. change (<[0%nat := ?x]> (a :: l)) with (x :: l).
    cbn [find_account]. rewrite same_account_made. reflexivity.
  - destruct (IH _ _ H) as (k & -> & Hk & Hf). exists (S k). cbn [length].
    split; [lia|]. split; [lia|].
    change (<[S k := ?x]> (a :: l)) with (a :: <[k := x]> l).
    cbn [find_account]. rewrite E. cbn [rbind]. exact Hf.
Qed.

Lemma find_account_appended t u tok accounts :
  forall i0,
    find_account t u i0 accounts = Ok None ->
    find_account t u i0 (accounts ++ [make_account uuid3 t u tok])
    = Ok (Some (i0 + length accounts)%nat).
Proof.
  induction accounts as [|a l IH]; intros i0 H.
  - cbn [app find_account length]. rewrite same_account_made. cbn [rbind].
    rewrite Nat.add_0_r. reflexivity.
  - cbn [find_account] in H. cbn [app find_account length].
    destruct (same_account t u a) as [[|]| |] eqn:E; cbn [rbind] in H |- *; try discriminate.
    rewrite (IH _ H). f_equal. f_equal. lia.
Qed.

(** X6: once add_account has returned for a non-empty username, the
    record it built is where the search for that type and username
    stops; calling it again with the same arguments changes nothing, and
    calling it with another token replaces that record without changing
    the length of the list. *)
Theorem add_account_then_found acc_type username token accounts accounts1 :
  username <> EmptyString ->
  add_account uuid3 acc_type username token accounts = Ok accounts1 ->
  (exists i,
     find_account acc_type username 0 accounts1 = Ok (Some i) /\
     accounts1 !! i = Some (make_account uuid3 acc_type username token) /\
     forall token',
       add_account uuid3 acc_type username token' accounts1
       = Ok (<[i := make_account uuid3 acc_type username token']> accounts1)) /\
  add_account uuid3 acc_type username token accounts1 = Ok accounts1.
Proof.
  intros Hne H. unfold add_account in H |- *.
  rewrite bool_decide_eq_false_2 in H |- * by exact Hne.
  assert (Hfound : exists i,
             find_account acc_type username 0 accounts1 = Ok (Some i) /\
             accounts1 !! i = Some (make_account uuid3 acc_type username token)).
  { destruct (find_account acc_type username 0 accounts) as [[n|]| |] eqn:Ef;
      cbn [rbind] in H; try discriminate; injection H as <-.
    - destruct (find_account_replaced acc_type username token accounts 0 n Ef)
        as (k & -> & Hk & Hf).
      exists k. split; [exact Hf|]. cbn [Nat.add]. apply list_lookup_insert_eq, Hk.
    - exists (length accounts). split.
      + apply (find_account_appended acc_type username token accounts 0 Ef).
      + rewrite lookup_app_r by lia. rewrite Nat.sub_diag. reflexivity. }
  destruct Hfound as (i & Hf & Hi). split.
  - exists i. split; [exact Hf|]. split; [exact Hi|].
    intros token'. rewrite Hf. reflexivity.
  - rewrite Hf. cbn [rbind]. f_equal. apply list_insert_id, Hi.
Qed.
End AccountUpdates.

Lemma add_account_then_found_witness :
  add_account (fun name => name) "offline" "Alex" None
    [Example.steve; make_account (fun name => name) "offline" "Alex" None]
  = Ok [Example.steve; make_account (fun name => name) "offline" "Alex" None].
Proof.
  apply (add_account_then_found (fun name => name) "offline" "Alex" None [Example.steve]).
  - discriminate.
  - vm_compute. reflexivity.
Defined.

(** ** The version manifest *)

Lemma manifest_entry_returns acc v : manifest_entry acc v <> Diverge.
Proof.
  unfold manifest_entry.
  destruct (py_item v "id") as [id| |] eqn:Ei; cbn [rbind]; try discriminate.
  - destruct (py_item v "url") as [url| |] eqn:Eu; cbn [rbind]; try discriminate.
    + destruct id; discriminate.
    + destruct v as [| | | | |d]; try discriminate.
      unfold py_item in Eu. destruct (dict_lookup d "url"); discriminate.
  - destruct v as [| | | | |d]; try discriminate.
    unfold py_item in Ei. destruct (dict_lookup d "id"); discriminate.
Qed.

Lemma manifest_entries_returns vs : forall acc, manifest_entries acc vs <> Diverge.
Proof.
  induction vs as [|v vs IH]; intros acc; cbn [manifest_entries]; [discriminate|].
  destruct (manifest_entry acc v) as [acc'| |] eqn:E; cbn [rbind];
    [apply IH | discriminate | intros _; exact (manifest_entry_returns _ _ E)].
Qed.

Lemma all_versions_of_returns doc : all_versions_of doc <> Diverge.
Proof.
  unfold all_versions_of.
  destruct doc as [| | | | |d]; cbn [py_item rbind]; try discriminate.
  destruct (dict_lookup d "versions") as [versions|]; cbn [rbind]; [|discriminate].
  destruct versions; cbn [py_iter rbind]; try discriminate; apply manifest_entries_returns.
Qed.

(** A manifest file that is there is never fetched again, also when it
    cannot be used. *)
Lemma broken_manifest_is_kept mc_dir download manifest_url all s c :
  files s !! version_manifest_path mc_dir = Some c ->
  (forall doc, c = CJson doc -> exists e, all_versions_of doc = Raise e) ->
  load_version_manifest mc_dir download manifest_url all s = (Ok (empty_manifest, all), s).
Proof.
  intros Hf Hbad. unfold load_version_manifest, read_manifest.
  unfold bind at 1. rewrite unless_file_present by eauto.
  unfold bind at 1, json_load. rewrite Hf.
  destruct c as [doc| |]; try reflexivity.
  destruct (Hbad doc eq_refl) as [e He]. unfold bind, lift. rewrite He. reflexivity.
Qed.

Section ManifestFacts.
Variable mc_dir : string.
Variable download : json -> string -> M unit.
Variable manifest_url : string.
Hypothesis download_keeps :
  forall u p s r s',
    download (JStr u) p s = (r, s') ->
    r <> Diverge /\
    (forall q, q <> p -> files s' !! q = files s !! q) /\
    (r = Ok tt -> is_Some (files s' !! p)).

Lemma manifest_parsed all s :
  (exists doc all',
    (version_manifest <- json_load (version_manifest_path mc_dir);;
     found <- lift (all_versions_of version_manifest);;
     ret (version_manifest, found))%M s = (Ok (doc, all'), s) /\
    ((doc = empty_manifest /\ all' = all) \/
     (files s !! version_manifest_path mc_dir = Some (CJson doc) /\
      all_versions_of doc = Ok all'))) \/
  exists e,
    (version_manifest <- json_load (version_manifest_path mc_dir);;
     found <- lift (all_versions_of version_manifest);;
     ret (version_manifest, found))%M s = (Raise e, s).
Proof.
  unfold bind, lift, ret, json_load.
  destruct (files s !! version_manifest_path mc_dir) as [[doc| |]|] eqn:Hf;
    try (right; eexists; reflexivity).
  destruct (all_versions_of doc) as [m|e|] eqn:E.
  - left. exists doc, m. split; [reflexivity|]. right. auto.
  - right. eexists; reflexivity.
  - destruct (all_versions_of_returns _ E).
Qed.

(** X7: load_version_manifest always returns.  Only the manifest file
    can change, and only if it was missing; the answer is either the
    document now on disk, with all_versions rebuilt from it, or the
    empty manifest, with all_versions left as it was. *)
Theorem manifest_load_always_answers all s :
  exists doc all' s',
    load_version_manifest mc_dir download manifest_url all s = (Ok (doc, all'), s') /\
    (forall q, q <> version_manifest_path mc_dir -> files s' !! q = files s !! q) /\
    (is_Some (files s !! version_manifest_path mc_dir) -> s' = s) /\
    ((doc = empty_manifest /\ all' = all) \/
     (files s' !! version_manifest_path mc_dir = Some (CJson doc) /\
      all_versions_of doc = Ok all')).
Proof.
  unfold load_version_manifest, read_manifest.
  assert (Hafter : forall s1,
             (forall q, q <> version_manifest_path mc_dir -> files s1 !! q = files s !! q) ->
             (is_Some (files s !! version_manifest_path mc_dir) -> s1 = s) ->
             exists doc all' s',
               match
                 (version_manifest <- json_load (version_manifest_path mc_dir);;
                  found <- lift (all_versions_of version_manifest);;
                  ret (version_manifest, found))%M s1
               with
               | (Raise _, s') => (Ok (empty_manifest, all), s')
               | r => r
               end = (Ok (doc, all'), s') /\
               (forall q, q <> version_manifest_path mc_dir -> files s' !! q = files s !! q) /\
               (is_Some (files s !! version_manifest_path mc_dir) -> s' = s) /\
               ((doc = empty_manifest /\ all' = all) \/
                (files s' !! version_manifest_path mc_dir = Some (CJson doc) /\
                 all_versions_of doc = Ok all'))).
  { intros s1 Hq Hsame.
    destruct (manifest_parsed all s1) as [(doc & all' & -> & Hcase)|[e ->]].
    - exists doc, all', s1.
      split; [reflexivity|]. split; [exact Hq|]. split; [exact Hsame | exact Hcase].
    - exists empty_manifest, all, s1.
      split; [reflexivity|]. split; [exact Hq|]. split; [exact Hsame | left; auto]. }
  unfold bind at 1.
  destruct (files s !! version_manifest_path mc_dir) as [c|] eqn:Hf.
  - rewrite unless_file_present by eauto. apply Hafter; auto.
  - rewrite (unless_file_absent _ _ _ Hf).
    destruct (download (JStr manifest_url) (version_manifest_path mc_dir) s)
      as [[[]|e|] s1] eqn:Hd;
      destruct (download_keeps _ _ _ _ _ Hd) as (Hnd & Hq & Hp).
    + apply Hafter; [exact Hq | intros [? ?]; discriminate].
    + exists empty_manifest, all, s1.
      split; [reflexivity|]. split; [exact Hq|].
      split; [intros [? ?]; discriminate | left; auto].
    + destruct (Hnd eq_refl).
Qed.
End ManifestFacts.

Lemma download_file_keeps net u p s r s' :
  download_file net (JStr u) p s = (r, s') ->
  r <> Diverge /\
  (forall q, q <> p -> files s' !! q = files s !! q) /\
  (r = Ok tt -> is_Some (files s' !! p)).
Proof.
  rewrite download_file_unfold.
  destruct (has_url_type u).
  - destruct (net (length (requests s)) u) as [c| | |c|]; intros H; inversion H; subst;
      (split; [discriminate|]); cbn; (split; [|try discriminate]);
      try (intros q Hq; try rewrite lookup_insert_ne by congruence; reflexivity).
    intros _. rewrite lookup_insert_eq. eauto.
  - intros H. inversion H; subst.
    split; [discriminate|]. split; [reflexivity | discriminate].
Qed.

Lemma manifest_load_always_answers_witness :
  exists doc all' s',
    load_version_manifest Example.mc (download_file Example.dead) VERSION_MANIFEST_V2_URL ∅
      Example.empty_disk
    = (Ok (doc, all'), s') /\ doc = empty_manifest.
Proof.
  destruct (manifest_load_always_answers Example.mc (download_file Example.dead)
              VERSION_MANIFEST_V2_URL
              (download_file_keeps Example.dead) ∅ Example.empty_disk)
    as (doc & all' & s' & E & _ & _ & _).
  exists doc, all', s'. split; [exact E|].
  vm_compute in E. inversion E. reflexivity.
Defined.

(** X8: a manifest download that breaks off leaves a file behind that
    cannot be parsed; from then on load_version_manifest answers with
    the empty manifest and sends nothing, whatever the network would
    say.  [manifest_url] is the URL the script asks for. *)
Theorem broken_manifest_download_sticks mc_dir net manifest_url all s c :
  manifest_url = VERSION_MANIFEST_URL \/ manifest_url = VERSION_MANIFEST_V2_URL ->
  files s !! version_manifest_path mc_dir = None ->
  net (length (requests s)) manifest_url = Interrupted c ->
  (forall doc, c = CJson doc -> exists e, all_versions_of doc = Raise e) ->
  exists s1,
    load_version_manifest mc_dir (download_file net) manifest_url all s
    = (Ok (empty_manifest, all), s1) /\
    requests s1 = (requests s ++ [(manifest_url, version_manifest_path mc_dir)])%list /\
    forall net2 all2,
      load_version_manifest mc_dir (download_file net2) manifest_url all2 s1
      = (Ok (empty_manifest, all2), s1).
Proof.
  intros Hurl Hf Hnet Hbad.
  assert (Htype : has_url_type manifest_url = true).
  { destruct Hurl as [-> | ->]; reflexivity. }
  exists (set_files (insert (version_manifest_path mc_dir) c)
            (add_request manifest_url (version_manifest_path mc_dir) s)).
  split; [|split; [reflexivity|]].
  - unfold load_version_manifest, read_manifest. unfold bind at 1.
    rewrite (unless_file_absent _ _ _ Hf).
    rewrite download_file_unfold, Htype, Hnet. reflexivity.
  - intros net2 all2. apply (broken_manifest_is_kept _ _ _ _ _ c); [|exact Hbad].
    cbn. apply lookup_insert_eq.
Qed.

Lemma broken_manifest_download_sticks_witness :
  exists s1,
    load_version_manifest Example.mc (download_file (fun _ _ => Interrupted CBlob))
      VERSION_MANIFEST_URL ∅ Example.empty_disk = (Ok (empty_manifest, ∅), s1) /\
    load_version_manifest Example.mc (download_file Example.net) VERSION_MANIFEST_URL ∅ s1
    = (Ok (empty_manifest, ∅), s1).
Proof.
  destruct (broken_manifest_download_sticks Example.mc (fun _ _ => Interrupted CBlob)
              VERSION_MANIFEST_URL ∅ Example.empty_disk CBlob) as (s1 & E & _ & Hlater).
  - left. reflexivity.
  - reflexivity.
  - reflexivity.
  - intros doc Hdoc. discriminate.
  - exists s1. split; [exact E | apply Hlater].
Defined.

(** The comprehension keeps, for an id, the url of the last entry that
    carries it. *)
Lemma manifest_entries_other k vs :
  forall acc m,
    manifest_entries acc vs = Ok m ->
    (forall v, v ∈ vs -> py_item v "id" <> Ok (JStr k)) ->
    m !! k = acc !! k.
Proof.
  induction vs as [|v vs IH]; intros acc m H Hno; cbn [manifest_entries] in H.
  - injection H as <-. reflexivity.
  - destruct (manifest_entry acc v) as [acc'| |] eqn:E; cbn [rbind] in H; try discriminate.
    rewrite (IH _ _ H) by (intros w Hw; apply Hno; right; exact Hw).
    unfold manifest_entry in E.
    assert (Hv : py_item v "id" <> Ok (JStr k)) by (apply Hno; left).
    destruct (py_item v "id") as [id| |]; cbn [rbind] in E; try discriminate.
    destruct (py_item v "url") as [url| |]; cbn [rbind] in E; try discriminate.
    destruct id as [| | |k'| |]; try discriminate; injection E as <-; try reflexivity.
    apply lookup_insert_ne. congruence.
Qed.

(** X9: when the manifest can be read, all_versions maps an id to the
    url of the last entry with that id, and has no entry for an id no
    entry carries. *)
Theorem all_versions_last_entry_wins doc vs m k :
  py_item doc "versions" = Ok (JList vs) ->
  all_versions_of doc = Ok m ->
  (forall before v after url,
      vs = (before ++ v :: after)%list ->
      py_item v "id" = Ok (JStr k) ->
      py_item v "url" = Ok url ->
      (forall w, w ∈ after -> py_item w "id" <> Ok (JStr k)) ->
      m !! k = Some url) /\
  ((forall v, v ∈ vs -> py_item v "id" <> Ok (JStr k)) -> m !! k = None).
Proof.
  intros Hvs H. unfold all_versions_of in H. rewrite Hvs in H. cbn [rbind py_iter] in H.
  split.
  - intros before v after url -> Hid Hurl Hafter.
    assert (Hgen : forall acc, manifest_entries acc (before ++ v :: after) = Ok m ->
                               m !! k = Some url).
    { clear H Hvs. induction before as [|b before IH]; intros acc H.
      - cbn [app manifest_entries] in H. unfold manifest_entry in H.
        rewrite Hid, Hurl in H. cbn [rbind] in H.
        rewrite (manifest_entries_other k after _ _ H Hafter). apply lookup_insert_eq.
      - cbn [app manifest_entries] in H.
        destruct (manifest_entry acc b) as [acc'| |]; cbn [rbind] in H; try discriminate.
        apply (IH _ H). }
    apply (Hgen _ H).
  - intros Hno. rewrite (manifest_entries_other k vs _ _ H Hno). apply lookup_empty.
Qed.

Lemma all_versions_last_entry_wins_witness :
  exists m,
    all_versions_of
      (JDict [("versions",
               JList [JDict [("id", JStr "1.0"); ("url", JStr "http://x/old")];
                      JDict [("id", JStr "1.0"); ("url", JStr "http://x/new")]])]) = Ok m /\
    m !! "1.0" = Some (JStr "http://x/new").
Proof.
  eexists. split; [reflexivity|].
  refine (proj1 (all_versions_last_entry_wins
                   (JDict [("versions",
                            JList [JDict [("id", JStr "1.0"); ("url", JStr "http://x/old")];
                                   JDict [("id", JStr "1.0"); ("url", JStr "http://x/new")]])])
                   [JDict [("id", JStr "1.0"); ("url", JStr "http://x/old")];
                    JDict [("id", JStr "1.0"); ("url", JStr "http://x/new")]]
                   _ "1.0" eq_refl eq_refl)
            [JDict [("id", JStr "1.0"); ("url", JStr "http://x/old")]]
            (JDict [("id", JStr "1.0"); ("url", JStr "http://x/new")]) []
            (JStr "http://x/new") eq_refl eq_refl eq_refl _).
  intros w Hw. inversion Hw.
Defined.

Lemma download_attempts_keeps net u p retries fuel :
  forall attempt s r s',
    (retries - attempt <= fuel)%nat ->
    download_attempts net fuel attempt retries u p s = (r, s') ->
    r <> Diverge /\
    (forall q, q <> p -> files s' !! q = files s !! q) /\
    (r = Ok true -> is_Some (files s' !! p)).
Proof.
  induction fuel as [|fuel IH]; intros attempt s r s' Hf H; cbn [download_attempts] in H.
  - assert (E : Nat.ltb attempt retries = false) by (apply Nat.ltb_ge; lia).
    rewrite E in H. inversion H; subst.
    split; [discriminate|]. split; [reflexivity | discriminate].
  - destruct (Nat.ltb attempt retries) eqn:E.
    + apply Nat.ltb_lt in E.
      destruct (net (length (requests s)) u) as [c| | |c|].
      * inversion H; subst. split; [discriminate|]. cbn. split.
        -- intros q Hq. apply lookup_insert_ne. congruence.
        -- intros _. rewrite lookup_insert_eq. eauto.
      * apply IH in H as (Hd & Hq & Hp); [|lia]. auto.
      * apply IH in H as (Hd & Hq & Hp); [|lia]. auto.
      * apply IH in H as (Hd & Hq & Hp); [|lia].
        split; [exact Hd|]. split; [|exact Hp].
        intros q Hne. rewrite (Hq q Hne). cbn. apply lookup_insert_ne. congruence.
      * inversion H; subst. split; [discriminate|]. split; [reflexivity | discriminate].
    + inversion H; subst. split; [discriminate|]. split; [reflexivity | discriminate].
Qed.

(** The fourth script's load_version_manifest meets the same
    condition with its retrying download. *)
Lemma download_retrying_keeps net u p s r s' :
  download_retrying net (JStr u) p s = (r, s') ->
  r <> Diverge /\
  (forall q, q <> p -> files s' !! q = files s !! q) /\
  (r = Ok tt -> is_Some (files s' !! p)).
Proof.
  unfold download_retrying, download_file_retry. unfold bind at 1. unfold bind at 1.
  cbn [lift url_of]. intros H.
  destruct (has_url_type u);
    [|inversion H; subst; split; [discriminate|]; split; [reflexivity | discriminate]].
  destruct (download_attempts net 3 0 3 u p s) as [[b|e|] s1] eqn:E;
    destruct (download_attempts_keeps net u p 3 3 0 s _ _ ltac:(lia) E) as (Hd & Hq & Hp);
    inversion H; subst.
  - split; [discriminate|]. split; [exact Hq|]. intros _.
    destruct b; [apply Hp; reflexivity|].
    exfalso. clear -E.
    assert (Hnever : forall fuel attempt s0,
               fst (download_attempts net fuel attempt 3 u p s0) <> Ok false).
    { induction fuel as [|fuel IH]; intros attempt s0; cbn [download_attempts];
        destruct (Nat.ltb attempt 3); try discriminate.
      destruct (net (length (requests s0)) u); try discriminate; apply IH. }
    apply (Hnever 3%nat 0%nat s). rewrite E. reflexivity.
  - split; [discriminate|]. split; [exact Hq | discriminate].
  - destruct (Hd eq_refl).
Qed.

(** ** Cosmetics *)

Lemma str_app_inv_head (a b c : string) : a +:+ b = a +:+ c -> b = c.
Proof.
  induction a as [|x a IH]; intros H; [exact H|].
  rewrite !append_cons in H. injection H as H. apply IH, H.
Qed.

Lemma skin_cape_differ mc_dir username :
  skin_file_of mc_dir username <> cape_file_of mc_dir username.
Proof.
  unfold skin_file_of, cape_file_of, path_join. intros H.
  assert (E : starts_with "/" (username +:+ "_skin.png")
              = starts_with "/" (username +:+ "_cape.png")) by (destruct username; reflexivity).
  rewrite <- E in H.
  destruct (starts_with "/" (username +:+ "_skin.png"));
    [|destruct (bool_decide (TLAUNCHER_SKINS_DIR mc_dir = EmptyString)
                || ends_with "/" (TLAUNCHER_SKINS_DIR mc_dir))];
    repeat apply str_app_inv_head in H; discriminate.
Qed.

Section CosmeticsFacts.
Variable mc_dir : string.
Variable net : nat -> string -> outcome.
Variable urlencode : string -> string.

(** X10: fetch_lunar_cosmetics either left things such that the next
    call replays its outcome without asking the network (an answer that
    was cached, or a cache file that cannot be read), or it failed:
    then it returned the empty dict after one request and wrote
    nothing. *)
Theorem lunar_cosmetics_replayed uuid s r s' :
  fetch_lunar_cosmetics mc_dir net urlencode uuid s = (r, s') ->
  (forall net2, fetch_lunar_cosmetics mc_dir net2 urlencode uuid s' = (r, s')) \/
  (r = Ok (JDict []) /\ files s' = files s /\
   requests s' = (requests s ++ [(cosmetics_url_of urlencode uuid,
                                  cosmetics_cache_of mc_dir uuid)])%list).
Proof.
  intros H. unfold fetch_lunar_cosmetics, bind, isfile in H.
  destruct (files s !! cosmetics_cache_of mc_dir uuid) as [c|] eqn:Hf.
  - rewrite bool_decide_eq_true_2 in H by eauto.
    unfold json_load in H. rewrite Hf in H. left. intros net2.
    assert (Hs : s' = s) by (destruct c; inversion H; reflexivity). subst s'.
    unfold fetch_lunar_cosmetics, bind, isfile.
    rewrite bool_decide_eq_true_2 by (rewrite Hf; eauto).
    unfold json_load. rewrite Hf. exact H.
  - rewrite bool_decide_eq_false_2 in H by (intros [? ?]; discriminate).
    destruct (net (length (requests s)) (cosmetics_url_of urlencode uuid))
      as [[data| |]| | |c|]; inversion H; subst;
      try (right; split; [reflexivity | split; reflexivity]).
    left. intros net2. unfold fetch_lunar_cosmetics, bind, isfile. cbn [files set_files].
    rewrite bool_decide_eq_true_2 by (rewrite lookup_insert_eq; eauto).
    unfold json_load. cbn [files set_files]. rewrite lookup_insert_eq. reflexivity.
Qed.

Lemma skin_url_has_type username : has_url_type (skin_url_of username) = true.
Proof. unfold skin_url_of, TLAUNCHER_SKIN_API. url_type_go. Qed.

Lemma cape_url_has_type username : has_url_type (cape_url_of username) = true.
Proof. unfold cape_url_of, TLAUNCHER_SKIN_API. url_type_go. Qed.

Lemma try_download u p s :
  has_url_type u = true ->
  exists s1,
    try_except (download_file net (JStr u) p) s = (Ok tt, s1) /\
    requests s1 = (requests s ++ [(u, p)])%list /\
    (forall q, q <> p -> files s1 !! q = files s !! q) /\
    (is_Some (files s !! p) -> is_Some (files s1 !! p)) /\
    (forall c, net (length (requests s)) u = Body c -> files s1 !! p = Some c) /\
    ((forall c, net (length (requests s)) u <> Body c /\
                net (length (requests s)) u <> Interrupted c) -> files s1 = files s).
Proof.
  intros Hu. unfold try_except. rewrite download_file_unfold, Hu.
  destruct (net (length (requests s)) u) as [c| | |c|] eqn:E; eexists;
    (split; [reflexivity|]); (split; [reflexivity|]); cbn [files set_files add_request];
    (split; [intros q Hq; try rewrite lookup_insert_ne by congruence; reflexivity|]);
    (split; [intros Hp; try rewrite lookup_insert_eq; eauto|]);
    (split; [intros c' Hc'; try discriminate; injection Hc' as <-; apply lookup_insert_eq|]);
    intros Hno; try reflexivity; destruct (Hno c) as [H1 H2]; congruence.
Qed.

Lemma file_or_none_spec p s :
  exists r, file_or_none p s = (Ok r, s) /\
            (forall q, r = Some q -> q = p /\ is_Some (files s !! p)) /\
            (r = None -> files s !! p = None) /\
            (is_Some (files s !! p) -> r = Some p).
Proof.
  unfold file_or_none, bind, isfile, ret.
  destruct (files s !! p) as [c|] eqn:E.
  - rewrite bool_decide_eq_true_2 by eauto. exists (Some p).
    split; [reflexivity|]. split; [intros q Hq; injection Hq as <-; eauto|].
    split; [discriminate | reflexivity].
  - rewrite bool_decide_eq_false_2 by (intros [? ?]; discriminate). exists None.
    split; [reflexivity|]. split; [discriminate|]. split; [reflexivity|].
    intros [? ?]; discriminate.
Qed.

Lemma both_cached_spec username s :
  both_cached mc_dir username s
  = (Ok (bool_decide (is_Some (files s !! skin_file_of mc_dir username)) &&
         bool_decide (is_Some (files s !! cape_file_of mc_dir username))), s).
Proof.
  unfold both_cached, bind, isfile, ret.
  destruct (bool_decide (is_Some (files s !! skin_file_of mc_dir username))); reflexivity.
Qed.

Lemma both_cached_false username s :
  ~ (is_Some (files s !! skin_file_of mc_dir username) /\
     is_Some (files s !! cape_file_of mc_dir username)) ->
  bool_decide (is_Some (files s !! skin_file_of mc_dir username)) &&
  bool_decide (is_Some (files s !! cape_file_of mc_dir username)) = false.
Proof.
  intros Hnot. apply andb_false_iff.
  destruct (bool_decide (is_Some (files s !! skin_file_of mc_dir username))) eqn:Es;
    [|left; reflexivity].
  apply bool_decide_eq_true_1 in Es.
  right. apply bool_decide_eq_false_2. intros Hc. apply Hnot.
  split; [exact Es | exact Hc].
Qed.

(** X11: Cat4k's fetch_tlauncher_skin always returns; a path it
    returns is that of a file on disk, and None stands for a file that
    is not there.  With both files cached nothing is sent, nothing
    changes and both paths are returned; in every other case both
    files are requested, skin first, also the one that was cached. *)
Theorem cat4k_skin_paths_exist username s :
  exists skin cape s',
    cat4k_fetch_tlauncher_skin mc_dir net username s = (Ok (skin, cape), s') /\
    (forall p, skin = Some p ->
               p = skin_file_of mc_dir username /\ is_Some (files s' !! p)) /\
    (forall p, cape = Some p ->
               p = cape_file_of mc_dir username /\ is_Some (files s' !! p)) /\
    (skin = None -> files s' !! skin_file_of mc_dir username = None) /\
    (cape = None -> files s' !! cape_file_of mc_dir username = None) /\
    (is_Some (files s !! skin_file_of mc_dir username) /\
     is_Some (files s !! cape_file_of mc_dir username) ->
     s' = s /\ skin = Some (skin_file_of mc_dir username) /\
     cape = Some (cape_file_of mc_dir username)) /\
    (~ (is_Some (files s !! skin_file_of mc_dir username) /\
        is_Some (files s !! cape_file_of mc_dir username)) ->
     requests s' = (requests s ++ [(skin_url_of username, skin_file_of mc_dir username);
                                   (cape_url_of username, cape_file_of mc_dir username)])%list).
Proof.
  unfold cat4k_fetch_tlauncher_skin. unfold bind at 1. rewrite both_cached_spec.
  destruct (decide (is_Some (files s !! skin_file_of mc_dir username) /\
                    is_Some (files s !! cape_file_of mc_dir username))) as [[Hs Hc]|Hnot].
  - rewrite !bool_decide_eq_true_2 by assumption. cbn [andb].
    exists (Some (skin_file_of mc_dir username)), (Some (cape_file_of mc_dir username)), s.
    split; [reflexivity|].
    split; [intros p Hp; injection Hp as <-; auto|].
    split; [intros p Hp; injection Hp as <-; auto|].
    split; [discriminate|]. split; [discriminate|].
    split; [auto | intros Hno; destruct Hno; auto].
  - rewrite (both_cached_false _ _ Hnot).
    unfold bind at 1.
    destruct (try_download (skin_url_of username) (skin_file_of mc_dir username) s
                (skin_url_has_type username)) as (s1 & -> & Hr1 & _).
    unfold bind at 1.
    destruct (try_download (cape_url_of username) (cape_file_of mc_dir username) s1
                (cape_url_has_type username)) as (s2 & -> & Hr2 & _).
    unfold bind at 1.
    destruct (file_or_none_spec (skin_file_of mc_dir username) s2)
      as (skin & -> & Hskin & Hnoskin & _).
    unfold bind at 1.
    destruct (file_or_none_spec (cape_file_of mc_dir username) s2)
      as (cape & -> & Hcape & Hnocape & _).
    exists skin, cape, s2. split; [reflexivity|].
    split; [intros p Hp; destruct (Hskin p Hp) as [-> Hin]; auto|].
    split; [intros p Hp; destruct (Hcape p Hp) as [-> Hin]; auto|].
    split; [exact Hnoskin|]. split; [exact Hnocape|].
    split; [intros Hboth; contradiction|].
    intros _. rewrite Hr2, Hr1, <- app_assoc. reflexivity.
Qed.

(** X12: a fetch takes place (the two files are not both cached), the
    skin arrives and the cape does not.  Then the fetch_tlauncher_skin
    of CAT2.1.X returns (None, None) although it stored the skin, while
    the one of Cat4k, ending on the same disk, returns the skin path,
    and with it the cape path exactly when a cape file is on disk:
    one that was cached, or what a copy that broke off left behind. *)
Theorem skin_without_cape username s c :
  ~ (is_Some (files s !! skin_file_of mc_dir username) /\
     is_Some (files s !! cape_file_of mc_dir username)) ->
  net (length (requests s)) (skin_url_of username) = Body c ->
  (forall c', net (S (length (requests s))) (cape_url_of username) <> Body c') ->
  exists s' cape,
    cat4k_fetch_tlauncher_skin mc_dir net username s
    = (Ok (Some (skin_file_of mc_dir username), cape), s') /\
    cat21x_fetch_tlauncher_skin mc_dir net username s = (Ok (None, None), s') /\
    files s' !! skin_file_of mc_dir username = Some c /\
    (is_Some (files s !! cape_file_of mc_dir username) \/
     (exists c', net (S (length (requests s))) (cape_url_of username) = Interrupted c') ->
     cape = Some (cape_file_of mc_dir username) /\
     is_Some (files s' !! cape_file_of mc_dir username)) /\
    (files s !! cape_file_of mc_dir username = None ->
     (forall c', net (S (length (requests s))) (cape_url_of username) <> Interrupted c') ->
     cape = None /\ files s' !! cape_file_of mc_dir username = None).
Proof.
  intros Hnot Hskin Hfail.
  pose proof (skin_cape_differ mc_dir username) as Hne.
  set (s1 := set_files (insert (skin_file_of mc_dir username) c)
               (add_request (skin_url_of username) (skin_file_of mc_dir username) s)).
  assert (Hlen : length (requests s1) = S (length (requests s))).
  { cbn. rewrite length_app. cbn. lia. }
  assert (D1 : download_file net (JStr (skin_url_of username)) (skin_file_of mc_dir username) s
               = (Ok tt, s1)).
  { rewrite download_file_unfold, skin_url_has_type, Hskin. reflexivity. }
  assert (D2 : exists s2,
             download_file net (JStr (cape_url_of username)) (cape_file_of mc_dir username) s1
             = (Raise (DownloadFailed (cape_url_of username)), s2) /\
             files s2 !! skin_file_of mc_dir username = Some c /\
             (is_Some (files s !! cape_file_of mc_dir username) \/
              (exists c', net (S (length (requests s))) (cape_url_of username)
                          = Interrupted c') ->
              is_Some (files s2 !! cape_file_of mc_dir username)) /\
             (files s !! cape_file_of mc_dir username = None ->
              (forall c', net (S (length (requests s))) (cape_url_of username)
                          <> Interrupted c') ->
              files s2 !! cape_file_of mc_dir username = None)).
  { rewrite download_file_unfold, cape_url_has_type, Hlen.
    assert (Hkeep : files s1 !! cape_file_of mc_dir username
                    = files s !! cape_file_of mc_dir username).
    { cbn. apply lookup_insert_ne. exact Hne. }
    assert (Hs1 : files s1 !! skin_file_of mc_dir username = Some c).
    { cbn. apply lookup_insert_eq. }
    destruct (net (S (length (requests s))) (cape_url_of username)) as [c'| | |c'|] eqn:E;
      [destruct (Hfail c' eq_refl)| | | |];
      eexists; (split; [reflexivity|]); cbn [files set_files add_request];
      fold s1.
    - split; [exact Hs1|]. split.
      + intros [Hc|[c' Hc']]; [rewrite Hkeep; exact Hc | discriminate].
      + intros Hc _. rewrite Hkeep. exact Hc.
    - split; [exact Hs1|]. split.
      + intros [Hc|[c' Hc']]; [rewrite Hkeep; exact Hc | discriminate].
      + intros Hc _. rewrite Hkeep. exact Hc.
    - split; [rewrite lookup_insert_ne by (intros Heq; apply Hne; symmetry; exact Heq);
              exact Hs1|].
      split.
      + intros _. rewrite lookup_insert_eq. eauto.
      + intros _ Hno. destruct (Hno c' eq_refl).
    - split; [exact Hs1|]. split.
      + intros [Hc|[c' Hc']]; [rewrite Hkeep; exact Hc | discriminate].
      + intros Hc _. rewrite Hkeep. exact Hc. }
  destruct D2 as (s2 & D2 & Hskin2 & Hcape_yes & Hcape_no).
  destruct (file_or_none_spec (cape_file_of mc_dir username) s2)
    as (cape & Ecape & Hsome & Hnone & Hpresent).
  exists s2, cape. split; [|split; [|split; [exact Hskin2|split]]].
  - unfold cat4k_fetch_tlauncher_skin. unfold bind at 1.
    rewrite both_cached_spec, (both_cached_false _ _ Hnot).
    unfold bind at 1. unfold try_except at 1. rewrite D1.
    unfold bind at 1. unfold try_except at 1. rewrite D2.
    unfold bind at 1.
    destruct (file_or_none_spec (skin_file_of mc_dir username) s2) as (r1 & -> & _ & _ & H1).
    rewrite H1 by (rewrite Hskin2; eauto).
    unfold bind at 1. rewrite Ecape. reflexivity.
  - unfold cat21x_fetch_tlauncher_skin. unfold bind at 1.
    rewrite both_cached_spec, (both_cached_false _ _ Hnot).
    unfold bind. rewrite D1, D2. reflexivity.
  - intros Hyes. pose proof (Hcape_yes Hyes) as Hin. split; [apply Hpresent, Hin | exact Hin].
  - intros Hc Hno. pose proof (Hcape_no Hc Hno) as Hout. split; [|exact Hout].
    destruct cape as [q|]; [|reflexivity].
    destruct (Hsome q eq_refl) as [_ [x Hx]]. rewrite Hout in Hx. discriminate.
Qed.
End CosmeticsFacts.

Lemma lunar_cosmetics_replayed_witness :
  fetch_lunar_cosmetics Example.mc Example.dead (fun u => "uuids=" +:+ u) "u1"
    (snd (fetch_lunar_cosmetics Example.mc (fun _ _ => Body (CJson (JDict [("users", JDict [])])))
            (fun u => "uuids=" +:+ u) "u1" Example.empty_disk))
  = (Ok (JDict [("users", JDict [])]),
     snd (fetch_lunar_cosmetics Example.mc (fun _ _ => Body (CJson (JDict [("users", JDict [])])))
            (fun u => "uuids=" +:+ u) "u1" Example.empty_disk)).
Proof.
  destruct (lunar_cosmetics_replayed Example.mc
              (fun _ _ => Body (CJson (JDict [("users", JDict [])])))
              (fun u => "uuids=" +:+ u) "u1" Example.empty_disk
              (Ok (JDict [("users", JDict [])]))
              (snd (fetch_lunar_cosmetics Example.mc
                      (fun _ _ => Body (CJson (JDict [("users", JDict [])])))
                      (fun u => "uuids=" +:+ u) "u1" Example.empty_disk)))
    as [Hreplay|(Hr & _)].
  - reflexivity.
  - apply Hreplay.
  - discriminate.
Defined.

Lemma skin_without_cape_witness :
  exists s',
    cat4k_fetch_tlauncher_skin Example.mc
      (fun n _ => match n with O => Body CBlob | _ => HTTPError end) "Steve" Example.empty_disk
    = (Ok (Some (skin_file_of Example.mc "Steve"), None), s') /\
    cat21x_fetch_tlauncher_skin Example.mc
      (fun n _ => match n with O => Body CBlob | _ => HTTPError end) "Steve" Example.empty_disk
    = (Ok (None, None), s').
Proof.
  destruct (skin_without_cape Example.mc
              (fun n _ => match n with O => Body CBlob | _ => HTTPError end)
              "Steve" Example.empty_disk CBlob) as (s' & cape & H4 & H21 & _ & _ & Hnone).
  - intros [[x Hx] _]. discriminate.
  - reflexivity.
  - intros c'. discriminate.
  - destruct Hnone as [-> _]; [reflexivity | intros c'; discriminate |].
    exists s'. split; [exact H4 | exact H21].
Defined.

(** ** The classpath handed to the JVM *)

Lemma reads_ret {A} (P : disk -> A -> Prop) (a : A) : (forall s, P s a) -> reads P (ret a).
Proof. intros H s r s' E. inversion E; subst. split; [reflexivity|]. intros b Hb. injection Hb as <-. apply H. Qed.

Lemma reads_lift {A} (x : res A) : reads (fun _ _ => True) (lift x).
Proof. intros s r s' E. inversion E; subst. auto. Qed.

Lemma reads_isfile p :
  reads (fun s b => b = bool_decide (is_Some (files s !! p))) (isfile p).
Proof.
  intros s r s' E. inversion E; subst. split; [reflexivity|].
  intros b Hb. injection Hb as <-. reflexivity.
Qed.

Lemma reads_json_load p : reads (fun s j => files s !! p = Some (CJson j)) (json_load p).
Proof.
  intros s r s' E. unfold json_load in E.
  destruct (files s !! p) as [[j| |]|]; inversion E; subst; split; try reflexivity;
    intros a Ha; try discriminate.
  injection Ha as <-. reflexivity.
Qed.

Lemma reads_bind {A B} (P : disk -> A -> Prop) (Q : disk -> B -> Prop) (m : M A) (f : A -> M B) :
  reads P m -> (forall a, reads (fun s b => P s a -> Q s b) (f a)) -> reads Q (bind m f).
Proof.
  intros Hm Hf s r s' E. unfold bind in E.
  destruct (m s) as [[a|e|] s1] eqn:Em; destruct (Hm _ _ _ Em) as [-> Hp].
  - destruct (Hf a _ _ _ E) as [-> Hq]. split; [reflexivity|].
    intros b Hb. apply (Hq b Hb), Hp. reflexivity.
  - inversion E; subst. split; [reflexivity | discriminate].
  - inversion E; subst. split; [reflexivity | discriminate].
Qed.

Lemma reads_weaken {A} (P Q : disk -> A -> Prop) (m : M A) :
  (forall s a, P s a -> Q s a) -> reads P m -> reads Q m.
Proof.
  intros HPQ Hm s r s' E. destruct (Hm _ _ _ E) as [-> Hp].
  split; [reflexivity|]. intros a Ha. apply HPQ, Hp, Ha.
Qed.

Lemma reads_then {A B} (P : disk -> A -> Prop) (Q : disk -> B -> Prop) (m : M A) (f : A -> M B) :
  reads P m -> (forall a, reads Q (f a)) -> reads Q (bind m f).
Proof.
  intros Hm Hf. apply (reads_bind P Q); [exact Hm|].
  intros a. eapply reads_weaken; [|apply Hf]. auto.
Qed.

Lemma listed_nil abspath s : listed abspath s [].
Proof. intros x Hx. inversion Hx. Qed.

Lemma listed_app abspath s ys zs :
  listed abspath s ys -> listed abspath s zs -> listed abspath s (ys ++ zs).
Proof. intros Hy Hz x Hx. apply elem_of_app in Hx as [Hx|Hx]; auto. Qed.

Lemma reads_present_entry abspath p q :
  reads (fun s ys => q = bool_decide (is_Some (files s !! p)) -> listed abspath s ys)
        (ret (if q : bool then [abspath p] else [])).
Proof.
  apply reads_ret. intros s Hq x Hx. destruct q; [|inversion Hx].
  apply list_elem_of_singleton in Hx as ->. exists p. split; [reflexivity|].
  symmetry in Hq. apply bool_decide_eq_true_1 in Hq. exact Hq.
Qed.

Lemma reads_m_collect {A} abspath (f : A -> M (list string)) xs :
  (forall x, reads (listed abspath) (f x)) -> reads (listed abspath) (m_collect f xs).
Proof.
  intros Hf. induction xs as [|x xs IH]; cbn [m_collect].
  - apply reads_ret. intros s. apply listed_nil.
  - apply (reads_bind (listed abspath)); [apply Hf|]. intros ys.
    apply (reads_bind (listed abspath)); [|intros zs; apply reads_ret; intros s Hz Hy;
                                             apply listed_app; assumption].
    eapply reads_weaken; [|exact IH]. auto.
Qed.

(** What a [reads] computation returned for one element is part of
    what the loop collected. *)
Lemma m_collect_member {A} (P : disk -> list string -> Prop) (f : A -> M (list string)) xs :
  (forall x, reads P (f x)) ->
  forall s entries s',
    m_collect f xs s = (Ok entries, s') ->
    forall x ys y, x ∈ xs -> f x s = (Ok ys, s) -> y ∈ ys -> y ∈ entries.
Proof.
  intros Hf. induction xs as [|x0 xs IH]; intros s entries s' H x ys y Hx Hfx Hy.
  - inversion Hx.
  - cbn [m_collect] in H.
    apply bind_ok in H as (ys0 & s1 & H0 & H).
    destruct (Hf _ _ _ _ H0) as [-> _].
    apply bind_ok in H as (zs & s2 & Hrest & H). inversion H; subst.
    apply elem_of_app. apply elem_of_cons in Hx as [->|Hx].
    + left. rewrite H0 in Hfx. injection Hfx as <-. exact Hy.
    + right. eapply IH; eassumption.
Qed.

Lemma set_add_fold xs :
  forall acc,
    NoDup acc ->
    NoDup (fold_left (fun acc x => set_add x acc) xs acc) /\
    forall x, x ∈ fold_left (fun acc x => set_add x acc) xs acc <-> x ∈ acc \/ x ∈ xs.
Proof.
  induction xs as [|y xs IH]; intros acc Hnd; cbn [fold_left].
  - split; [exact Hnd|]. intros x. split; [auto | intros [H|H]; [exact H | inversion H]].
  - assert (Hadd : NoDup (set_add y acc) /\ forall x, x ∈ set_add y acc <-> x ∈ acc \/ x = y).
    { unfold set_add. destruct (bool_decide (y ∈ acc)) eqn:E.
      - apply bool_decide_eq_true_1 in E. split; [exact Hnd|].
        intros x. split; [auto | intros [H| ->]; assumption].
      - apply bool_decide_eq_false_1 in E. split.
        + apply NoDup_app. split; [exact Hnd|]. split; [|apply NoDup_singleton].
          intros x Hx Hx'. apply list_elem_of_singleton in Hx' as ->. contradiction.
        + intros x. rewrite elem_of_app, list_elem_of_singleton. reflexivity. }
    destruct Hadd as [Hnd' Hin]. destruct (IH _ Hnd') as [Hres Hmem].
    split; [exact Hres|]. intros x. rewrite Hmem, Hin, elem_of_cons. tauto.
Qed.

Section Classpath.
Variable mc_dir : string.
Variable abspath : string -> string.
Variable version_id : string.
Variable allowed : json -> res bool.

Lemma reads_classpath_entry lib :
  reads (listed abspath) (classpath_entry mc_dir abspath allowed lib).
Proof.
  unfold classpath_entry.
  eapply reads_then; [apply reads_lift|]. intros ok.
  destruct ok; [|apply reads_ret; intros s; apply listed_nil].
  eapply reads_then; [apply reads_lift|]. intros downloads.
  eapply reads_then; [apply reads_lift|]. intros artifact.
  destruct (truthy artifact); [|apply reads_ret; intros s; apply listed_nil].
  eapply reads_then; [apply reads_lift|]. intros path.
  destruct (truthy path); [|apply reads_ret; intros s; apply listed_nil].
  eapply reads_then; [apply reads_lift|]. intros p.
  eapply reads_bind; [apply reads_isfile|]. intros present. apply reads_present_entry.
Qed.

Lemma reads_jar_entry vdata :
  reads (listed abspath) (jar_entry mc_dir abspath version_id vdata).
Proof.
  unfold jar_entry.
  eapply reads_bind; [apply reads_isfile|]. intros present.
  destruct present.
  - apply (reads_present_entry abspath _ true).
  - eapply reads_weaken with (P := listed abspath); [auto|].
    eapply reads_then; [apply reads_lift|]. intros inherits.
    destruct (truthy inherits); [|apply reads_ret; intros s; apply listed_nil].
    eapply reads_then; [apply reads_lift|]. intros pid.
    eapply reads_bind; [apply reads_isfile|]. intros parent_present.
    apply reads_present_entry.
Qed.

(** X13: building the classpath changes nothing on disk; the classpath
    it returns has no entry twice, and every entry is the absolute path
    of a file that exists. *)
Theorem classpath_lists_existing_files vdata parent_data s r s' :
  classpath_of mc_dir abspath version_id allowed vdata parent_data s = (r, s') ->
  s' = s /\
  forall classpath, r = Ok classpath -> NoDup classpath /\ listed abspath s classpath.
Proof.
  revert s r s'.
  change (reads (fun s classpath => NoDup classpath /\ listed abspath s classpath)
            (classpath_of mc_dir abspath version_id allowed vdata parent_data)).
  unfold classpath_of.
  eapply reads_then; [apply reads_lift|]. intros libs.
  eapply (reads_bind (listed abspath)); [apply reads_m_collect, reads_classpath_entry|].
  intros entries.
  eapply (reads_bind (listed abspath)); [eapply reads_weaken; [|apply reads_jar_entry]; auto|].
  intros jar. apply reads_ret. intros s Hjar Hentries.
  destruct (set_add_fold (entries ++ jar) [] (NoDup_nil_2 (A := string))) as [Hnd Hmem].
  split; [exact Hnd|].
  intros x Hx. apply Hmem in Hx as [Hx|Hx]; [inversion Hx|].
  apply (listed_app _ _ _ _ Hentries Hjar), Hx.
Qed.
End Classpath.

Lemma classpath_lists_existing_files_witness :
  exists classpath,
    fst (classpath_of Example.mc (fun p => p) "c" (lib_rules_allow "linux")
           Example.child Example.parent Example.installed) = Ok classpath /\
    NoDup classpath /\ listed (fun p => p) Example.installed classpath.
Proof.
  destruct (classpath_of Example.mc (fun p => p) "c" (lib_rules_allow "linux")
              Example.child Example.parent Example.installed) as [r s'] eqn:E.
  destruct (classpath_lists_existing_files Example.mc (fun p => p) "c" (lib_rules_allow "linux")
              Example.child Example.parent Example.installed r s' E) as [_ H].
  vm_compute in E. inversion E; subst r.
  eexists. split; [reflexivity|]. apply H. reflexivity.
Defined.

(** ** From install to launch *)

Section LaunchAfterInstall.
Variable mc_dir : string.
Variable all_versions : gmap string json.
Variable net : nat -> string -> outcome.
Variable v : variant.
Variable abspath : string -> string.
Variable allowed : json -> res bool.

Lemma classpath_entry_ready lib downloads artifact p s :
  allowed lib = Ok true ->
  py_get_d lib "downloads" (JDict []) = Ok downloads ->
  py_get downloads "artifact" = Ok artifact ->
  py_get artifact "path" = Ok (JStr p) ->
  p <> EmptyString ->
  is_Some (files s !! path_join (LIBRARIES_DIR mc_dir) p) ->
  classpath_entry mc_dir abspath allowed lib s
  = (Ok [abspath (path_join (LIBRARIES_DIR mc_dir) p)], s).
Proof.
  intros Hallow Hd Ha Hp Hne Hfile. unfold classpath_entry.
  unfold bind at 1, lift. rewrite Hallow.
  unfold bind at 1, lift. rewrite Hd.
  unfold bind at 1, lift. rewrite Ha.
  assert (Hdict : exists d, artifact = JDict d /\ dict_lookup d "path" = Some (JStr p)).
  { destruct artifact as [| | | | |d]; try discriminate. exists d. split; [reflexivity|].
    unfold py_get, py_get_d in Hp. destruct (dict_lookup d "path"); congruence. }
  destruct Hdict as (d & -> & Hlk).
  assert (Ht : truthy (JDict d) = true) by (destruct d; [discriminate | reflexivity]).
  rewrite Ht. unfold bind at 1, lift. rewrite Hp.
  assert (Htp : truthy (JStr p) = true).
  { cbn. rewrite bool_decide_eq_false_2 by exact Hne. reflexivity. }
  rewrite Htp. unfold bind at 1, lift.
  unfold py_item. rewrite Hlk. cbn [rbind as_str].
  unfold bind, isfile, ret. rewrite bool_decide_eq_true_2 by exact Hfile. reflexivity.
Qed.

Lemma ready_parent_loads s vid vdata :
  version_ready mc_dir v s (JStr vid) ->
  files s !! version_json_path_of mc_dir vid = Some (CJson vdata) ->
  exists parent_data,
    load_parent mc_dir vdata s = (Ok parent_data, s) /\
    forall parent_libs,
      py_get_d parent_data "libraries" (JList []) = Ok (JList parent_libs) ->
      libraries_ready mc_dir v s parent_libs.
Proof.
  intros Hready Hfile. inversion Hready as [vid' j Hj Hown Hparent Heq]; subst vid'.
  rewrite Hfile in Hj. injection Hj as <-.
  destruct Hown as (Hdict & _).
  destruct vdata as [| | | | |d]; try contradiction.
  destruct (truthy (match dict_lookup d "inheritsFrom" with Some x => x | None => JNull end))
    eqn:Ht.
  - specialize (Hparent _ eq_refl Ht).
    inversion Hparent as [pid pj Hpj Hpown _ Hpeq].
    destruct Hpown as (_ & _ & Hplibs & _).
    exists pj. split; [|exact Hplibs].
    apply (load_parent_cached mc_dir (JDict d) pid pj s).
    + unfold py_get, py_get_d. rewrite <- Hpeq. reflexivity.
    + intros ->. discriminate.
    + exact Hpj.
  - exists (JDict []). split.
    + unfold load_parent, bind, lift. cbn [py_get py_get_d]. rewrite Ht. reflexivity.
    + intros parent_libs Hl. injection Hl as <-. intros lib downloads artifact p Hin.
      inversion Hin.
Qed.

(** X14: after a successful install the launch code can load the
    descriptor and its parent, and when it builds the classpath, every
    library of the merged list that the rules allow and that names an
    artifact path is on it. *)
Theorem installed_libraries_reach_classpath depth vid s s' :
  install_version mc_dir all_versions net v depth (JStr vid) s = (Ok tt, s') ->
  exists vdata parent_data,
    json_load (version_json_path_of mc_dir vid) s' = (Ok vdata, s') /\
    load_parent mc_dir vdata s' = (Ok parent_data, s') /\
    forall classpath s2,
      classpath_of mc_dir abspath vid allowed vdata parent_data s' = (Ok classpath, s2) ->
      forall libs lib downloads artifact p,
        merged_libraries vdata parent_data = Ok (JList libs) ->
        lib ∈ libs ->
        lib_rules_allow (rule_os v) lib = Ok true ->
        allowed lib = Ok true ->
        py_get_d lib "downloads" (JDict []) = Ok downloads ->
        py_get downloads "artifact" = Ok artifact ->
        py_get artifact "path" = Ok (JStr p) ->
        p <> EmptyString ->
        abspath (path_join (LIBRARIES_DIR mc_dir) p) ∈ classpath.
Proof.
  intros H.
  pose proof (install_version_ready mc_dir all_versions net v depth _ _ _ H) as Hready.
  inversion Hready as [vid' vdata Hfile Hown _ Heq]; subst vid'.
  destruct (ready_parent_loads s' vid vdata Hready Hfile) as (parent_data & Hload & Hplibs).
  exists vdata, parent_data.
  split; [unfold json_load; rewrite Hfile; reflexivity|].
  split; [exact Hload|].
  intros classpath s2 Hcp libs lib downloads artifact p Hmerged Hin Hrule Hallow Hd Ha Hp Hne.
  assert (Hpresent : is_Some (files s' !! path_join (LIBRARIES_DIR mc_dir) p)).
  { destruct Hown as (_ & _ & Hlibs & _).
    unfold merged_libraries in Hmerged.
    destruct (py_get_d vdata "libraries" (JList [])) as [own| |] eqn:Eown; try discriminate.
    cbn [rbind] in Hmerged.
    destruct (py_get_d parent_data "libraries" (JList [])) as [inherited| |] eqn:Einh;
      try discriminate.
    cbn [rbind] in Hmerged.
    destruct own as [| | | |ol|]; destruct inherited as [| | | |pl|]; try discriminate;
      try (cbn in Hmerged; destruct b; discriminate);
      try (cbn in Hmerged; destruct b, b0; discriminate).
    cbn in Hmerged. injection Hmerged as <-.
    apply elem_of_app in Hin as [Hin|Hin].
    - eapply (Hlibs ol eq_refl); eassumption.
    - eapply (Hplibs pl eq_refl); eassumption. }
  unfold classpath_of in Hcp.
  apply bind_ok in Hcp as (libs' & s3 & Hl & Hcp). apply lift_ok in Hl as [Hl ->].
  rewrite Hmerged in Hl. cbn [rbind py_iter] in Hl. injection Hl as <-.
  apply bind_ok in Hcp as (entries & s3 & Hentries & Hcp).
  apply bind_ok in Hcp as (jar & s4 & _ & Hcp). inversion Hcp; subst.
  apply (proj2 (set_add_fold (entries ++ jar) [] (NoDup_nil_2 (A := string)))).
  right. apply elem_of_app. left.
  eapply (m_collect_member (listed abspath) (classpath_entry mc_dir abspath allowed) libs
            (reads_classpath_entry mc_dir abspath allowed) _ _ _ Hentries lib).
  - exact Hin.
  - eapply classpath_entry_ready; eassumption.
  - apply list_elem_of_singleton. reflexivity.
Qed.
End LaunchAfterInstall.

Lemma installed_libraries_reach_classpath_witness :
  exists classpath,
    fst (classpath_of Example.mc (fun p => p) "c" (lib_rules_allow "linux")
           (patch_json Example.child) (patch_json Example.parent) Example.installed)
    = Ok classpath /\
    "/mc/libraries/a/lp.jar" ∈ classpath.
Proof.
  destruct (installed_libraries_reach_classpath Example.mc Example.versions Example.net
              (Cat4k.variant Example.linux) (fun p => p) (lib_rules_allow "linux")
              5 "c" Example.empty_disk Example.installed)
    as (vdata & parent_data & Hv & Hp & Hcp).
  - vm_compute. reflexivity.
  - vm_compute in Hv. injection Hv as <-.
    vm_compute in Hp. injection Hp as <-.
    destruct (classpath_of Example.mc (fun p => p) "c" (lib_rules_allow "linux")
                (patch_json Example.child) (patch_json Example.parent) Example.installed)
      as [r s2] eqn:E.
    assert (Hr : exists classpath, r = Ok classpath).
    { vm_compute in E. inversion E. eexists. reflexivity. }
    destruct Hr as [classpath ->]. exists classpath. split; [reflexivity|].
    pose (lp_artifact := JDict [("path", JStr "a/lp.jar")]).
    pose (lp_downloads := JDict [("artifact", lp_artifact)]).
    pose (lp := JDict [("name", JStr "lp"); ("downloads", lp_downloads)]).
    pose (lc := JDict [("name", JStr "lc");
                       ("downloads",
                        JDict [("artifact",
                                JDict [("path", JStr "a/lc.jar");
                                       ("url", JStr "http://x/lc")])])]).
    refine (Hcp classpath s2 E [lc; lp] lp lp_downloads lp_artifact "a/lp.jar"
              eq_refl _ eq_refl eq_refl eq_refl eq_refl eq_refl _).
    + right. left.
    + discriminate.
Defined.

(** ** Conditional arguments *)

Lemma json_format_plain kw w : no_brace w = true -> json_format kw (JStr w) = Ok (JStr w).
Proof.
  intros H. unfold json_format, py_format. rewrite (format_plain_only kw w H). reflexivity.
Qed.

Lemma cat4k_append_all_plain kw ws :
  Forall (fun w => no_brace w = true) ws ->
  cat4k_append_all kw (map JStr ws) = (map JStr ws, Ok tt).
Proof.
  induction 1 as [|w ws Hw _ IH]; [reflexivity|].
  cbn [map cat4k_append_all]. rewrite (json_format_plain kw w Hw), IH. reflexivity.
Qed.

Lemma py_first_plain_char w :
  no_brace w = true ->
  forall c, py_first (JStr w) = Ok c -> exists k, c = JStr k /\ no_brace k = true.
Proof.
  intros H c Hc. destruct w as [|a w]; [discriminate|]. injection Hc as <-.
  eexists. split; [reflexivity|].
  cbn [no_brace] in H |- *. apply andb_true_iff in H as [H _]. rewrite H. reflexivity.
Qed.

(** X15: a conditional game argument is passed on without its rules
    being looked at.  With plain text as value, Cat4k passes every
    element of a list value and a string value as it is; Client.py
    passes only the first element of a list, and of a string only its
    first character. *)
Theorem conditional_game_args_ignore_rules replacements d :
  (forall ws,
      dict_lookup d "value" = Some (JList (map JStr ws)) ->
      Forall (fun w => no_brace w = true) ws ->
      cat4k_game_arg replacements (JDict d) = Ok (map JStr ws) /\
      client_game_arg replacements (JDict d)
      = match ws with
        | [] => Raise IndexError
        | w :: _ => Ok [JStr w]
        end) /\
  (forall w,
      dict_lookup d "value" = Some (JStr w) ->
      no_brace w = true ->
      cat4k_game_arg replacements (JDict d) = Ok [JStr w] /\
      client_game_arg replacements (JDict d)
      = match w with
        | EmptyString => Raise IndexError
        | String c _ => Ok [JStr (String c EmptyString)]
        end).
Proof.
  split.
  - intros ws Hv Hplain.
    unfold cat4k_game_arg, client_game_arg.
    rewrite bool_decide_eq_true_2 by (rewrite Hv; eauto).
    unfold py_item. rewrite Hv. cbn [rbind]. split.
    + unfold cat4k_value. rewrite (cat4k_append_all_plain _ _ Hplain). reflexivity.
    + destruct ws as [|w ws]; [reflexivity|]. cbn [map py_first rbind].
      inversion Hplain as [|? ? Hw _]; subst.
      rewrite (json_format_plain _ _ Hw). reflexivity.
  - intros w Hv Hplain.
    unfold cat4k_game_arg, client_game_arg.
    rewrite bool_decide_eq_true_2 by (rewrite Hv; eauto).
    unfold py_item. rewrite Hv. cbn [rbind]. split.
    + unfold cat4k_value, skip_key_error. rewrite (json_format_plain _ _ Hplain). reflexivity.
    + destruct w as [|c w]; [reflexivity|]. cbn [py_first rbind].
      destruct (py_first_plain_char (String c w) Hplain _ eq_refl) as (k & Hk & Hkp).
      injection Hk as <-. rewrite (json_format_plain _ _ Hkp). reflexivity.
Qed.

Lemma conditional_game_args_ignore_rules_witness :
  cat4k_game_arg []
    (JDict [("rules", JList [JDict [("action", JStr "allow");
                                    ("features", JDict [("is_demo_user", JBool true)])]]);
            ("value", JStr "--demo")])
  = Ok [JStr "--demo"] /\
  client_game_arg []
    (JDict [("rules", JList [JDict [("action", JStr "allow");
                                    ("features", JDict [("is_demo_user", JBool true)])]]);
            ("value", JStr "--demo")])
  = Ok [JStr "-"].
Proof.
  apply (proj2 (conditional_game_args_ignore_rules []
                  [("rules", JList [JDict [("action", JStr "allow");
                                           ("features", JDict [("is_demo_user", JBool true)])]]);
                   ("value", JStr "--demo")]) "--demo").
  - reflexivity.
  - reflexivity.
Defined.

Lemma py_any_action_allow rs :
  py_any (fun r => (a <~ py_item r "action"; Ok (py_eq_str a "allow"))%res) (map rule_json rs)
  = Ok (existsb r_allow rs).
Proof.
  induction rs as [|r rs IH]; [reflexivity|].
  cbn [map py_any existsb].
  destruct r as [[] o a]; cbn; [reflexivity | exact IH].
Qed.

(** X16: a conditional JVM argument with a plain string as value.
    Cat4k adds it as soon as some rule says allow, whatever operating
    system the rule names; Client.py adds it when an allow rule has no
    os or names osx.  With a list as value Client.py raises NameError. *)
Theorem conditional_jvm_args replacements d rs :
  dict_lookup d "rules" = Some (JList (map rule_json rs)) ->
  (forall w,
      dict_lookup d "value" = Some (JStr w) ->
      no_brace w = true ->
      cat4k_jvm_arg replacements (JDict d)
      = Ok (if existsb r_allow rs then [JStr w] else []) /\
      client_jvm_arg replacements (JDict d)
      = Ok (if existsb (allow_applies "osx") rs then [JStr w] else [])) /\
  (forall values,
      dict_lookup d "value" = Some (JList values) ->
      existsb (allow_applies "osx") rs = true ->
      client_jvm_arg replacements (JDict d) = Raise (NameError "v")).
Proof.
  intros Hrules. split.
  - intros w Hv Hplain. split.
    + unfold cat4k_jvm_arg, py_get_d. rewrite Hrules. cbn [rbind py_iter].
      rewrite py_any_action_allow. cbn [rbind].
      destruct (existsb r_allow rs); [|reflexivity].
      unfold py_item. rewrite Hv. cbn [rbind].
      unfold cat4k_value, skip_key_error. rewrite (json_format_plain _ _ Hplain). reflexivity.
    + unfold client_jvm_arg, py_item. rewrite Hrules. cbn [rbind py_iter].
      rewrite py_any_rules. cbn [rbind].
      destruct (existsb (allow_applies "osx") rs); [|reflexivity].
      rewrite Hv. cbn [rbind]. rewrite (json_format_plain _ _ Hplain). reflexivity.
  - intros values Hv Hallow.
    unfold client_jvm_arg, py_item. rewrite Hrules. cbn [rbind py_iter].
    rewrite py_any_rules, Hallow. cbn [rbind]. rewrite Hv. reflexivity.
Qed.

Lemma conditional_jvm_args_witness :
  cat4k_jvm_arg []
    (JDict [("rules", JList [rule_json {| r_allow := true; r_os := Some "windows";
                                          r_arch := None |}]);
            ("value", JStr "-XX:HeapDumpPath=x")])
  = Ok [JStr "-XX:HeapDumpPath=x"] /\
  client_jvm_arg []
    (JDict [("rules", JList [rule_json {| r_allow := true; r_os := Some "windows";
                                          r_arch := None |}]);
            ("value", JStr "-XX:HeapDumpPath=x")])
  = Ok [].
Proof.
  apply (proj1 (conditional_jvm_args []
                  [("rules", JList [rule_json {| r_allow := true; r_os := Some "windows";
                                                 r_arch := None |}]);
                   ("value", JStr "-XX:HeapDumpPath=x")]
                  [{| r_allow := true; r_os := Some "windows"; r_arch := None |}] eq_refl)
           "-XX:HeapDumpPath=x").
  - reflexivity.
  - reflexivity.
Defined.

(** ** What the installer unpacks *)

Lemma unpacks_same {A} (P : string * string -> Prop) (m : M A) :
  (forall s r s', m s = (r, s') -> extracted s' = extracted s) -> unpacks P m.
Proof.
  intros H s r s' E. exists []. rewrite app_nil_r. split; [apply (H _ _ _ E) | constructor].
Qed.

Lemma unpacks_ret {A} P (a : A) : unpacks P (ret a).
Proof. apply unpacks_same. intros s r s' E. inversion E; reflexivity. Qed.

Lemma unpacks_lift {A} P (x : res A) : unpacks P (lift x).
Proof. apply unpacks_same. intros s r s' E. inversion E; reflexivity. Qed.

Lemma unpacks_bind {A B} P (m : M A) (f : A -> M B) :
  unpacks P m -> (forall a, unpacks P (f a)) -> unpacks P (bind m f).
Proof.
  intros Hm Hf s r s' E. unfold bind in E.
  destruct (m s) as [[a|e|] s1] eqn:Em.
  - destruct (Hm _ _ _ Em) as (n1 & E1 & F1). destruct (Hf a _ _ _ E) as (n2 & E2 & F2).
    exists (n1 ++ n2)%list. split; [rewrite E2, E1, app_assoc; reflexivity|].
    apply Forall_app. auto.
  - inversion E; subst. apply (Hm _ _ _ Em).
  - inversion E; subst. apply (Hm _ _ _ Em).
Qed.

Lemma unpacks_for_each {A} P (body : A -> M unit) xs :
  (forall x, unpacks P (body x)) -> unpacks P (for_each xs body).
Proof.
  intros Hb. induction xs as [|x xs IH]; cbn [for_each].
  - apply unpacks_ret.
  - apply unpacks_bind; [apply Hb | intros _; exact IH].
Qed.

Lemma unpacks_json_load P p : unpacks P (json_load p).
Proof.
  apply unpacks_same. intros s r s' E. unfold json_load in E.
  destruct (files s !! p) as [[j| |]|]; inversion E; reflexivity.
Qed.

Lemma unpacks_patch_skin_version P p : unpacks P (patch_skin_version p).
Proof.
  apply unpacks_same. intros s r s' E. unfold patch_skin_version in E.
  destruct (files s !! p) as [[j| |]|]; try (inversion E; reflexivity).
  destruct (bool_decide _); [inversion E; reflexivity|].
  destruct (needs_patch j); inversion E; reflexivity.
Qed.

Lemma unpacks_download P net url p : unpacks P (download_file net url p).
Proof.
  apply unpacks_same. intros s r s' E.
  destruct url as [| | |u| |];
    try (unfold download_file, bind, lift in E; cbn [url_of] in E; inversion E; reflexivity).
  rewrite download_file_unfold in E.
  destruct (has_url_type u); [|inversion E; reflexivity].
  destruct (net (length (requests s)) u); inversion E; reflexivity.
Qed.

Lemma unpacks_unless_file P p m : unpacks P m -> unpacks P (unless_file p m).
Proof.
  intros Hm. unfold unless_file. apply unpacks_bind.
  - apply unpacks_same. intros s r s' E. inversion E; reflexivity.
  - intros present. destruct present; [apply unpacks_ret | exact Hm].
Qed.

Lemma unpacks_extract_natives (P : string * string -> Prop) np dir :
  (forall member, wanted_member member = true -> P (dir, member)) ->
  unpacks P (extract_natives np dir) /\ unpacks P (try_except (extract_natives np dir)).
Proof.
  intros HP.
  assert (Hnew : forall members,
             Forall P (map (fun m => (dir, m))
                         (filter (fun m => wanted_member m = true) members))).
  { intros members. apply Forall_forall. intros e He.
    apply list_elem_of_fmap in He as (m & -> & Hm).
    apply list_elem_of_filter in Hm as [Hw _]. apply HP, Hw. }
  split; intros s r s' E; unfold try_except, extract_natives in E;
    destruct (files s !! np) as [[j|members|]|]; inversion E; subst;
    try (exists []; rewrite app_nil_r; split; [reflexivity | constructor]);
    eexists; (split; [reflexivity | apply Hnew]).
Qed.

Ltac unpacks_go :=
  repeat first
    [ apply unpacks_ret
    | apply unpacks_lift
    | apply unpacks_json_load
    | apply unpacks_download
    | match goal with
      | |- unpacks _ (bind _ _) => apply unpacks_bind; [ | intro ]
      | |- unpacks _ (unless_file _ _) => apply unpacks_unless_file
      | |- unpacks _ (if ?b then _ else _) => destruct b
      end ].

Section InstallerUnpacks.
Variable mc_dir : string.
Variable all_versions : gmap string json.
Variable net : nat -> string -> outcome.
Variable v : variant.

Lemma unpacks_install_library vid lib :
  unpacks (native_entry mc_dir)
    (install_library mc_dir net v (version_folder_of mc_dir vid) lib).
Proof.
  unfold install_library, install_artifact, install_natives. unpacks_go.
  match goal with
  | |- unpacks _ (extract _ ?np ?dir) =>
      destruct (unpacks_extract_natives (native_entry mc_dir) np dir) as [H1 H2]
  end.
  { intros member Hw. split; [exact Hw | exists vid; reflexivity]. }
  unfold extract. destruct (extraction_guarded v); assumption.
Qed.

Lemma unpacks_install_files vid version_data parent_data :
  unpacks (native_entry mc_dir) (install_files mc_dir net v vid version_data parent_data).
Proof.
  unfold install_files, install_client, install_assets, install_objects. unpacks_go.
  - apply unpacks_for_each. intros lib. apply unpacks_install_library.
  - apply unpacks_for_each. intros entry. unfold install_asset. unpacks_go.
Qed.

Lemma unpacks_install_version depth :
  forall version_id,
    unpacks (native_entry mc_dir) (install_version mc_dir all_versions net v depth version_id).
Proof.
  induction depth as [|depth IH]; intros version_id; cbn [install_version].
  - apply unpacks_lift.
  - unfold fetch_descriptor, install_parent, patch_step. unpacks_go.
    + apply IH.
    + apply unpacks_install_files.
    + apply unpacks_patch_skin_version.
Qed.

(** X17: whether install_version returns, raises or is cut short, every
    member it unpacks from a native archive is neither under META-INF/
    nor a directory entry, and is unpacked into the natives folder of a
    version. *)
Theorem install_unpacks_only_wanted depth version_id s r s' :
  install_version mc_dir all_versions net v depth version_id s = (r, s') ->
  exists new,
    extracted s' = (extracted s ++ new)%list /\
    forall dir member,
      (dir, member) ∈ new ->
      starts_with "META-INF/" member = false /\ ends_with "/" member = false /\
      exists vid, dir = path_join (version_folder_of mc_dir vid) "natives".
Proof.
  intros H. destruct (unpacks_install_version depth version_id s r s' H) as (new & E & F).
  exists new. split; [exact E|].
  intros dir member Hin.
  destruct (proj1 (Forall_forall _ _) F _ Hin) as [Hw Hdir]. cbn [fst snd] in Hw, Hdir.
  unfold wanted_member in Hw. apply andb_true_iff in Hw as [H1 H2].
  apply negb_true_iff in H1, H2. auto.
Qed.
End InstallerUnpacks.

Lemma install_unpacks_only_wanted_witness :
  extracted (snd (install_version Example.mc ∅ Example.dead (Cat4k.variant Example.linux)
                    2 (JStr "n") with_natives))
  = [(path_join (version_folder_of Example.mc "n") "natives", "lib/libx.so")] /\
  exists new,
    extracted (snd (install_version Example.mc ∅ Example.dead (Cat4k.variant Example.linux)
                      2 (JStr "n") with_natives))
    = (extracted with_natives ++ new)%list /\
    forall dir member,
      (dir, member) ∈ new ->
      starts_with "META-INF/" member = false /\ ends_with "/" member = false /\
      exists vid, dir = path_join (version_folder_of Example.mc vid) "natives".
Proof.
  split; [vm_compute; reflexivity|].
  apply (install_unpacks_only_wanted Example.mc ∅ Example.dead (Cat4k.variant Example.linux)
           2 (JStr "n") with_natives (Ok tt)).
  vm_compute. reflexivity.
Defined.
